(** * yttranscript: a shallow embedding of the transcript-extraction core

    The development follows the Python package [yttranscript]:
    - [models.py]      : [Video.from_url], [TranscriptSegment], [Transcript];
    - [formatters.py]  : [PlainFormatter], [MarkdownFormatter], [get_formatter];
    - [core.py]        : [TranscriptExtractor] ([_fetch_with_retry],
                         [extract_transcript], [_build_transcript]);
    - [exceptions.py]  : the exception classes;
    - [cli.py]         : the command [main].

    Conventions of the embedding.
    - A Python [str] is a Rocq [string]; one [ascii] stands for one code point
      below 256, so [String.length] is Python's [len].
    - A Python [int] is a [Z]; a Python [float] is a rational [Q] (the finite
      floats are rationals; [//] and [%] are taken as the exact floor division
      and remainder, [+] as the exact sum).
    - A call that may raise returns a [result]; a call with effects (remote
      calls, [time.sleep], [random.uniform]) is a function of the [World]. *)

From Stdlib Require Import List String Ascii Bool Arith ZArith QArith Qround Lia.
From Stdlib Require Import DecimalString.
Import ListNotations.

Local Close Scope Q_scope.
Local Open Scope nat_scope.
Local Open Scope list_scope.
Local Open Scope string_scope.

(* ===================================================================== *)
(** * Exceptions and results *)
(* ===================================================================== *)

(** The exception classes that can travel through the package. Every one of
    them derives from Python's [Exception]; the argument is [str(e)]. *)
Inductive exn : Type :=
  (* youtube_transcript_api._errors, as imported by core.py *)
  | TranscriptsDisabled (msg : string)
  | NoTranscriptFound (msg : string)
  | VideoUnavailable (msg : string)
  | YouTubeRequestFailed (msg : string)
  | RequestBlocked (msg : string)
  (* built-in exceptions *)
  | IndexError (msg : string)
  | KeyError (msg : string)
  | TypeError (msg : string)
  | ValueError (msg : string)
  (* any other subclass of Exception raised by a remote call *)
  | OtherException (msg : string)
  (* yttranscript/exceptions.py *)
  | InvalidUrlError (msg : string)
  | TranscriptNotAvailableError (msg : string)
  | LanguageNotFoundError (msg : string)
  | NetworkError (msg : string)
  | FileOutputError (msg : string).

(** [str(e)] *)
Definition str_exn (e : exn) : string :=
  match e with
  | TranscriptsDisabled m | NoTranscriptFound m | VideoUnavailable m
  | YouTubeRequestFailed m | RequestBlocked m
  | IndexError m | KeyError m | TypeError m | ValueError m | OtherException m
  | InvalidUrlError m | TranscriptNotAvailableError m
  | LanguageNotFoundError m | NetworkError m | FileOutputError m => m
  end.

Inductive result (A : Type) : Type :=
  | Return (a : A)
  | Raise (e : exn).
Arguments Return {A} a.
Arguments Raise {A} e.

Definition rbind {A B} (r : result A) (k : A -> result B) : result B :=
  match r with
  | Return a => k a
  | Raise e => Raise e
  end.

(* ===================================================================== *)
(** * Python string built-ins *)
(* ===================================================================== *)

Module PyStr.

Definition code (c : ascii) : N := N_of_ascii c.

Definition between (lo hi : N) (c : ascii) : bool :=
  ((lo <=? code c) && (code c <=? hi))%N.

(** [c.isalnum()] for a code point below 256: the Unicode letters and
    numeric characters of that range. *)
Definition chr_isalnum (c : ascii) : bool :=
  between 48 57 c || between 65 90 c || between 97 122 c
  || (code c =? 170)%N || between 178 179 c || (code c =? 181)%N
  || between 185 186 c || between 188 190 c
  || between 192 214 c || between 216 246 c || between 248 255 c.

(** [c.isspace()] for a code point below 256. *)
Definition chr_isspace (c : ascii) : bool :=
  between 9 13 c || between 28 32 c || (code c =? 133)%N || (code c =? 160)%N.

Definition chr_isascii_alpha (c : ascii) : bool :=
  between 65 90 c || between 97 122 c.

Definition chr_lower (c : ascii) : ascii :=
  if between 65 90 c then ascii_of_N (code c + 32) else c.

Fixpoint str_forall (p : ascii -> bool) (s : string) : bool :=
  match s with
  | EmptyString => true
  | String c s' => p c && str_forall p s'
  end.

Fixpoint str_map (f : ascii -> ascii) (s : string) : string :=
  match s with
  | EmptyString => EmptyString
  | String c s' => String (f c) (str_map f s')
  end.

(** [s.isalnum()]: every character is alphanumeric and there is at least
    one character. *)
Definition isalnum (s : string) : bool :=
  match s with
  | EmptyString => false
  | _ => str_forall chr_isalnum s
  end.

(** [sep.join(parts)] *)
Fixpoint join (sep : string) (parts : list string) : string :=
  match parts with
  | [] => ""
  | [p] => p
  | p :: rest => p ++ sep ++ join sep rest
  end.

(** [s.split(sep)] for a non-empty [sep]: [skip] counts the characters of a
    separator just recognised that are still to be stepped over, [cur] is
    the piece being read. *)
Fixpoint split_from (sep : string) (skip : nat) (cur s : string) : list string :=
  match s with
  | EmptyString => [cur]
  | String c s' =>
      match skip with
      | S k => split_from sep k cur s'
      | O =>
          if prefix sep s
          then cur :: split_from sep (String.length sep - 1) "" s'
          else split_from sep 0 (cur ++ String c "") s'
      end
  end.

Definition split (sep s : string) : list string := split_from sep 0 "" s.

(** [s.replace(old, new)] for a non-empty [old]. *)
Definition replace (old new s : string) : string := join new (split old s).

(** [sub in s] *)
Fixpoint contains (sub s : string) : bool :=
  prefix sub s ||
  match s with
  | EmptyString => false
  | String _ s' => contains sub s'
  end.

(** [s.find(c) ] for a single character, as [before, after] when found:
    this is [s.split(c, 1)] when [c in s]. *)
Fixpoint split_once (c : ascii) (s : string) : option (string * string) :=
  match s with
  | EmptyString => None
  | String d s' =>
      if Ascii.eqb c d then Some ("", s')
      else match split_once c s' with
           | Some (a, b) => Some (String d a, b)
           | None => None
           end
  end.

(** [s.lstrip(chars)] with the set [chars] given as a predicate. *)
Fixpoint lstrip_by (p : ascii -> bool) (s : string) : string :=
  match s with
  | EmptyString => EmptyString
  | String c s' => if p c then lstrip_by p s' else s
  end.

Fixpoint rev_str (acc s : string) : string :=
  match s with
  | EmptyString => acc
  | String c s' => rev_str (String c acc) s'
  end.

Definition rstrip_by (p : ascii -> bool) (s : string) : string :=
  rev_str "" (lstrip_by p (rev_str "" s)).

(** [s.strip()] *)
Definition strip (s : string) : string :=
  rstrip_by chr_isspace (lstrip_by chr_isspace s).

(** [l[i]] on a list *)
Definition index {A} (l : list A) (i : nat) : result A :=
  match nth_error l i with
  | Some a => Return a
  | None => Raise (IndexError "list index out of range")
  end.

End PyStr.

(* ===================================================================== *)
(** * [urllib.parse]: the part of the standard library used by [from_url] *)
(* ===================================================================== *)

(** [urlparse] and [parse_qs] belong to the Python standard library. They
    are modelled after CPython's [urllib/parse.py]: leading control
    characters and spaces are dropped, tabs and newlines removed, then the
    scheme, the network location, the fragment, the query and the parameters
    are split off in that order. Two checks of the library are outside the
    model: the validation of a bracketed (IPv6) host and the NFKC check of a
    non-ASCII host. [unquote] decodes an escape [%XX] to the code point [XX],
    which is what Python yields for escapes below [%80]. *)
Module UrlLib.
Import PyStr.

Record ParseResult : Type := mkParseResult {
  scheme : string;
  netloc : string;
  path : string;
  params : string;
  query : string;
  fragment : string
}.

Definition is_char (c d : ascii) : bool := Ascii.eqb c d.

Definition scheme_char (c : ascii) : bool :=
  between 97 122 c || between 65 90 c || between 48 57 c
  || is_char "+" c || is_char "-" c || is_char "." c.

Definition uses_params : list string :=
  [""; "ftp"; "hdl"; "prospero"; "http"; "imap"; "https"; "shttp"; "rtsp";
   "rtspu"; "sip"; "sips"; "mms"; "sftp"; "tel"].

Definition split_scheme (url : string) : string * string :=
  match split_once ":" url with
  | Some (String c0 pre, rest) =>
      if chr_isascii_alpha c0 && str_forall scheme_char (String c0 pre)
      then (str_map chr_lower (String c0 pre), rest)
      else ("", url)
  | _ => ("", url)
  end.

(** [_splitnetloc(url, 2)] after the leading [//] has been removed: the
    host runs up to the first of [/], [?], [#]. *)
Fixpoint span_netloc (s : string) : string * string :=
  match s with
  | EmptyString => ("", "")
  | String c s' =>
      if is_char "/" c || is_char "?" c || is_char "#" c then ("", s)
      else let (h, r) := span_netloc s' in (String c h, r)
  end.

Definition split_netloc (url : string) : string * string :=
  match url with
  | String "/" (String "/" rest) => span_netloc rest
  | _ => ("", url)
  end.

(** [url.rfind('/')] as the text up to and including the last slash, and
    the text after it. *)
Fixpoint after_last_slash (s : string) : option (string * string) :=
  match s with
  | EmptyString => None
  | String c s' =>
      match after_last_slash s' with
      | Some (a, b) => Some (String c a, b)
      | None => if is_char "/" c then Some (String c "", s') else None
      end
  end.

Definition splitparams (url : string) : string * string :=
  match after_last_slash url with
  | Some (dir, last) =>
      match split_once ";" last with
      | Some (a, b) => (dir ++ a, b)
      | None => (url, "")
      end
  | None =>
      match split_once ";" url with
      | Some (a, b) => (a, b)
      | None => (url, "")
      end
  end.

Definition urlparse (url0 : string) : result ParseResult :=
  let url := lstrip_by (between 0 32) url0 in
  let url := replace (String "010" "") "" (replace (String "013" "")
               "" (replace (String "009" "") "" url)) in
  let (sch, url) := split_scheme url in
  let (loc, url) := split_netloc url in
  if xorb (contains "[" loc) (contains "]" loc)
  then Raise (ValueError "Invalid IPv6 URL")
  else
    let (url, frag) :=
      match split_once "#" url with Some p => p | None => (url, "") end in
    let (url, qry) :=
      match split_once "?" url with Some p => p | None => (url, "") end in
    let (url, prm) :=
      if existsb (String.eqb sch) uses_params && contains ";" url
      then splitparams url else (url, "") in
    Return (mkParseResult sch loc url prm qry frag).

Definition hex_digit (c : ascii) : option N :=
  if between 48 57 c then Some (code c - 48)%N
  else if between 65 70 c then Some (code c - 55)%N
  else if between 97 102 c then Some (code c - 87)%N
  else None.

Fixpoint unquote (s : string) : string :=
  match s with
  | EmptyString => EmptyString
  | String c s' =>
      if is_char "%" c then
        match s' with
        | String h (String l rest) =>
            match hex_digit h, hex_digit l with
            | Some a, Some b => String (ascii_of_N (16 * a + b)) (unquote rest)
            | _, _ => String c (unquote s')
            end
        | _ => String c (unquote s')
        end
      else String c (unquote s')
  end.

Definition plus_to_space (s : string) : string :=
  str_map (fun c => if is_char "+" c then " "%char else c) s.

(** [parse_qsl(qs)] with the default [keep_blank_values=False]. *)
Definition parse_qsl (qs : string) : list (string * string) :=
  match qs with
  | EmptyString => []
  | _ =>
      flat_map
        (fun name_value =>
           match split_once "=" name_value with
           | Some (name, String v0 v) =>
               [(unquote (plus_to_space name),
                 unquote (plus_to_space (String v0 v)))]
           | _ => []
           end)
        (split "&" qs)
  end.

(** A [dict] from names to lists of values, in insertion order. *)
Definition qs_dict : Type := list (string * list string).

Fixpoint dict_append (name value : string) (d : qs_dict) : qs_dict :=
  match d with
  | [] => [(name, [value])]
  | (k, vs) :: d' =>
      if String.eqb k name then (k, (vs ++ [value])%list) :: d'
      else (k, vs) :: dict_append name value d'
  end.

Definition parse_qs (qs : string) : qs_dict :=
  fold_left (fun d nv => dict_append (fst nv) (snd nv) d) (parse_qsl qs) [].

(** [d.get(key, [None])]: the values are [Some], the default is [[None]]. *)
Fixpoint dict_get (key : string) (d : qs_dict) : list (option string) :=
  match d with
  | [] => [None]
  | (k, vs) :: d' => if String.eqb k key then map Some vs else dict_get key d'
  end.

End UrlLib.

(* ===================================================================== *)
(** * models.py: [Video] *)
(* ===================================================================== *)

Module Video.
Import PyStr UrlLib.

Record t : Type := mk {
  video_id : string;
  url : string;
  title : option string;
  duration : option Z;
  available_languages : option (list string)
}.

(** The constructor call [cls(video_id=..., url=...)]: the other fields
    take their default [None]. *)
Definition cls (video_id url : string) : t := mk video_id url None None None.

(** The [if]/[elif]/[else] on the host of [from_url]: the extracted
    [video_id] (possibly [None]) or the exception of the [else] branch. *)
Definition extract_id (url : string) (parsed : ParseResult)
  : result (option string) :=
  if contains "youtube.com" (netloc parsed) then
    if String.eqb (path parsed) "/watch" then
      index (dict_get "v" (parse_qs (query parsed))) 0
    else if prefix "/embed/" (path parsed) then
      rbind (index (split "/embed/" (path parsed)) 1) (fun rest =>
      rbind (index (split "?" rest) 0) (fun v => Return (Some v)))
    else Return None
  else if contains "youtu.be" (netloc parsed) then
    let video_id := lstrip_by (is_char "/") (path parsed) in
    if contains "?" video_id
    then rbind (index (split "?" video_id) 0) (fun v => Return (Some v))
    else Return (Some video_id)
  else Raise (InvalidUrlError ("Invalid YouTube URL format: " ++ url)).

(** [Video.from_url] *)
Definition from_url (url : string) : result t :=
  if (String.length url =? 11)%nat
     && isalnum (replace "_" "" (replace "-" "" url))
  then Return (cls url ("https://youtube.com/watch?v=" ++ url))
  else
    rbind (urlparse url) (fun parsed =>
    rbind (extract_id url parsed) (fun video_id =>
      match video_id with
      | None =>
          Raise (InvalidUrlError ("Could not extract valid video ID from: " ++ url))
      | Some v =>
          if String.eqb v "" || negb (String.length v =? 11)%nat
          then Raise (InvalidUrlError
                        ("Could not extract valid video ID from: " ++ url))
          else Return (cls v url)
      end)).

End Video.


(* ===================================================================== *)
(** * Python numbers: [float] and the format specification [02d] *)
(* ===================================================================== *)

Module PyNum.

(** [a // b] on floats: the floor of the quotient, again a float. *)
Definition floordiv (a b : Q) : Q := inject_Z (Qfloor (a / b)%Q).

(** [a % b] on floats: [a - b * floor(a / b)]. *)
Definition fmod (a b : Q) : Q := (a - b * inject_Z (Qfloor (a / b)))%Q.

(** [int(x)]: truncation towards zero. *)
Definition int (x : Q) : Z := Z.quot (Qnum x) (Zpos (Qden x)).

(** [bool(x)] for a float: every value but zero is true. *)
Definition truthy (x : Q) : bool := negb (Qeq_bool x 0%Q).

(** The decimal digits of a natural number. *)
Definition digits (n : N) : string := NilZero.string_of_uint (N.to_uint n).

Fixpoint zeros (k : nat) : string :=
  match k with
  | O => ""
  | S k' => String "0" (zeros k')
  end.

(** [f"{n:02d}"]: sign-aware zero fill up to a width of two characters. *)
Definition fmt_02d (n : Z) : string :=
  let sign := if (n <? 0)%Z then "-" else "" in
  let ds := digits (Z.abs_N n) in
  sign ++ zeros (2 - String.length sign - String.length ds) ++ ds.

End PyNum.

(* ===================================================================== *)
(** * models.py: [TranscriptSegment] and [Transcript] *)
(* ===================================================================== *)

Module TranscriptSegment.
Import PyNum.

Record t : Type := mk {
  text : string;
  start : option Q;       (* seconds from video start *)
  duration : option Q     (* segment duration in seconds *)
}.

(** The property [end] ([end] is a keyword here, hence the underscore). *)
Definition end_ (self : t) : option Q :=
  match start self, duration self with
  | Some s, Some d => Some (s + d)%Q
  | _, _ => None
  end.

Definition format_timestamp (self : t) : string :=
  match start self with
  | None => ""
  | Some s =>
      let hours := int (floordiv s 3600%Q) in
      let minutes := int (floordiv (fmod s 3600%Q) 60%Q) in
      let seconds := int (fmod s 60%Q) in
      "[" ++ fmt_02d hours ++ ":" ++ fmt_02d minutes ++ ":"
          ++ fmt_02d seconds ++ "]"
  end.

End TranscriptSegment.

Module Transcript.
Import PyNum.

Record t : Type := mk {
  video_id : string;
  language_code : string;
  segments : list TranscriptSegment.t;
  is_generated : bool;      (* auto-generated vs manual *)
  is_translatable : bool
}.

(** The constructor call with the two flags left to their defaults. *)
Definition cls (video_id language_code : string)
           (segments : list TranscriptSegment.t) : t :=
  mk video_id language_code segments false false.

(** Truth value of an [Optional[float]]: [None] and [0.0] are false. *)
Definition opt_truthy (x : option Q) : bool :=
  match x with
  | None => false
  | Some q => truthy q
  end.

(** [self.segments[-1]], defined when the list is not empty. *)
Definition last_segment (self : t) : option TranscriptSegment.t :=
  match segments self with
  | [] => None
  | s :: rest => Some (List.last rest s)
  end.

(** The property [total_duration]:
    [if not self.segments or not self.segments[-1].end: return None]. *)
Definition total_duration (self : t) : option Q :=
  match last_segment self with
  | None => None
  | Some l =>
      if negb (opt_truthy (TranscriptSegment.end_ l)) then None
      else TranscriptSegment.end_ l
  end.

Definition full_text (self : t) : string :=
  PyStr.join " " (map TranscriptSegment.text (segments self)).

Definition len (self : t) : nat := List.length (segments self).

End Transcript.

(* ===================================================================== *)
(** * formatters.py *)
(* ===================================================================== *)

Module Formatters.
Import TranscriptSegment.

Inductive FormatType : Type := PLAIN | MARKDOWN | JSON.

Definition newline : string := String "010" "".

(** The interface [Formatter] (a [Protocol] in the source). *)
Class Formatter (F : Type) : Type :=
  { format : F -> Transcript.t -> bool -> string }.

Inductive PlainFormatter : Type := PlainFormatter_new.
Inductive MarkdownFormatter : Type := MarkdownFormatter_new.

(** One turn of the loop of [PlainFormatter.format]: the line is built by
    [+=] and appended to [lines]. *)
Definition plain_step (include_timestamps : bool)
           (lines : list string) (segment : TranscriptSegment.t) : list string :=
  let line := "" in
  let line :=
    match include_timestamps, start segment with
    | true, Some _ => line ++ (format_timestamp segment ++ " ")
    | _, _ => line
    end in
  let line := line ++ text segment in
  (lines ++ [line])%list.

Definition plain_format (transcript : Transcript.t) (include_timestamps : bool)
  : string :=
  PyStr.join newline
    (fold_left (plain_step include_timestamps) (Transcript.segments transcript) []).

(** One turn of the loop of [MarkdownFormatter.format]. *)
Definition markdown_step (include_timestamps : bool)
           (lines : list string) (segment : TranscriptSegment.t) : list string :=
  let line := "- " in
  let line :=
    match include_timestamps, start segment with
    | true, Some _ => line ++ ("**" ++ format_timestamp segment ++ "** ")
    | _, _ => line
    end in
  let line := line ++ text segment in
  (lines ++ [line])%list.

Definition markdown_format (transcript : Transcript.t) (include_timestamps : bool)
  : string :=
  PyStr.join newline
    (fold_left (markdown_step include_timestamps)
               (Transcript.segments transcript) []).

#[export] Instance PlainFormatter_Formatter : Formatter PlainFormatter :=
  { format := fun _ => plain_format }.
#[export] Instance MarkdownFormatter_Formatter : Formatter MarkdownFormatter :=
  { format := fun _ => markdown_format }.

(** What [get_formatter] returns: an instance of one of the two classes. *)
Inductive formatter : Type :=
  | APlain (f : PlainFormatter)
  | AMarkdown (f : MarkdownFormatter).

#[export] Instance formatter_Formatter : Formatter formatter :=
  { format := fun f =>
      match f with
      | APlain p => format p
      | AMarkdown m => format m
      end }.

(** The argument of [get_formatter]: Python does not check the annotation,
    so the caller may pass a member of [FormatType] or any other value, of
    which only [str(value)] is looked at. *)
Inductive format_arg : Type :=
  | Member (f : FormatType)
  | NotAMember (str_value : string).

Definition get_formatter (format_type : format_arg) : result formatter :=
  match format_type with
  | Member PLAIN => Return (APlain PlainFormatter_new)
  | Member MARKDOWN => Return (AMarkdown MarkdownFormatter_new)
  | Member JSON => Raise (ValueError "JSON format is not yet implemented (P3 feature)")
  | NotAMember v => Raise (ValueError ("Unsupported format type: " ++ v))
  end.

End Formatters.


(* ===================================================================== *)
(** * The world of a run: remote calls, sleeps and random draws *)
(* ===================================================================== *)

(** What a run has done so far. *)
Record World : Type := mkWorld {
  calls : nat;        (* remote calls made (catalog and content fetches) *)
  slept : list Q;     (* the arguments of [time.sleep], oldest first *)
  draws : nat         (* calls of [random.uniform] *)
}.

Definition world0 : World := mkWorld 0 [] 0.

(** An effectful computation: a result (or an exception) and the world after
    it. The world is kept when an exception is raised: a sleep that happened
    stays in the record. *)
Definition M (A : Type) : Type := World -> result A * World.

Definition ret {A} (a : A) : M A := fun w => (Return a, w).
Definition raise {A} (e : exn) : M A := fun w => (Raise e, w).
Definition lift {A} (r : result A) : M A := fun w => (r, w).

Definition bind {A B} (c : M A) (k : A -> M B) : M B :=
  fun w =>
    match c w with
    | (Return a, w') => k a w'
    | (Raise e, w') => (Raise e, w')
    end.

(** [try: body except ...: handler]: [handler e] is [None] when no clause
    matches [e], which then propagates. *)
Definition try_except {A} (body : M A) (handler : exn -> option (M A)) : M A :=
  fun w =>
    match body w with
    | (Return a, w') => (Return a, w')
    | (Raise e, w') =>
        match handler e with
        | Some h => h w'
        | None => (Raise e, w')
        end
    end.

Declare Scope m_scope.
Delimit Scope m_scope with M.
Notation "x <- c ;; k" := (bind c (fun x => k))
  (at level 61, c at next level, right associativity) : m_scope.
Notation "c ;;; k" := (bind c (fun _ => k))
  (at level 61, right associativity) : m_scope.

(** [time.sleep(delay)] *)
Definition sleep (delay : Q) : M unit :=
  fun w => (Return tt, mkWorld (calls w) (slept w ++ [delay])%list (draws w)).

(* ===================================================================== *)
(** * The Transcript Source: the package [youtube_transcript_api] *)
(* ===================================================================== *)

Module Api.

(** One raw timed-text entry as the source hands it over: an object with
    attributes (an attribute other than [text] may be missing) or a
    mapping (any key may be missing). *)
Inductive RawItem : Type :=
  | Snippet (text : string) (start duration : option Q)
  | Mapping (text : option string) (start duration : option Q).

(** Modelled from the spec: a track of the catalog ("language code, display
    name, human/auto-generated flag, translatable flag"), an object of the
    package [youtube_transcript_api], which is not part of the repository. *)
Record Track : Type := mkTrack {
  language_code : string;
  language : string;
  is_generated : bool;
  translation_languages : list string
}.

(** Modelled from the spec: the catalog returned by [api.list]: the tracks
    in the iteration order of the object, and [truth], the value of
    [bool(transcript_list)]. An object whose class defines neither
    [__bool__] nor [__len__] is always true; a plain list is true when it is
    not empty. The field keeps both readings available. *)
Record TranscriptList : Type := mkList {
  tracks : list Track;
  truth : bool
}.

(** Modelled from the spec: [transcript_list.find_transcript(codes)],
    "look up exactly that language code in the catalog (not a
    translation)"; [NoTranscriptFound] when no requested code is there. *)
Fixpoint find_transcript (tl : TranscriptList) (language_codes : list string)
  : result Track :=
  match language_codes with
  | [] => Raise (NoTranscriptFound "no transcript found")
  | c :: rest =>
      match find (fun t => String.eqb (language_code t) c) (tracks tl) with
      | Some t => Return t
      | None => find_transcript tl rest
      end
  end.

(** The remote service and the random generator of one run. The outcome of
    a remote call may change from one call to the next: it is a function of
    the number of remote calls made before it. *)
Record Service : Type := mkService {
  (* [self.api.list(video_id)] *)
  list_ : string -> nat -> result TranscriptList;
  (* [transcript.fetch()] *)
  fetch_ : Track -> nat -> result (list RawItem);
  (* [random.random()], a float of the interval [0, 1) *)
  random_ : nat -> Q
}.

End Api.

(* ===================================================================== *)
(** * core.py: [TranscriptExtractor] *)
(* ===================================================================== *)

Module TranscriptExtractor.
Import Api.
Local Open Scope m_scope.

(** One entry of the list returned by [list_available_languages]: a dict
    with the keys [language_code], [language], [is_generated] and
    [is_translatable]. *)
Record LanguageInfo : Type := mkLanguageInfo {
  info_language_code : string;
  info_language : string;
  info_is_generated : bool;
  info_is_translatable : bool
}.

Section Extractor.

(** The collaborators and [self.max_retries]. *)
Variable svc : Service.
Variable max_retries : Z.

(** A remote call with the given outcomes: it is counted in the world. *)
Definition remote {A} (outcome : nat -> result A) : M A :=
  fun w => (outcome (calls w), mkWorld (S (calls w)) (slept w) (draws w)).

(** [random.uniform(a, b)] is [a + (b - a) * random()]. *)
Definition random_uniform (a b : Q) : M Q :=
  fun w => (Return (a + (b - a) * random_ svc (draws w))%Q,
            mkWorld (calls w) (slept w) (S (draws w))).

(** [range(n)] *)
Definition range (n : Z) : list Z := map Z.of_nat (seq 0 (Z.to_nat n)).

(** [raise last_exception] after the loop: raising [None] is a
    [TypeError]. *)
Definition raise_last {A} (last_exception : option exn) : M A :=
  match last_exception with
  | Some e => raise e
  | None => raise (TypeError "exceptions must derive from BaseException")
  end.

(** The [for attempt in range(self.max_retries)] loop of
    [_fetch_with_retry], on the attempts still to run. *)
Fixpoint retry_loop {A} (fetch_func : M A) (attempts : list Z)
         (last_exception : option exn) : M A :=
  match attempts with
  | [] => raise_last last_exception
  | attempt :: rest =>
      try_except fetch_func (fun e =>
        match e with
        | YouTubeRequestFailed _ | RequestBlocked _ =>
            Some (if (attempt <? max_retries - 1)%Z
                  then (jitter <- random_uniform 0%Q 1%Q ;;
                        sleep (inject_Z (2 ^ attempt) + jitter)%Q ;;;
                        retry_loop fetch_func rest (Some e))
                  else raise e)
        | TranscriptsDisabled _ | NoTranscriptFound _ | VideoUnavailable _ =>
            Some (raise e)
        | _ =>
            Some (if (attempt <? max_retries - 1)%Z
                  then (jitter <- random_uniform 0%Q 1%Q ;;
                        sleep (inject_Z (2 ^ attempt) + jitter)%Q ;;;
                        retry_loop fetch_func rest (Some e))
                  else raise e)
        end)
  end.

Definition _fetch_with_retry {A} (fetch_func : M A) : M A :=
  retry_loop fetch_func (range max_retries) None.

(** One raw entry to one segment, as in the loop of [_build_transcript]. *)
Definition build_segment (item : RawItem) : result TranscriptSegment.t :=
  match item with
  | Snippet text start duration =>
      Return (TranscriptSegment.mk (PyStr.strip text) start duration)
  | Mapping (Some text) start duration =>
      Return (TranscriptSegment.mk (PyStr.strip text) start duration)
  | Mapping None _ _ => Raise (KeyError "'text'")
  end.

Fixpoint build_segments (segments : list TranscriptSegment.t)
         (transcript_data : list RawItem) : result (list TranscriptSegment.t) :=
  match transcript_data with
  | [] => Return segments
  | item :: rest =>
      rbind (build_segment item) (fun segment =>
      build_segments (segments ++ [segment])%list rest)
  end.

Definition _build_transcript (video_id language_code : string)
           (transcript_data : list RawItem) : result Transcript.t :=
  rbind (build_segments [] transcript_data) (fun segments =>
  Return (Transcript.cls video_id language_code segments)).

(** Truth value of an [Optional[str]]: [None] and [''] are false. *)
Definition str_truthy (language : option string) : bool :=
  match language with
  | None | Some EmptyString => false
  | Some _ => true
  end.

(** The value of [language] where the source uses it as a string. *)
Definition str_value (language : option string) : string :=
  match language with
  | Some l => l
  | None => "None"
  end.

(** The body of the [try] of [extract_transcript] (lines 56 to 78). *)
Definition extract_body (video_id : string) (language : option string)
  : M Transcript.t :=
  transcript_list <- _fetch_with_retry (remote (list_ svc video_id)) ;;
  if str_truthy language then
    transcript <- lift (find_transcript transcript_list [str_value language]) ;;
    transcript_data <- remote (fetch_ svc transcript) ;;
    lift (_build_transcript video_id (str_value language) transcript_data)
  else
    try_except
      (transcript <- lift (find_transcript transcript_list ["en"]) ;;
       transcript_data <- remote (fetch_ svc transcript) ;;
       lift (_build_transcript video_id "en" transcript_data))
      (fun e =>
         match e with
         | NoTranscriptFound _ =>
             Some (if truth transcript_list then
                     first_transcript <- lift (PyStr.index (tracks transcript_list) 0) ;;
                     transcript_data <- remote (fetch_ svc first_transcript) ;;
                     lift (_build_transcript video_id
                             (language_code first_transcript) transcript_data)
                   else
                     raise (TranscriptNotAvailableError
                              ("No transcripts available for video " ++ video_id)))
         | _ => None
         end).

(** The [except] clauses of [extract_transcript] (lines 80 to 112), in
    the order of the source; each one raises a new exception. *)
Definition extract_handlers (video_id : string) (language : option string)
           (e : exn) : exn :=
  match e with
  | TranscriptsDisabled _ =>
      TranscriptNotAvailableError
        ("Transcripts are disabled for video " ++ video_id ++ ". "
         ++ "The video may be private or have transcripts turned off.")
  | NoTranscriptFound _ =>
      if str_truthy language then
        LanguageNotFoundError
          ("No transcript found for language '" ++ str_value language
           ++ "' in video " ++ video_id ++ ". "
           ++ "Use --list-languages to see available options.")
      else
        TranscriptNotAvailableError
          ("No transcript available for video " ++ video_id ++ ". "
           ++ "The video may not have transcripts or may be private.")
  | VideoUnavailable _ =>
      TranscriptNotAvailableError
        ("Video " ++ video_id ++ " is unavailable. "
         ++ "It may be private, deleted, or region-restricted.")
  | YouTubeRequestFailed _ =>
      NetworkError
        ("YouTube request failed. Please wait and try again later. "
         ++ "Original error: " ++ str_exn e)
  | RequestBlocked _ =>
      NetworkError
        ("Request blocked by YouTube. Please wait and try again later. "
         ++ "Original error: " ++ str_exn e)
  | _ => NetworkError ("Network error occurred: " ++ str_exn e)
  end.

Definition extract_transcript (video_id : string) (language : option string)
  : M Transcript.t :=
  try_except (extract_body video_id language)
             (fun e => Some (raise (extract_handlers video_id language e))).

(** One turn of the loop of [list_available_languages]: the dict of one
    track is appended to [languages]. [bool(translation_languages)] is true
    of a list that is not empty. *)
Definition languages_step (languages : list LanguageInfo) (transcript : Track)
  : list LanguageInfo :=
  (languages ++
   [mkLanguageInfo (language_code transcript) (language transcript)
      (is_generated transcript)
      (match translation_languages transcript with [] => false | _ => true end)])%list.

(** The body of the [try] of [list_available_languages] (lines 128 to 141). *)
Definition list_body (video_id : string) : M (list LanguageInfo) :=
  transcript_list <- _fetch_with_retry (remote (list_ svc video_id)) ;;
  ret (fold_left languages_step (tracks transcript_list) []).

(** The [except] clauses of [list_available_languages] (lines 143 to 152). *)
Definition list_handlers (video_id : string) (e : exn) : exn :=
  match e with
  | TranscriptsDisabled _ =>
      TranscriptNotAvailableError ("Transcripts are disabled for video " ++ video_id)
  | VideoUnavailable _ =>
      TranscriptNotAvailableError ("Video " ++ video_id ++ " is unavailable")
  | _ => NetworkError ("Failed to list languages: " ++ str_exn e)
  end.

Definition list_available_languages (video_id : string) : M (list LanguageInfo) :=
  try_except (list_body video_id)
             (fun e => Some (raise (list_handlers video_id e))).

(** [_detect_language]: the catalog is asked for directly; the loop returns
    at its first turn; any exception is passed over and ['unknown'] is
    returned after the [try]. *)
Definition _detect_language (video_id : string) : M string :=
  try_except
    (transcript_list <- remote (list_ svc video_id) ;;
     match tracks transcript_list with
     | transcript :: _ => ret (language_code transcript)
     | [] => ret "unknown"
     end)
    (fun _ => Some (ret "unknown")).

End Extractor.

End TranscriptExtractor.

(* ===================================================================== *)
(** * cli.py: the command [main] *)
(* ===================================================================== *)

(** [main] is the callback of a [click] command. It is modelled as a
    function of its seven parameters, of the remote service, and of the
    host it runs on: what [click.echo] prints is recorded call by call,
    [sys.exit(n)] ends the run with the status [n] (a [SystemExit] is no
    [Exception], so no [except] clause of [main] catches it), and the file
    system and the confirmation prompt answer through the record [Host]. *)
Module Cli.
Import Api TranscriptExtractor Formatters.

(** What the run leaves behind on the host. *)
Inductive event : Type :=
  | Stdout (message : string)              (* click.echo(message) *)
  | Stderr (message : string)              (* click.echo(message, err=True) *)
  | MadeParentOf (path : string)           (* output_path.parent.mkdir(...) *)
  | Wrote (path content : string).         (* output_path.write_text(content) *)

(** The host: [output_path.exists()], the answer to [click.confirm], and
    the [OSError] (its message) that [mkdir] or [write_text] raises. *)
Record Host : Type := mkHost {
  exists_ : string -> bool;
  confirm_ : string -> bool;
  mkdir_error : string -> option string;
  write_error : string -> option string
}.

Record State : Type := mkState {
  world : World;
  trace : list event
}.

(** How a computation of [main] ends: with a value, with an exception, or
    with [sys.exit]. *)
Inductive signal (A : Type) : Type :=
  | Val (a : A)
  | Exc (e : exn)
  | SysExit (code : Z).
Arguments Val {A} a.
Arguments Exc {A} e.
Arguments SysExit {A} code.

Definition C (A : Type) : Type := State -> signal A * State.

Definition cret {A} (a : A) : C A := fun s => (Val a, s).
Definition cexc {A} (e : exn) : C A := fun s => (Exc e, s).
Definition sys_exit {A} (code : Z) : C A := fun s => (SysExit code, s).

Definition cbind {A B} (c : C A) (k : A -> C B) : C B :=
  fun s =>
    match c s with
    | (Val a, s') => k a s'
    | (Exc e, s') => (Exc e, s')
    | (SysExit n, s') => (SysExit n, s')
    end.

Definition ctry {A} (body : C A) (handler : exn -> option (C A)) : C A :=
  fun s =>
    match body s with
    | (Exc e, s') =>
        match handler e with
        | Some h => h s'
        | None => (Exc e, s')
        end
    | other => other
    end.

Declare Scope cli_scope.
Delimit Scope cli_scope with cli.
Notation "x <~ c ;; k" := (cbind c (fun x => k))
  (at level 61, c at next level, right associativity) : cli_scope.
Notation "c ;;; k" := (cbind c (fun _ => k))
  (at level 61, right associativity) : cli_scope.
Local Open Scope cli_scope.

Definition emit (e : event) : C unit :=
  fun s => (Val tt, mkState (world s) (trace s ++ [e])%list).

Definition echo (line : string) : C unit := emit (Stdout line).
Definition echo_err (line : string) : C unit := emit (Stderr line).

(** A pure call that may raise. *)
Definition of_result {A} (r : result A) : C A :=
  match r with
  | Return a => cret a
  | Raise e => cexc e
  end.

(** A call of the extractor: it acts on the world of the remote calls. *)
Definition of_M {A} (m : M A) : C A :=
  fun s =>
    match m (world s) with
    | (Return a, w') => (Val a, mkState w' (trace s))
    | (Raise e, w') => (Exc e, mkState w' (trace s))
    end.

(** [s.lower()] on code points below 256. *)
Definition chr_lower (c : ascii) : ascii :=
  if PyStr.between 65 90 c || PyStr.between 192 214 c || PyStr.between 216 222 c
  then ascii_of_N (PyStr.code c + 32) else c.

Definition lower (s : string) : string := PyStr.str_map chr_lower s.

(** [FormatType(value)]: the member with that value, or a [ValueError]. *)
Definition FormatType_of (value : string) : result FormatType :=
  if String.eqb value "plain" then Return PLAIN
  else if String.eqb value "markdown" then Return MARKDOWN
  else if String.eqb value "json" then Return JSON
  else Raise (ValueError ("'" ++ value ++ "' is not a valid FormatType")).

(** Truth value of an [Optional[str]]. *)
Definition given (x : option string) : bool :=
  match x with
  | None | Some EmptyString => false
  | Some _ => true
  end.

(** The loop over the languages of the listing. *)
Fixpoint echo_languages (languages : list LanguageInfo) : C unit :=
  match languages with
  | [] => cret tt
  | lang_info :: rest =>
      let status :=
        if info_is_generated lang_info then " (auto-generated)" else "" in
      echo ("- " ++ info_language_code lang_info ++ " ("
                 ++ info_language lang_info ++ ")" ++ status) ;;;
      echo_languages rest
  end.

Section Main.
Variable host : Host.
Variable svc : Service.
Variables (url output_format : string) (output_file language_code : option string).
Variables (timestamps list_languages force : bool).

(** [TranscriptExtractor()] *)
Definition default_retries : Z := 3.

(** Lines 87 to 92. *)
Definition resolve : C Video.t :=
  ctry (of_result (Video.from_url url))
       (fun e =>
          match e with
          | InvalidUrlError _ =>
              Some (echo_err ("Error: " ++ str_exn e) ;;;
                    echo_err "Expected format: https://youtube.com/watch?v=VIDEO_ID, https://youtu.be/VIDEO_ID, or VIDEO_ID" ;;;
                    sys_exit 1)
          | _ => None
          end).

(** Lines 98 to 119: the branch of [--list-languages], up to its
    [return]. *)
Definition listing (video : Video.t) : C unit :=
  (if given output_file || timestamps || negb (String.eqb output_format "plain")
   then echo_err "Error: --list-languages cannot be used with other output options" ;;;
        sys_exit 1
   else cret tt) ;;;
  echo "Fetching available languages..." ;;;
  ctry (languages <~ of_M (list_available_languages svc default_retries
                             (Video.video_id video)) ;;
        (match languages with
         | [] => echo "No transcript languages available for this video." ;;;
                 sys_exit 1
         | _ => cret tt
         end) ;;;
        echo "Available languages:" ;;;
        echo_languages languages)
       (fun e =>
          match e with
          | TranscriptNotAvailableError _ | NetworkError _ =>
              Some (echo_err ("Error: " ++ str_exn e) ;;; sys_exit 2)
          | _ => None
          end).

(** Lines 122 to 130. *)
Definition fetching (video : Video.t) : C Transcript.t :=
  echo "Fetching transcript..." ;;;
  ctry (of_M (extract_transcript svc default_retries (Video.video_id video)
                language_code))
       (fun e =>
          match e with
          | LanguageNotFoundError _ =>
              Some (echo_err ("Error: " ++ str_exn e) ;;; sys_exit 3)
          | TranscriptNotAvailableError _ | NetworkError _ =>
              Some (echo_err ("Error: " ++ str_exn e) ;;; sys_exit 2)
          | _ => None
          end).

(** Lines 133 to 139. *)
Definition formatting (transcript : Transcript.t) : C string :=
  ctry (format_type <~ of_result (FormatType_of (lower output_format)) ;;
        formatter <~ of_result (get_formatter (Member format_type)) ;;
        cret (format formatter transcript timestamps))
       (fun e =>
          match e with
          | ValueError _ => Some (echo_err ("Error: " ++ str_exn e) ;;; sys_exit 1)
          | _ => None
          end).

(** Lines 143 to 160: the [try] that writes the file; an [OSError] of
    [mkdir] or [write_text] is raised again as a [FileOutputError]. *)
Definition writing (path formatted_content : string) : C unit :=
  (if exists_ host path && negb force then
     if negb (confirm_ host ("File '" ++ path ++ "' already exists. Overwrite?"))
     then echo "Operation cancelled." ;;; sys_exit 0
     else cret tt
   else cret tt) ;;;
  match mkdir_error host path with
  | Some msg =>
      cexc (FileOutputError ("Failed to write to '" ++ path ++ "': " ++ msg))
  | None =>
      emit (MadeParentOf path) ;;;
      match write_error host path with
      | Some msg =>
          cexc (FileOutputError ("Failed to write to '" ++ path ++ "': " ++ msg))
      | None =>
          emit (Wrote path formatted_content) ;;;
          echo ("Transcript saved to '" ++ path ++ "'")
      end
  end.

(** Lines 142 to 163. *)
Definition output (formatted_content : string) : C unit :=
  match output_file with
  | Some (String c rest) => writing (String c rest) formatted_content
  | _ => echo formatted_content
  end.

(** The body of the outer [try] (lines 86 to 163). *)
Definition main_body : C unit :=
  video <~ resolve ;;
  if list_languages then listing video
  else
    transcript <~ fetching video ;;
    formatted_content <~ formatting transcript ;;
    output formatted_content.

(** The [except] clauses of the outer [try] (lines 165 to 176); there is no
    [KeyboardInterrupt] in this model. *)
Definition main_handlers (e : exn) : C unit :=
  match e with
  | FileOutputError _ => echo_err ("Error: " ++ str_exn e) ;;; sys_exit 5
  | InvalidUrlError _ | TranscriptNotAvailableError _
  | LanguageNotFoundError _ | NetworkError _ =>
      echo_err ("Error: " ++ str_exn e) ;;; sys_exit 99
  | _ => echo_err ("Unexpected error: " ++ str_exn e) ;;; sys_exit 99
  end.

Definition main : C unit := ctry main_body (fun e => Some (main_handlers e)).

End Main.

(** The exit status of the process: [0] after a normal return. *)
Definition status (r : signal unit) : option Z :=
  match r with
  | Val _ => Some 0%Z
  | SysExit n => Some n
  | Exc _ => None
  end.

Definition state0 : State := mkState world0 [].

End Cli.

(* ===================================================================== *)
(** * The vocabulary of the specification *)
(* ===================================================================== *)

Module Spec.
Import Api.

(** "transient (rate-limited, transient request failure)" *)
Definition transient (e : exn) : bool :=
  match e with
  | YouTubeRequestFailed _ | RequestBlocked _ => true
  | _ => false
  end.

(** "permanent (transcripts disabled for video, track not found, video
    unavailable)" *)
Definition permanent (e : exn) : bool :=
  match e with
  | TranscriptsDisabled _ | NoTranscriptFound _ | VideoUnavailable _ => true
  | _ => false
  end.

(** The sleeps of a run of retries: the one after attempt [i] lasts
    [2^i] seconds plus the [i]-th jitter. *)
Fixpoint backoffs (attempt : Z) (jitters : list Q) : list Q :=
  match jitters with
  | [] => []
  | j :: rest => (inject_Z (2 ^ attempt) + j)%Q :: backoffs (attempt + 1) rest
  end.

(** The jitters drawn by [k] successive calls of [random.uniform(0, 1)],
    the first of which is draw number [d]. *)
Fixpoint jitters (svc : Service) (d : nat) (k : nat) : list Q :=
  match k with
  | O => []
  | S k' => (0 + (1 - 0) * random_ svc d)%Q :: jitters svc (S d) k'
  end.

(** The contract of [random.random()]: a value of the interval [0, 1). *)
Definition unit_interval (svc : Service) : Prop :=
  forall n, (0 <= random_ svc n < 1)%Q.

(** The world after a failed attempt that is followed by a sleep. *)
Definition backed_off (svc : Service) (attempt : Z) (w : World) : World :=
  mkWorld (S (calls w))
          (slept w ++ [inject_Z (2 ^ attempt) + (0 + (1 - 0) * random_ svc (draws w))]%Q)%list
          (S (draws w)).

(** The line of one segment under the plain renderer: "the segment's text,
    prefixed by the formatted timestamp and a single space exactly when
    include_timestamps is true and the segment's start is present". *)
Definition plain_line (include_timestamps : bool) (seg : TranscriptSegment.t)
  : string :=
  match include_timestamps, TranscriptSegment.start seg with
  | true, Some _ =>
      TranscriptSegment.format_timestamp seg ++ " " ++ TranscriptSegment.text seg
  | _, _ => TranscriptSegment.text seg
  end.

(** The line of one segment under the markdown renderer: it "begins with
    [- ]" and "the timestamp token is wrapped in bold markers". *)
Definition markdown_line (include_timestamps : bool) (seg : TranscriptSegment.t)
  : string :=
  "- " ++
  match include_timestamps, TranscriptSegment.start seg with
  | true, Some _ =>
      "**" ++ TranscriptSegment.format_timestamp seg ++ "**" ++ " "
           ++ TranscriptSegment.text seg
  | _, _ => TranscriptSegment.text seg
  end.

(** The decimal digit of a number below ten. *)
Definition digit (n : Z) : ascii := ascii_of_N (48 + Z.to_N n).

(** A number below one hundred on exactly two digits. *)
Definition two_digits (n : Z) : string :=
  String (digit (n / 10)) (String (digit (n mod 10)) "").

(** The characters allowed in a bare identifier: "alphanumeric, a hyphen,
    or an underscore". *)
Definition id_char (c : ascii) : bool :=
  PyStr.chr_isalnum c || Ascii.eqb c "-" || Ascii.eqb c "_".

Fixpoint str_exists (p : ascii -> bool) (s : string) : bool :=
  match s with
  | EmptyString => false
  | String c s' => p c || str_exists p s'
  end.

(** A string without the occurrences of one character. *)
Fixpoint without (c : ascii) (s : string) : string :=
  match s with
  | EmptyString => EmptyString
  | String d s' => if Ascii.eqb c d then without c s' else String d (without c s')
  end.

(** What the resolver returns for a bare identifier. *)
Definition bare_video (id : string) : Video.t :=
  Video.cls id ("https://youtube.com/watch?v=" ++ id).

(** The sum of a list of durations. *)
Fixpoint total (ds : list Q) : Q :=
  match ds with
  | [] => 0%Q
  | d :: rest => (d + total rest)%Q
  end.

(** The three exception kinds [extract_transcript] documents. *)
Definition package_error (e : exn) : bool :=
  match e with
  | TranscriptNotAvailableError _ | LanguageNotFoundError _ | NetworkError _ => true
  | _ => false
  end.

(** The number of occurrences of a character in a string. *)
Fixpoint occurrences (c : ascii) (s : string) : nat :=
  match s with
  | EmptyString => 0
  | String d s' => (if Ascii.eqb c d then 1 else 0) + occurrences c s'
  end.

(** A raw entry that presents a text: an object with attributes, or a
    mapping with the key [text]. *)
Definition has_text (item : RawItem) : bool :=
  match item with
  | Snippet _ _ _ | Mapping (Some _) _ _ => true
  | Mapping None _ _ => false
  end.

(** The entry of [list_available_languages] for one track. *)
Definition info_of (t : Track) : TranscriptExtractor.LanguageInfo :=
  TranscriptExtractor.mkLanguageInfo
    (language_code t) (language t) (is_generated t)
    (negb (Nat.eqb (List.length (translation_languages t)) 0)).

(** [w'] comes after [w1] with at most [bound] more remote calls, no sleep
    and no draw. *)
Definition quiet (bound : nat) (w1 w' : World) : Prop :=
  calls w1 <= calls w' <= calls w1 + bound
  /\ slept w' = slept w1 /\ draws w' = draws w1.

(** The world after a call of [_fetch_with_retry] that made [c] attempts:
    [c] more remote calls, [c - 1] more sleeps and draws. *)
Definition after_attempts (svc : Service) (w : World) (c : nat) : World :=
  mkWorld (calls w + c)
          (slept w ++ backoffs 0 (jitters svc (draws w) (c - 1)))
          (draws w + (c - 1)).

(** The three fields of a raw entry, absent when the entry does not present
    them. *)
Definition raw_text (item : RawItem) : option string :=
  match item with
  | Snippet text _ _ => Some text
  | Mapping text _ _ => text
  end.

Definition raw_start (item : RawItem) : option Q :=
  match item with
  | Snippet _ start _ | Mapping _ start _ => start
  end.

Definition raw_duration (item : RawItem) : option Q :=
  match item with
  | Snippet _ _ duration | Mapping _ _ duration => duration
  end.

(** A segment that comes from a raw entry: the text stripped, the times as
    they are. *)
Definition assembled (item : RawItem) (seg : TranscriptSegment.t) : Prop :=
  (exists text, raw_text item = Some text
                /\ TranscriptSegment.text seg = PyStr.strip text)
  /\ TranscriptSegment.start seg = raw_start item
  /\ TranscriptSegment.duration seg = raw_duration item.

(** A character that does not occur in a string. *)
Definition absent (b : ascii) (s : string) : bool :=
  PyStr.str_forall (fun c => negb (Ascii.eqb b c)) s.

(** The newlines inside the texts of a list of segments. *)
Fixpoint newlines_in (segs : list TranscriptSegment.t) : nat :=
  match segs with
  | [] => 0
  | seg :: rest =>
      occurrences "010" (TranscriptSegment.text seg) + newlines_in rest
  end.

(** The characters of the texts of a list of segments. *)
Fixpoint text_lengths (segs : list TranscriptSegment.t) : nat :=
  match segs with
  | [] => 0
  | seg :: rest => String.length (TranscriptSegment.text seg) + text_lengths rest
  end.

End Spec.

(* ===================================================================== *)
(** * Sources and operations used in the examples *)
(* ===================================================================== *)

Module Fixtures.
Import Api.

Definition track_en : Track := mkTrack "en" "English" false [].
Definition track_fr : Track := mkTrack "fr" "French (auto-generated)" true ["de"; "en"].

Definition raw_data : list RawItem :=
  [ Mapping (Some "Hello world") (Some 0%Q) (Some (5 # 2)%Q);
    Snippet "  This is a test " (Some (5 # 2)%Q) (Some 3%Q) ].

(** A source whose catalog is given and whose content fetches succeed. *)
Definition svc_of (catalog : TranscriptList) : Service :=
  mkService (fun _ _ => Return catalog) (fun _ _ => Return raw_data)
            (fun _ => (1 # 2)%Q).

(** A source whose catalog holds the English track and whose content fetch
    fails once with a transient error (it is remote call number 1, the
    catalog fetch being number 0) and succeeds from then on. *)
Definition svc_flaky_content : Service :=
  mkService (fun _ _ => Return (mkList [track_en] true))
            (fun _ n => if (n =? 1)%nat then Raise (YouTubeRequestFailed "429")
                        else Return raw_data)
            (fun _ => (1 # 2)%Q).

(** The same transient error on the first catalog fetch instead. *)
Definition svc_flaky_catalog : Service :=
  mkService (fun _ n => if (n =? 0)%nat then Raise (YouTubeRequestFailed "429")
                        else Return (mkList [track_en] true))
            (fun _ _ => Return raw_data)
            (fun _ => (1 # 2)%Q).

(** An operation that fails twice with a transient error, then succeeds. *)
Definition flaky_twice (n : nat) : result nat :=
  match n with
  | 0 | 1 => Raise (RequestBlocked "blocked")
  | _ => Return 7
  end.

(** The catalog with the single auto-generated, translatable French track. *)
Definition catalog_fr : TranscriptList := mkList [track_fr] true.

(** The segments that [raw_data] is assembled to. *)
Definition segments_of_raw_data : list TranscriptSegment.t :=
  [ TranscriptSegment.mk "Hello world" (Some 0%Q) (Some (5 # 2)%Q);
    TranscriptSegment.mk "This is a test" (Some (5 # 2)%Q) (Some 3%Q) ].

(** A transcript whose only segment starts at zero and lasts zero
    seconds. *)
Definition zero_length : Transcript.t :=
  Transcript.cls "dQw4w9WgXcQ" "en"
    [TranscriptSegment.mk "Intro" (Some 0%Q) (Some 0%Q)].

(** Eleven hyphens: every character is a hyphen. *)
Definition only_hyphens : string := "-----------".

(** An operation that fails once with an exception of no known class, then
    with a permanent error. *)
Definition odd_then_disabled (n : nat) : result nat :=
  match n with
  | 0 => Raise (OtherException "connection reset")
  | _ => Raise (TranscriptsDisabled "disabled")
  end.

(** A source whose catalog fetch always fails with the given exception. *)
Definition svc_failing (e : exn) : Service :=
  mkService (fun _ _ => Raise e) (fun _ _ => Return raw_data)
            (fun _ => (1 # 2)%Q).

(** Raw data whose second entry is a mapping without the key [text]. *)
Definition raw_data_missing_text : list RawItem :=
  [ Snippet "Hello" (Some 0%Q) (Some 1%Q); Mapping None (Some 1%Q) (Some 1%Q) ].

(** A source with the given catalog and the given content for every track. *)
Definition svc_with (catalog : TranscriptList) (data : list RawItem) : Service :=
  mkService (fun _ _ => Return catalog) (fun _ _ => Return data)
            (fun _ => (1 # 2)%Q).

(** A catalog with a French track first and an English track second. *)
Definition catalog_fr_en : TranscriptList := mkList [track_fr; track_en] true.

(** A segment that starts after one hour, one minute and 5.7 seconds. *)
Definition late_segment : TranscriptSegment.t :=
  TranscriptSegment.mk "Later" (Some (36657 # 10)%Q) (Some (3 # 2)%Q).

(** A host on which no file exists and every write succeeds. *)
Definition host_fresh : Cli.Host :=
  Cli.mkHost (fun _ => false) (fun _ => false) (fun _ => None) (fun _ => None).

(** A host on which every file exists and the user declines to overwrite. *)
Definition host_declining : Cli.Host :=
  Cli.mkHost (fun _ => true) (fun _ => false) (fun _ => None) (fun _ => None).

(** A host on which no file exists and writing is refused. *)
Definition host_read_only : Cli.Host :=
  Cli.mkHost (fun _ => false) (fun _ => false) (fun _ => None)
             (fun _ => Some "[Errno 13] Permission denied").

(** The transcript that the examples' sources give for the French track. *)
Definition transcript_fr : Transcript.t :=
  Transcript.cls "dQw4w9WgXcQ" "fr" segments_of_raw_data.

End Fixtures.


(* ===================================================================== *)
(** * The retrying fetcher *)
(* ===================================================================== *)

Module RetryFacts.
Import Api TranscriptExtractor Spec.

Section Retry.
Context {A : Type}.
Variable svc : Service.
Variable max_retries : Z.
Variable op : nat -> result A.

Local Abbreviation loop := (retry_loop svc max_retries (remote op)).

Lemma loop_return attempt rest last w v :
  op (calls w) = Return v ->
  loop (attempt :: rest) last w
  = (Return v, mkWorld (S (calls w)) (slept w) (draws w)).
Proof.
  intros H. cbn [retry_loop]. unfold try_except, remote. now rewrite H.
Qed.

Lemma loop_permanent attempt rest last w e :
  op (calls w) = Raise e -> permanent e = true ->
  loop (attempt :: rest) last w
  = (Raise e, mkWorld (S (calls w)) (slept w) (draws w)).
Proof.
  intros H P. cbn [retry_loop]. unfold try_except, remote. rewrite H.
  destruct e; try discriminate P; reflexivity.
Qed.

Lemma loop_retry attempt rest last w e :
  op (calls w) = Raise e -> permanent e = false ->
  (attempt <? max_retries - 1)%Z = true ->
  loop (attempt :: rest) last w = loop rest (Some e) (backed_off svc attempt w).
Proof.
  intros H P L. cbn [retry_loop]. unfold try_except at 1. unfold remote at 1.
  rewrite H.
  destruct e; try discriminate P; rewrite L; reflexivity.
Qed.

Lemma loop_give_up attempt rest last w e :
  op (calls w) = Raise e ->
  (attempt <? max_retries - 1)%Z = false ->
  loop (attempt :: rest) last w
  = (Raise e, mkWorld (S (calls w)) (slept w) (draws w)).
Proof.
  intros H L. cbn [retry_loop]. unfold try_except, remote. rewrite H.
  destruct e; try rewrite L; reflexivity.
Qed.

(** [k] failed attempts in a row, none of them the last one allowed, lead
    to attempt [a + k] in a world with [k] more calls, draws and sleeps. *)
Lemma loop_failures k : forall a n last w,
  (forall i, i < k ->
     exists e, op (calls w + i) = Raise e /\ permanent e = false) ->
  k <= n -> (Z.of_nat (a + k) <= max_retries - 1)%Z -> 0 < k ->
  exists e,
    op (calls w + (k - 1)) = Raise e /\
    loop (map Z.of_nat (seq a n)) last w
    = loop (map Z.of_nat (seq (a + k) (n - k))) (Some e)
           (mkWorld (calls w + k)
                    (slept w ++ backoffs (Z.of_nat a) (jitters svc (draws w) k))
                    (draws w + k)).
Proof.
  induction k as [|k IH]; intros a n last w F Hn Ha Hk; [lia|].
  destruct n as [|n]; [lia|].
  destruct (F 0) as [e0 [E0 P0]]; [lia|]. rewrite Nat.add_0_r in E0.
  cbn [seq map].
  rewrite (loop_retry _ _ _ _ e0 E0 P0) by (apply Z.ltb_lt; lia).
  destruct k as [|k].
  - exists e0. split; [now rewrite Nat.add_0_r|].
    replace (a + 1) with (S a) by lia. cbn [Nat.sub jitters backoffs].
    rewrite Nat.sub_0_r. unfold backed_off.
    now rewrite !Nat.add_1_r.
  - destruct (IH (S a) n (Some e0) (backed_off svc (Z.of_nat a) w)) as [e [E R]];
      try lia.
    + intros i Hi. destruct (F (S i)) as [e [E P]]; [lia|].
      exists e. split; [|exact P]. cbn [backed_off calls].
      now rewrite <- E, Nat.add_succ_comm.
    + exists e. split.
      * rewrite <- E. cbn [backed_off calls]. f_equal. lia.
      * rewrite R. cbn [backed_off calls slept draws].
        replace (S a + S k) with (a + S (S k)) by lia.
        replace (n - S k) with (S n - S (S k)) by lia.
        f_equal. f_equal; try lia.
        rewrite <- app_assoc. cbn [app jitters backoffs].
        now rewrite Nat2Z.inj_succ, Z.add_1_r.
Qed.

End Retry.
End RetryFacts.

Module RetryPolicy.
Import Api TranscriptExtractor Spec RetryFacts.

Lemma transient_not_permanent e : transient e = true -> permanent e = false.
Proof. destruct e; simpl; congruence. Qed.

Lemma jitters_length svc d k : List.length (jitters svc d k) = k.
Proof. revert d; induction k; intros d; simpl; auto. Qed.

Lemma backoffs_length a js : List.length (backoffs a js) = List.length js.
Proof. revert a; induction js; intros a0; simpl; auto. Qed.

Lemma jitters_range svc d k :
  unit_interval svc -> Forall (fun j => (0 <= j < 1)%Q) (jitters svc d k).
Proof.
  intros U. revert d. induction k as [|k IH]; intros d; simpl; constructor; auto.
  destruct (U d) as [L H].
  assert (E : (0 + (1 - 0) * random_ svc d == random_ svc d)%Q) by ring.
  rewrite E. split; assumption.
Qed.

(** The [i]-th sleep lasts [2^i] seconds plus the [i]-th jitter. *)
Lemma backoffs_nth a js i j :
  nth_error js i = Some j ->
  nth_error (backoffs a js) i = Some (inject_Z (2 ^ (a + Z.of_nat i)) + j)%Q.
Proof.
  revert a i. induction js as [|j0 js IH]; intros a [|i] H; simpl in *;
    try discriminate.
  - injection H as ->. now rewrite Z.add_0_r.
  - rewrite (IH _ _ H).
    now replace (a + 1 + Z.of_nat i)%Z with (a + Z.of_nat (S i))%Z by lia.
Qed.

Section Policy.
Context {A : Type}.
Variable svc : Service.
Variable max_retries : Z.
Variable op : nat -> result A.
Variable w : World.
Hypothesis at_least_one : (1 <= max_retries)%Z.

Local Abbreviation run := (_fetch_with_retry svc max_retries (remote op) w).

(** Transient failures on the attempts before [k], then anything but a
    failure that is retried: the outcome of attempt [k] is the outcome of
    the whole call. *)
Lemma run_settled_at k (r : result A) :
  (Z.of_nat k < max_retries)%Z ->
  (forall i, i < k -> exists e, op (calls w + i) = Raise e /\ transient e = true) ->
  op (calls w + k) = r ->
  match r with
  | Return _ => True
  | Raise e => permanent e = true \/ Z.of_nat k = (max_retries - 1)%Z
  end ->
  run = (r, mkWorld (calls w + k + 1)
                    (slept w ++ backoffs 0 (jitters svc (draws w) k))
                    (draws w + k)).
Proof.
  intros Hk F Hr Hfinal. unfold _fetch_with_retry, range.
  assert (final : forall last w',
             calls w' = calls w + k ->
             retry_loop svc max_retries (remote op)
               (map Z.of_nat (seq k (Z.to_nat max_retries - k))) last w'
             = (r, mkWorld (S (calls w')) (slept w') (draws w'))).
  { intros last w' Hc.
    destruct (Z.to_nat max_retries - k) as [|m] eqn:Em; [lia|].
    cbn [seq map]. rewrite <- Hc in Hr. destruct r as [v|e].
    - now apply loop_return.
    - destruct Hfinal as [P|L].
      + now apply loop_permanent.
      + apply loop_give_up; [assumption | apply Z.ltb_ge; lia]. }
  destruct k as [|k].
  - rewrite <- (Nat.sub_0_r (Z.to_nat max_retries)) at 1.
    rewrite final by (simpl; lia). cbn [jitters backoffs].
    rewrite app_nil_r, !Nat.add_0_r, Nat.add_1_r. reflexivity.
  - destruct (loop_failures svc max_retries op (S k) 0 (Z.to_nat max_retries) None w)
      as [e [_ R]]; try lia.
    + intros i Hi. destruct (F i Hi) as [e [E T]].
      exists e. split; [assumption | now apply transient_not_permanent].
    + rewrite R. cbn [Nat.add]. rewrite final by reflexivity.
      cbn [calls slept draws]. now rewrite Nat.add_1_r.
Qed.

End Policy.
End RetryPolicy.

(* ===================================================================== *)
(** * [extract_transcript] *)
(* ===================================================================== *)

Module ExtractFacts.
Import Api TranscriptExtractor Spec.

Lemma str_truthy_some l : l <> "" -> str_truthy (Some l) = true.
Proof. destruct l; simpl; congruence. Qed.

(** Looking up a code that no track of the catalog carries. *)
Lemma find_transcript_absent c l :
  (forall t, In t (tracks c) -> language_code t <> l) ->
  find_transcript c [l] = Raise (NoTranscriptFound "no transcript found").
Proof.
  intros H. cbn [find_transcript].
  destruct (find _ (tracks c)) as [t|] eqn:F; [|reflexivity].
  apply find_some in F. destruct F as [I E].
  apply String.eqb_eq in E. now destruct (H t I).
Qed.

Lemma build_segments_return acc data segs :
  build_segments acc data = Return segs ->
  List.length segs = List.length acc + List.length data.
Proof.
  revert acc. induction data as [|item data IH]; intros acc H; simpl in *.
  - injection H as <-. lia.
  - destruct (build_segment item) as [seg|e]; simpl in H; [|discriminate].
    rewrite (IH _ H), length_app. simpl. lia.
Qed.

(** Whatever [_build_transcript] returns carries the default flags. *)
Lemma build_transcript_flags video_id language_code data t :
  _build_transcript video_id language_code data = Return t ->
  Transcript.is_generated t = false /\ Transcript.is_translatable t = false.
Proof.
  unfold _build_transcript.
  destruct (build_segments [] data); simpl; [|discriminate].
  intros H. injection H as <-. split; reflexivity.
Qed.

Section Extract.
Variable svc : Service.
Variable max_retries : Z.
Variable video_id : string.
Variables (w w1 : World) (catalog : TranscriptList).

(** The catalog fetch, retries included, hands [catalog] over. *)
Hypothesis catalog_fetched :
  _fetch_with_retry svc max_retries (remote (list_ svc video_id)) w
  = (Return catalog, w1).

Local Abbreviation extract := (extract_transcript svc max_retries video_id).

(** No language asked for and an empty catalog: the exception raised in
    the fallback branch is caught by the last [except] clause. *)
Lemma extract_empty_catalog language :
  str_truthy language = false ->
  tracks catalog = [] ->
  extract language w
  = (Raise (NetworkError
              ("Network error occurred: " ++
               if truth catalog then "list index out of range"
               else "No transcripts available for video " ++ video_id)),
     w1).
Proof.
  intros L E. unfold extract_transcript, extract_body, try_except at 1, bind at 1.
  rewrite catalog_fetched, L.
  unfold try_except, bind, lift. cbn [find_transcript]. rewrite E.
  cbn [find]. destruct (truth catalog); reflexivity.
Qed.

(** A language asked for and absent from the catalog. *)
Lemma extract_language_absent l :
  l <> "" ->
  (forall t, In t (tracks catalog) -> language_code t <> l) ->
  extract (Some l) w
  = (Raise (LanguageNotFoundError
              ("No transcript found for language '" ++ l ++ "' in video "
               ++ video_id ++ ". "
               ++ "Use --list-languages to see available options.")),
     w1).
Proof.
  intros N H. unfold extract_transcript, extract_body, try_except at 1, bind at 1.
  rewrite catalog_fetched, (str_truthy_some l N).
  unfold bind, lift. cbn [str_value].
  rewrite (find_transcript_absent _ _ H).
  cbn [extract_handlers raise]. now rewrite (str_truthy_some l N).
Qed.

(** A transient failure of the content fetch of the requested track ends
    the call at once: one more remote call, no sleep, no draw. *)
Lemma extract_content_failure_requested l track e :
  l <> "" ->
  find_transcript catalog [l] = Return track ->
  fetch_ svc track (calls w1) = Raise e ->
  transient e = true ->
  exists msg,
    extract (Some l) w
    = (Raise (NetworkError msg), mkWorld (S (calls w1)) (slept w1) (draws w1)).
Proof.
  intros N F R T. unfold extract_transcript, extract_body, try_except at 1, bind at 1.
  rewrite catalog_fetched, (str_truthy_some l N).
  unfold bind, lift, remote. cbn [str_value]. rewrite F, R.
  destruct e; try discriminate T; eexists; reflexivity.
Qed.

(** The same when no language is asked for and the English track is
    there. *)
Lemma extract_content_failure_default language track e :
  str_truthy language = false ->
  find_transcript catalog ["en"] = Return track ->
  fetch_ svc track (calls w1) = Raise e ->
  transient e = true ->
  exists msg,
    extract language w
    = (Raise (NetworkError msg), mkWorld (S (calls w1)) (slept w1) (draws w1)).
Proof.
  intros N F R T. unfold extract_transcript, extract_body, try_except at 1, bind at 1.
  rewrite catalog_fetched, N.
  unfold try_except, bind, lift, remote. rewrite F, R.
  destruct e; try discriminate T; eexists; reflexivity.
Qed.

End Extract.

(** One step of a run that ends in [Return]: the next call of the body is
    split into its outcomes, and the outcomes that raise are dismissed. *)
Ltac step_returning :=
  match goal with
  | |- context [match find_transcript ?tl ?cs with _ => _ end] =>
      destruct (find_transcript tl cs) as [?tr|?e]
  | |- context [match fetch_ ?s ?tr ?n with _ => _ end] =>
      destruct (fetch_ s tr n) as [?data|?e]
  | |- context [match _build_transcript ?v ?c ?d with _ => _ end] =>
      let B := fresh "B" in destruct (_build_transcript v c d) as [?t|?e] eqn:B
  | |- context [match PyStr.index ?l ?i with _ => _ end] =>
      destruct (PyStr.index l i) as [?ft|?e]
  | |- context [if truth ?tl then _ else _] => destruct (truth tl)
  | |- context [match ?e with TranscriptsDisabled _ => _ | _ => _ end] =>
      is_var e; destruct e
  end;
  try (cbn; discriminate).

(** Every transcript returned by [extract_transcript] was made by
    [_build_transcript]. *)
Lemma extract_returns_built svc max_retries video_id language w t w' :
  extract_transcript svc max_retries video_id language w = (Return t, w') ->
  exists code data, _build_transcript video_id code data = Return t.
Proof.
  unfold extract_transcript, extract_body, try_except at 1, bind at 1.
  destruct (_fetch_with_retry _ _ _ w) as [[tl|e] w1]; [|cbn; discriminate].
  destruct (str_truthy language);
    unfold try_except, bind, lift, remote;
    repeat step_returning;
    intros H; injection H as <- _; eauto.
Qed.

End ExtractFacts.

(* ===================================================================== *)
(** * Timestamps and renderers *)
(* ===================================================================== *)

Module NumFacts.
Import PyNum Spec.

Lemma int_inject_Z z : int (inject_Z z) = z.
Proof. unfold int. simpl. apply Z.quot_1_r. Qed.

Lemma Qfloor_div_pos (x : Q) (p : positive) :
  Qfloor (x / inject_Z (Zpos p))%Q = (Qfloor x / Zpos p)%Z.
Proof.
  destruct x as [n d]. unfold Qdiv, Qinv, Qmult, Qfloor. simpl.
  rewrite Z.mul_1_r, Pos2Z.inj_mul, Z.div_div; [reflexivity | easy | easy].
Qed.

Lemma Qfloor_fmod_pos (x : Q) (p : positive) :
  Qfloor (fmod x (inject_Z (Zpos p))) = (Qfloor x mod Zpos p)%Z.
Proof.
  unfold fmod. rewrite Qfloor_div_pos.
  destruct x as [n d]. unfold Qminus, Qplus, Qopp, Qmult, inject_Z, Qfloor.
  cbn [Qnum Qden]. rewrite !Pos.mul_1_r, Z.mul_1_r.
  rewrite Z.div_add by easy.
  rewrite Z.mod_eq by easy. lia.
Qed.

Lemma fmod_num_nonneg (x : Q) (p : positive) :
  (0 <= Qnum (fmod x (inject_Z (Zpos p))))%Z.
Proof.
  unfold fmod. rewrite Qfloor_div_pos.
  destruct x as [n d]. unfold Qminus, Qplus, Qopp, Qmult, inject_Z, Qfloor.
  cbn [Qnum Qden]. rewrite Z.mul_1_r.
  pose proof (Z.mod_pos_bound n (Zpos d * Zpos p) ltac:(lia)) as B.
  rewrite Z.mod_eq in B by lia.
  rewrite <- Z.div_div in B by lia. nia.
Qed.

Lemma int_nonneg (x : Q) : (0 <= Qnum x)%Z -> int x = Qfloor x.
Proof.
  destruct x as [n d]. unfold int, Qfloor. simpl. intros H.
  apply Z.quot_div_nonneg; lia.
Qed.

Lemma hours_floor (s : Q) : int (floordiv s 3600%Q) = (Qfloor s / 3600)%Z.
Proof. unfold floordiv. rewrite int_inject_Z. apply (Qfloor_div_pos s 3600). Qed.

Lemma minutes_floor (s : Q) :
  int (floordiv (fmod s 3600%Q) 60%Q) = (Qfloor s mod 3600 / 60)%Z.
Proof.
  unfold floordiv. rewrite int_inject_Z.
  rewrite (Qfloor_div_pos _ 60 : Qfloor (_ / 60%Q)%Q = _).
  now rewrite (Qfloor_fmod_pos s 3600 : Qfloor (fmod s 3600%Q) = _).
Qed.

Lemma seconds_floor (s : Q) : int (fmod s 60%Q) = (Qfloor s mod 60)%Z.
Proof.
  rewrite int_nonneg by apply (fmod_num_nonneg s 60).
  apply (Qfloor_fmod_pos s 60).
Qed.

(** [fmt_02d] on the numbers below one hundred, by enumeration. *)
Lemma fmt_02d_below_100_nat (k : nat) :
  k < 100 -> fmt_02d (Z.of_nat k) = two_digits (Z.of_nat k).
Proof.
  intros H.
  do 100 (destruct k as [|k]; [reflexivity|]). lia.
Qed.

Lemma fmt_02d_two_digits (n : Z) :
  (0 <= n < 100)%Z -> fmt_02d n = two_digits n.
Proof.
  intros H. rewrite <- (Z2Nat.id n) by lia.
  apply fmt_02d_below_100_nat. lia.
Qed.

End NumFacts.

Module RenderFacts.
Import PyStr TranscriptSegment Formatters Spec.

Lemma append_assoc (a b c : string) : (a ++ b) ++ c = a ++ (b ++ c).
Proof. induction a as [|x a IH]; simpl; [reflexivity | now rewrite IH]. Qed.

Lemma append_empty_r (a : string) : a ++ "" = a.
Proof. induction a as [|x a IH]; simpl; [reflexivity | now rewrite IH]. Qed.

(** [sep.join] puts the separator between the pieces, not after the last
    one. *)
Lemma join_snoc sep (l : list string) (x : string) :
  join sep (l ++ [x]) =
  match l with
  | [] => x
  | _ => join sep l ++ sep ++ x
  end.
Proof.
  induction l as [|a l IH]; [reflexivity|].
  destruct l as [|b l]; [reflexivity|].
  change (join sep ((a :: b :: l) ++ [x]))
    with (a ++ sep ++ join sep ((b :: l) ++ [x])).
  rewrite IH.
  change (join sep (a :: b :: l)) with (a ++ sep ++ join sep (b :: l)).
  now rewrite !append_assoc.
Qed.

Lemma plain_step_line ts lines seg :
  plain_step ts lines seg = (lines ++ [plain_line ts seg])%list.
Proof.
  unfold plain_step, plain_line.
  destruct ts, (start seg); cbn [append]; rewrite ?append_assoc; reflexivity.
Qed.

Lemma markdown_step_line ts lines seg :
  markdown_step ts lines seg = (lines ++ [markdown_line ts seg])%list.
Proof.
  unfold markdown_step, markdown_line.
  destruct ts, (start seg); cbn [append]; rewrite ?append_assoc; reflexivity.
Qed.

(** A loop that appends one line per segment builds the list of the lines
    in the order of the segments. *)
Lemma loop_lines (step : list string -> TranscriptSegment.t -> list string)
      (line : TranscriptSegment.t -> string) :
  (forall lines seg, step lines seg = (lines ++ [line seg])%list) ->
  forall segs lines, fold_left step segs lines = (lines ++ map line segs)%list.
Proof.
  intros S. induction segs as [|seg segs IH]; intros lines; simpl.
  - now rewrite app_nil_r.
  - rewrite IH, S, <- app_assoc. reflexivity.
Qed.

Lemma plain_format_lines t ts :
  plain_format t ts = join newline (map (plain_line ts) (Transcript.segments t)).
Proof.
  unfold plain_format.
  now rewrite (loop_lines _ _ (plain_step_line ts)).
Qed.

Lemma markdown_format_lines t ts :
  markdown_format t ts
  = join newline (map (markdown_line ts) (Transcript.segments t)).
Proof.
  unfold markdown_format.
  now rewrite (loop_lines _ _ (markdown_step_line ts)).
Qed.


Lemma timestamp_fields seg s :
  start seg = Some s ->
  format_timestamp seg
  = "[" ++ PyNum.fmt_02d (Qfloor s / 3600)%Z ++ ":"
        ++ PyNum.fmt_02d (Qfloor s mod 3600 / 60)%Z ++ ":"
        ++ PyNum.fmt_02d (Qfloor s mod 60)%Z ++ "]".
Proof.
  intros H. unfold format_timestamp. rewrite H.
  now rewrite NumFacts.hours_floor, NumFacts.minutes_floor, NumFacts.seconds_floor.
Qed.

End RenderFacts.

(* ===================================================================== *)
(** * The resolver on bare identifiers *)
(* ===================================================================== *)

Module VideoFacts.
Import PyStr Spec.

Lemma join_empty_cons (p : string) (l : list string) :
  join "" (p :: l) = p ++ join "" l.
Proof.
  destruct l as [|q l]; cbn [join]; [|reflexivity].
  now rewrite RenderFacts.append_empty_r.
Qed.

(** Splitting at a single character and joining with nothing removes the
    character. *)
Lemma split_single_without (c : ascii) (s cur : string) :
  join "" (split_from (String c "") 0 cur s) = cur ++ without c s.
Proof.
  revert cur. induction s as [|d s IH]; intros cur.
  - cbn [split_from join without]. now rewrite RenderFacts.append_empty_r.
  - cbn [split_from without prefix String.length Nat.sub].
    destruct (ascii_dec c d) as [->|N].
    + rewrite Ascii.eqb_refl.
      replace (prefix "" s) with true by (destruct s; reflexivity).
      rewrite join_empty_cons. now rewrite IH.
    + apply Ascii.eqb_neq in N. rewrite N.
      rewrite IH, RenderFacts.append_assoc. reflexivity.
Qed.

Lemma replace_single_without (c : ascii) (s : string) :
  replace (String c "") "" s = without c s.
Proof. unfold replace, split. apply split_single_without. Qed.

(** What is left of an identifier once hyphens and underscores are gone is
    alphanumeric throughout. *)
Lemma stripped_forall (s : string) :
  str_forall id_char s = true ->
  str_forall chr_isalnum (without "_" (without "-" s)) = true.
Proof.
  induction s as [|c s IH]; [reflexivity|].
  cbn [str_forall without]. intros H. apply andb_prop in H. destruct H as [C R].
  destruct (Ascii.eqb_spec "-" c) as [<-|N1]; [now apply IH|].
  cbn [without].
  destruct (Ascii.eqb_spec "_" c) as [<-|N2]; [now apply IH|].
  cbn [str_forall]. rewrite (IH R), andb_true_r.
  unfold id_char in C.
  destruct (chr_isalnum c); [reflexivity|]. cbn [orb] in C.
  apply orb_prop in C. destruct C as [C|C]; apply Ascii.eqb_eq in C; congruence.
Qed.

(** An alphanumeric character survives. *)
Lemma stripped_not_empty (s : string) :
  str_exists chr_isalnum s = true -> without "_" (without "-" s) <> "".
Proof.
  induction s as [|c s IH]; [discriminate|].
  cbn [str_exists without]. intros H.
  destruct (Ascii.eqb_spec "-" c) as [<-|N1]; [now apply IH|].
  cbn [without].
  destruct (Ascii.eqb_spec "_" c) as [<-|N2]; [now apply IH|].
  discriminate.
Qed.

(** Without any alphanumeric character nothing is left. *)
Lemma stripped_empty (s : string) :
  str_forall id_char s = true -> str_exists chr_isalnum s = false ->
  without "_" (without "-" s) = "".
Proof.
  induction s as [|c s IH]; [reflexivity|].
  cbn [str_forall str_exists without]. intros H E.
  apply andb_prop in H. destruct H as [C R].
  apply orb_false_elim in E. destruct E as [A E].
  destruct (Ascii.eqb_spec "-" c) as [<-|N1]; [now apply IH|].
  cbn [without].
  destruct (Ascii.eqb_spec "_" c) as [<-|N2]; [now apply IH|].
  unfold id_char in C. rewrite A in C. cbn [orb] in C.
  apply orb_prop in C. destruct C as [C|C]; apply Ascii.eqb_eq in C; congruence.
Qed.

Lemma isalnum_iff (s : string) :
  isalnum s = true <-> s <> "" /\ str_forall chr_isalnum s = true.
Proof.
  destruct s; cbn [isalnum]; split.
  - discriminate.
  - intros [H _]. now destruct H.
  - intros H. split; [discriminate | exact H].
  - intros [_ H]. exact H.
Qed.

(** Eleven allowed characters, one of them alphanumeric: the reference is
    taken for a bare identifier. *)
Lemma from_url_bare_id (url : string) :
  String.length url = 11 ->
  str_forall id_char url = true ->
  str_exists chr_isalnum url = true ->
  Video.from_url url = Return (bare_video url).
Proof.
  intros L F E. unfold Video.from_url.
  rewrite L, Nat.eqb_refl, !replace_single_without.
  replace (isalnum (without "_" (without "-" url))) with true; [reflexivity|].
  symmetry. apply isalnum_iff. split.
  - now apply stripped_not_empty.
  - now apply stripped_forall.
Qed.

(** Eleven allowed characters, none of them alphanumeric: the test of the
    first branch fails. *)
Lemma bare_test_fails (url : string) :
  str_forall id_char url = true ->
  str_exists chr_isalnum url = false ->
  isalnum (replace "_" "" (replace "-" "" url)) = false.
Proof.
  intros F E. rewrite !replace_single_without.
  now rewrite (stripped_empty url F E).
Qed.

End VideoFacts.

(* ===================================================================== *)
(** * [total_duration] *)
(* ===================================================================== *)

Module TranscriptFacts.
Import PyNum.

(** [total_duration] is the end of the last segment unless that end is
    absent or equal to zero. *)
Lemma total_duration_cases (t : Transcript.t) :
  Transcript.total_duration t =
  match Transcript.last_segment t with
  | None => None
  | Some seg =>
      match TranscriptSegment.end_ seg with
      | None => None
      | Some e => if Qeq_bool e 0%Q then None else Some e
      end
  end.
Proof.
  unfold Transcript.total_duration.
  destruct (Transcript.last_segment t) as [seg|]; [|reflexivity].
  destruct (TranscriptSegment.end_ seg) as [e|]; [|reflexivity].
  cbn [Transcript.opt_truthy]. unfold truthy.
  destruct (Qeq_bool e 0%Q); reflexivity.
Qed.

(** With an end different from zero the duration is that end. *)
Lemma total_duration_nonzero (t : Transcript.t) seg e :
  Transcript.last_segment t = Some seg ->
  TranscriptSegment.end_ seg = Some e ->
  ~ (e == 0)%Q ->
  Transcript.total_duration t = Some e.
Proof.
  intros L E N. rewrite total_duration_cases, L, E.
  destruct (Qeq_bool e 0%Q) eqn:B; [|reflexivity].
  apply Qeq_bool_eq in B. contradiction.
Qed.

End TranscriptFacts.

(* ===================================================================== *)
(** * The properties of the specification *)
(* ===================================================================== *)

Import Api TranscriptExtractor Formatters Spec Fixtures.

(** C1. For every operation and every [max_retries >= 1]: transient failures
    on the attempts before [k] and a success on attempt [k < max_retries]
    give that success after [k + 1] attempts and exactly [k] sleeps, the
    [i]-th of [2^i] seconds plus a jitter of the interval [0, 1); a permanent
    error on the first attempt is raised at once, after one attempt and no
    sleep; transient failures on all [max_retries] attempts propagate the
    last of them after exactly [max_retries] attempts. *)
Theorem C1_fetch_with_retry_policy :
  forall (A : Type) (svc : Service) (max_retries : Z)
         (op : nat -> result A) (w : World),
    unit_interval svc ->
    (1 <= max_retries)%Z ->
    (forall (k : nat) (v : A),
        (Z.of_nat k < max_retries)%Z ->
        (forall i, i < k ->
           exists e, op (calls w + i) = Raise e /\ transient e = true) ->
        op (calls w + k) = Return v ->
        _fetch_with_retry svc max_retries (remote op) w
        = (Return v,
           mkWorld (calls w + k + 1)
                   (slept w ++ backoffs 0 (jitters svc (draws w) k))
                   (draws w + k))
        /\ List.length (backoffs 0 (jitters svc (draws w) k)) = k
        /\ (forall i j, nth_error (jitters svc (draws w) k) i = Some j ->
              (0 <= j < 1)%Q /\
              nth_error (backoffs 0 (jitters svc (draws w) k)) i
              = Some (inject_Z (2 ^ Z.of_nat i) + j)%Q))
    /\ (forall e,
          op (calls w) = Raise e -> permanent e = true ->
          _fetch_with_retry svc max_retries (remote op) w
          = (Raise e, mkWorld (calls w + 1) (slept w) (draws w)))
    /\ (forall e,
          (forall i, (Z.of_nat i < max_retries - 1)%Z ->
             exists e', op (calls w + i) = Raise e' /\ transient e' = true) ->
          op (calls w + Z.to_nat (max_retries - 1)) = Raise e ->
          transient e = true ->
          _fetch_with_retry svc max_retries (remote op) w
          = (Raise e,
             mkWorld (calls w + Z.to_nat max_retries)
                     (slept w ++ backoffs 0 (jitters svc (draws w)
                                               (Z.to_nat (max_retries - 1))))
                     (draws w + Z.to_nat (max_retries - 1)))
          /\ List.length (backoffs 0 (jitters svc (draws w)
                                        (Z.to_nat (max_retries - 1))))
             = Z.to_nat (max_retries - 1)).
Proof.
  intros A svc max_retries op w U M. repeat split.
  - now apply RetryPolicy.run_settled_at.
  - now rewrite RetryPolicy.backoffs_length, RetryPolicy.jitters_length.
  - pose proof (RetryPolicy.jitters_range svc (draws w) k U) as R.
    rewrite Forall_forall in R. apply (R j). eapply nth_error_In; eassumption.
  - pose proof (RetryPolicy.jitters_range svc (draws w) k U) as R.
    rewrite Forall_forall in R. apply (R j). eapply nth_error_In; eassumption.
  - now apply RetryPolicy.backoffs_nth.
  - intros e E P.
    rewrite (RetryPolicy.run_settled_at svc max_retries op w M 0 (Raise e));
      auto; try lia.
    + cbn [jitters backoffs]. now rewrite app_nil_r, !Nat.add_0_r.
    + rewrite Nat.add_0_r. exact E.
  - rewrite (RetryPolicy.run_settled_at svc max_retries op w M
               (Z.to_nat (max_retries - 1)) (Raise e)); auto; try lia.
    + do 2 f_equal. lia.
    + intros i Hi. apply H. lia.
  - now rewrite RetryPolicy.backoffs_length, RetryPolicy.jitters_length.
Qed.

(** A run of C1: two transient failures, then a success, with three attempts
    allowed. *)
Lemma C1_fetch_with_retry_policy_witness :
  _fetch_with_retry (svc_of catalog_fr) 3 (remote flaky_twice) world0
  = (Return 7,
     mkWorld 3 (backoffs 0 (jitters (svc_of catalog_fr) 0 2)) 2).
Proof.
  assert (U : unit_interval (svc_of catalog_fr)).
  { intros n. split; [discriminate | reflexivity]. }
  assert (M : (1 <= 3)%Z) by lia.
  destruct (C1_fetch_with_retry_policy nat (svc_of catalog_fr) 3 flaky_twice
              world0 U M) as [Success _].
  destruct (Success 2 7) as [R _].
  - lia.
  - intros i Hi. exists (RequestBlocked "blocked").
    destruct i as [|[|i]]; [split; reflexivity | split; reflexivity | lia].
  - reflexivity.
  - exact R.
Defined.

(** C2. With no requested language and an empty catalog, the specification expects
    [TranscriptNotAvailableError]. Evaluated on an empty catalog, with either
    truth value of the catalog object, [extract_transcript] raises
    [NetworkError]: the exception of the fallback branch is raised inside the
    [try] and the clause [except Exception] replaces it. *)
Theorem C2_empty_catalog_is_network_error :
  extract_transcript (svc_of (mkList [] false)) 3 "dQw4w9WgXcQ" None world0
  = (Raise (NetworkError
       "Network error occurred: No transcripts available for video dQw4w9WgXcQ"),
     mkWorld 1 [] 0)
  /\ extract_transcript (svc_of (mkList [] true)) 3 "dQw4w9WgXcQ" None world0
     = (Raise (NetworkError "Network error occurred: list index out of range"),
        mkWorld 1 [] 0).
Proof. split; reflexivity. Qed.

(** C3. The specification expects the content fetch to run under the retry policy.
    With three attempts allowed and a content fetch that fails once with a
    transient error and would succeed on a second attempt,
    [extract_transcript] fails with [NetworkError] after the catalog fetch and
    a single content fetch, without any sleep; the same transient error on
    the catalog fetch is retried and the call succeeds. *)
Theorem C3_content_fetch_is_not_retried :
  extract_transcript svc_flaky_content 3 "dQw4w9WgXcQ" None world0
  = (Raise (NetworkError
       "YouTube request failed. Please wait and try again later. Original error: 429"),
     mkWorld 2 [] 0)
  /\ fetch_ svc_flaky_content track_en 2 = Return raw_data
  /\ extract_transcript svc_flaky_catalog 3 "dQw4w9WgXcQ" None world0
     = (Return (Transcript.cls "dQw4w9WgXcQ" "en" segments_of_raw_data),
        mkWorld 3 (backoffs 0 (jitters svc_flaky_catalog 0 1)) 1).
Proof. repeat split; reflexivity. Qed.

(** C4, as stated, at the requested language [""]: the catalog is not empty
    and no track carries the code [""], yet [extract_transcript] returns the
    French transcript instead of raising [LanguageNotFoundError], because
    [if language:] takes the empty string for no request. *)
Lemma C4_empty_language_counterexample :
  tracks catalog_fr <> []
  /\ (forall t, In t (tracks catalog_fr) -> language_code t <> "")
  /\ extract_transcript (svc_of catalog_fr) 3 "dQw4w9WgXcQ" (Some "") world0
     = (Return (Transcript.cls "dQw4w9WgXcQ" "fr" segments_of_raw_data),
        mkWorld 2 [] 0)
  /\ ~ (exists msg w',
          extract_transcript (svc_of catalog_fr) 3 "dQw4w9WgXcQ" (Some "") world0
          = (Raise (LanguageNotFoundError msg), w')).
Proof.
  repeat split.
  - discriminate.
  - intros t [<-|[]]. discriminate.
  - intros [msg [w' H]]. discriminate H.
Qed.

(** C4, amended. For every catalog that is not empty and every requested
    language code that is not the empty string and that no track of the
    catalog carries, [extract_transcript] raises [LanguageNotFoundError],
    hence never [TranscriptNotAvailableError]; no content fetch is made. *)
Theorem C4_language_not_found :
  forall (svc : Service) (max_retries : Z) (video_id l : string)
         (catalog : TranscriptList) (w w1 : World),
    l <> "" ->
    tracks catalog <> [] ->
    (forall t, In t (tracks catalog) -> language_code t <> l) ->
    _fetch_with_retry svc max_retries (remote (list_ svc video_id)) w
    = (Return catalog, w1) ->
    (exists msg,
       extract_transcript svc max_retries video_id (Some l) w
       = (Raise (LanguageNotFoundError msg), w1))
    /\ (forall msg w',
          extract_transcript svc max_retries video_id (Some l) w
          <> (Raise (TranscriptNotAvailableError msg), w')).
Proof.
  intros svc max_retries video_id l catalog w w1 N _ Absent F.
  pose proof (ExtractFacts.extract_language_absent
                svc max_retries video_id w w1 catalog F l N Absent) as E.
  split.
  - eexists. exact E.
  - intros msg w'. rewrite E. discriminate.
Qed.

(** A run of C4: German is asked for, the catalog holds French only. *)
Lemma C4_language_not_found_witness :
  (exists msg,
     extract_transcript (svc_of catalog_fr) 3 "dQw4w9WgXcQ" (Some "de") world0
     = (Raise (LanguageNotFoundError msg), mkWorld 1 [] 0))
  /\ (forall msg w',
        extract_transcript (svc_of catalog_fr) 3 "dQw4w9WgXcQ" (Some "de") world0
        <> (Raise (TranscriptNotAvailableError msg), w')).
Proof.
  apply (C4_language_not_found (svc_of catalog_fr) 3 "dQw4w9WgXcQ" "de"
           catalog_fr world0 (mkWorld 1 [] 0)).
  - discriminate.
  - discriminate.
  - intros t [<-|[]]. discriminate.
  - reflexivity.
Defined.

(** C10. Every transcript returned by [extract_transcript] has
    [is_generated = False] and [is_translatable = False], whatever the flags
    of the track it was fetched from. *)
Theorem C10_flags_never_propagated :
  forall (svc : Service) (max_retries : Z) (video_id : string)
         (language : option string) (w w' : World) (t : Transcript.t),
    extract_transcript svc max_retries video_id language w = (Return t, w') ->
    Transcript.is_generated t = false /\ Transcript.is_translatable t = false.
Proof.
  intros svc max_retries video_id language w w' t H.
  destruct (ExtractFacts.extract_returns_built _ _ _ _ _ _ _ H) as [code [data B]].
  exact (ExtractFacts.build_transcript_flags _ _ _ _ B).
Qed.

(** A run of C10: the only track is auto-generated and translatable, the
    transcript assembled from it says neither. *)
Lemma C10_flags_never_propagated_witness :
  is_generated track_fr = true
  /\ translation_languages track_fr <> []
  /\ Transcript.is_generated
       (Transcript.cls "dQw4w9WgXcQ" "fr" segments_of_raw_data) = false
  /\ Transcript.is_translatable
       (Transcript.cls "dQw4w9WgXcQ" "fr" segments_of_raw_data) = false.
Proof.
  split; [reflexivity | split; [discriminate|]].
  apply (C10_flags_never_propagated (svc_of catalog_fr) 3 "dQw4w9WgXcQ" None
           world0 (mkWorld 2 [] 0)).
  reflexivity.
Defined.

(** C5. The six listed references resolve to the id [ABCDEFGHIJK]; the Vimeo
    address and the watch address without a [v] parameter are refused with
    [InvalidUrlError]. *)
Theorem C5_resolver_examples :
  Forall (fun input =>
            exists v, Video.from_url input = Return v
                      /\ Video.video_id v = "ABCDEFGHIJK")
         [ "https://youtube.com/watch?v=ABCDEFGHIJK";
           "https://www.youtube.com/watch?v=ABCDEFGHIJK&t=5s";
           "https://youtu.be/ABCDEFGHIJK";
           "https://youtu.be/ABCDEFGHIJK?t=5";
           "https://youtube.com/embed/ABCDEFGHIJK";
           "ABCDEFGHIJK" ]
  /\ Forall (fun input =>
               exists msg, Video.from_url input = Raise (InvalidUrlError msg))
            [ "https://vimeo.com/123456";
              "https://youtube.com/watch" ].
Proof.
  split; repeat constructor; eexists; try split; reflexivity.
Qed.

(** C8. The specification expects [total_duration] to be the end of the last segment
    whenever that segment has a start and a duration. On a transcript whose
    only segment starts at [0.0] and lasts [0.0] seconds the end is present
    (it is zero) and [total_duration] is absent: [not ...end] is also true of
    an end of zero. *)
Theorem C8_total_duration_of_zero_end :
  Transcript.segments zero_length <> []
  /\ (exists seg s d,
        Transcript.last_segment zero_length = Some seg
        /\ TranscriptSegment.start seg = Some s
        /\ TranscriptSegment.duration seg = Some d
        /\ TranscriptSegment.end_ seg = Some (s + d)%Q)
  /\ Transcript.total_duration zero_length = None.
Proof.
  split; [discriminate | split; [|reflexivity]].
  eexists _, _, _. repeat split; reflexivity.
Qed.

(** C9. [get_formatter] on the member [JSON] raises a [ValueError] saying
    that the format is not yet implemented and returns no formatter; on a
    value that is no member of [FormatType] it raises a [ValueError] saying
    that the format type is unsupported; the two failures differ. *)
Theorem C9_get_formatter_failures :
  get_formatter (Member JSON)
  = Raise (ValueError "JSON format is not yet implemented (P3 feature)")
  /\ (forall f, get_formatter (Member JSON) <> Return f)
  /\ (forall v, get_formatter (NotAMember v)
                = Raise (ValueError ("Unsupported format type: " ++ v)))
  /\ (forall v, get_formatter (NotAMember v) <> get_formatter (Member JSON)).
Proof.
  repeat split; discriminate.
Qed.


(** C6. The specification expects every reference of eleven characters, each one
    alphanumeric, a hyphen or an underscore, to be taken for a bare
    identifier. The reference made of eleven hyphens has that shape and is
    refused with [InvalidUrlError]: once hyphens and underscores are removed
    nothing is left, and [isalnum] is false of the empty string. *)
Theorem C6_only_hyphens_is_refused :
  String.length only_hyphens = 11
  /\ PyStr.str_forall id_char only_hyphens = true
  /\ PyStr.isalnum (PyStr.replace "_" "" (PyStr.replace "-" "" only_hyphens)) = false
  /\ Video.from_url only_hyphens
     = Raise (InvalidUrlError "Invalid YouTube URL format: -----------")
  /\ Video.from_url only_hyphens <> Return (bare_video only_hyphens).
Proof. repeat split; try reflexivity. discriminate. Qed.

(* ===================================================================== *)
(** * More on the retrying fetcher *)
(* ===================================================================== *)

Module RetryBounds.
Import Api TranscriptExtractor Spec RetryFacts.

Section Bounds.
Context {A : Type}.
Variable svc : Service.
Variable max_retries : Z.
Variable op : nat -> result A.

Local Abbreviation loop := (retry_loop svc max_retries (remote op)).

(** The attempts [a], ..., [a + n - 1], the last of which is the last one
    allowed: the loop makes [c] calls, [1 <= c <= n], and sleeps between
    them. *)
Lemma loop_world n : forall a last w r w',
  1 <= n -> Z.of_nat (a + n) = max_retries ->
  loop (map Z.of_nat (seq a n)) last w = (r, w') ->
  exists c, 1 <= c <= n /\
    w' = mkWorld (calls w + c)
                 (slept w ++ backoffs (Z.of_nat a) (jitters svc (draws w) (c - 1)))
                 (draws w + (c - 1)).
Proof.
  induction n as [|n IH]; intros a last w r w' Hn Hmax H; [lia|].
  cbn [seq map] in H.
  assert (one : forall x, (x, mkWorld (S (calls w)) (slept w) (draws w)) = (r, w') ->
                 exists c, 1 <= c <= S n /\
                   w' = mkWorld (calls w + c)
                          (slept w ++ backoffs (Z.of_nat a) (jitters svc (draws w) (c - 1)))
                          (draws w + (c - 1))).
  { intros x E. injection E as _ <-. exists 1. split; [lia|].
    cbn [Nat.sub jitters backoffs]. now rewrite app_nil_r, Nat.add_0_r, Nat.add_1_r. }
  destruct (op (calls w)) as [v|e] eqn:O.
  - rewrite (loop_return svc max_retries op _ _ _ _ v O) in H. eauto.
  - destruct (permanent e) eqn:P.
    + rewrite (loop_permanent svc max_retries op _ _ _ _ e O P) in H. eauto.
    + destruct (Z.of_nat a <? max_retries - 1)%Z eqn:L.
      * rewrite (loop_retry svc max_retries op _ _ _ _ e O P L) in H.
        apply Z.ltb_lt in L.
        destruct (IH (S a) _ _ _ _ ltac:(lia) ltac:(lia) H) as [c [Hc E]].
        exists (S c). split; [lia|]. rewrite E.
        cbn [backed_off calls slept draws].
        destruct c as [|c]; [lia|].
        cbn [Nat.sub]. rewrite !Nat.sub_0_r. cbn [jitters backoffs].
        rewrite <- app_assoc. cbn [app].
        rewrite Nat2Z.inj_succ, Z.add_1_r.
        f_equal; lia.
      * rewrite (loop_give_up svc max_retries op _ _ _ _ e O L) in H. eauto.
Qed.

(** The outcome of the call is the outcome of the first attempt that
    returns, raises a permanent error or is the last one allowed. *)
Lemma run_first_settled w k (r : result A) :
  (1 <= max_retries)%Z ->
  (Z.of_nat k < max_retries)%Z ->
  (forall i, i < k -> exists e, op (calls w + i) = Raise e /\ permanent e = false) ->
  op (calls w + k) = r ->
  match r with
  | Return _ => True
  | Raise e => permanent e = true \/ Z.of_nat k = (max_retries - 1)%Z
  end ->
  _fetch_with_retry svc max_retries (remote op) w
  = (r, mkWorld (calls w + k + 1)
                (slept w ++ backoffs 0 (jitters svc (draws w) k))
                (draws w + k)).
Proof.
  intros M Hk F Hr Hfinal. unfold _fetch_with_retry, range.
  assert (final : forall last w',
             calls w' = calls w + k ->
             loop (map Z.of_nat (seq k (Z.to_nat max_retries - k))) last w'
             = (r, mkWorld (S (calls w')) (slept w') (draws w'))).
  { intros last w' Hc.
    destruct (Z.to_nat max_retries - k) as [|m] eqn:Em; [lia|].
    cbn [seq map]. rewrite <- Hc in Hr. destruct r as [v|e].
    - now apply loop_return.
    - destruct Hfinal as [P|L].
      + now apply loop_permanent.
      + apply loop_give_up; [assumption | apply Z.ltb_ge; lia]. }
  destruct k as [|k].
  - rewrite <- (Nat.sub_0_r (Z.to_nat max_retries)) at 1.
    rewrite final by (simpl; lia). cbn [jitters backoffs].
    rewrite app_nil_r, !Nat.add_0_r, Nat.add_1_r. reflexivity.
  - destruct (loop_failures svc max_retries op (S k) 0 (Z.to_nat max_retries) None w)
      as [e [_ R]]; try lia.
    + exact F.
    + rewrite R. cbn [Nat.add]. rewrite final by reflexivity.
      cbn [calls slept draws]. now rewrite Nat.add_1_r.
Qed.

End Bounds.

(** With no attempt allowed the operation is never called. *)
Lemma no_attempt {A} svc max_retries (fetch_func : M A) w :
  (max_retries <= 0)%Z ->
  _fetch_with_retry svc max_retries fetch_func w
  = (Raise (TypeError "exceptions must derive from BaseException"), w).
Proof.
  intros H. unfold _fetch_with_retry, range.
  replace (Z.to_nat max_retries) with 0 by lia. reflexivity.
Qed.

(** Every sleep lasts less than [2^attempt + 1] seconds, so the sleeps that
    follow the attempts [a], ..., [a + k - 1] add up to at most
    [2^(a+k) - 2^a + k] seconds. *)
Lemma total_backoffs svc d k : forall a,
  unit_interval svc -> (0 <= a)%Z ->
  (total (backoffs a (jitters svc d k))
   <= inject_Z (2 ^ (a + Z.of_nat k) - 2 ^ a + Z.of_nat k))%Q.
Proof.
  revert d. induction k as [|k IH]; intros d a U Ha.
  - cbn [jitters backoffs total].
    replace (2 ^ (a + Z.of_nat 0) - 2 ^ a + Z.of_nat 0)%Z with 0%Z
      by (change (Z.of_nat 0) with 0%Z; rewrite !Z.add_0_r; lia).
    apply Qle_refl.
  - cbn [jitters backoffs total].
    specialize (IH (S d) (a + 1)%Z U ltac:(lia)).
    destruct (U d) as [_ J].
    assert (P : (2 ^ (a + 1) = 2 * 2 ^ a)%Z) by (rewrite Z.pow_add_r by lia; lia).
    replace (a + Z.of_nat (S k))%Z with (a + 1 + Z.of_nat k)%Z by lia.
    set (b := (2 ^ (a + 1 + Z.of_nat k))%Z) in *.
    rewrite P in IH.
    replace (b - 2 ^ a + Z.of_nat (S k))%Z
      with (2 ^ a + 1 + (b - 2 * 2 ^ a + Z.of_nat k))%Z by lia.
    rewrite (inject_Z_plus (2 ^ a + 1)), (inject_Z_plus (2 ^ a) 1).
    apply Qplus_le_compat; [|exact IH].
    apply Qplus_le_compat; [apply Qle_refl|].
    assert (E : (0 + (1 - 0) * random_ svc d == random_ svc d)%Q) by ring.
    rewrite E. now apply Qlt_le_weak.
Qed.

End RetryBounds.

(* ===================================================================== *)
(** * More on [extract_transcript] and [list_available_languages] *)
(* ===================================================================== *)

Module ExtractMore.
Import Api TranscriptExtractor Spec.

(** A clause other than the three permanent ones answers [NetworkError]. *)
Lemma handlers_not_permanent video_id language e :
  permanent e = false ->
  exists msg, extract_handlers video_id language e = NetworkError msg.
Proof. destruct e; simpl; try discriminate; eauto. Qed.

Lemma extract_handlers_package video_id language e :
  package_error (extract_handlers video_id language e) = true
  /\ (str_truthy language = false ->
      forall m, extract_handlers video_id language e <> LanguageNotFoundError m).
Proof.
  split.
  - destruct e; simpl; try reflexivity. destruct (str_truthy language); reflexivity.
  - intros L m. destruct e; simpl; try discriminate. rewrite L. discriminate.
Qed.

Lemma list_handlers_kinds video_id e :
  (exists m, list_handlers video_id e = TranscriptNotAvailableError m)
  \/ (exists m, list_handlers video_id e = NetworkError m).
Proof. destruct e; simpl; eauto. Qed.

(** Whatever [extract_transcript] raises went through its [except]
    clauses. *)
Lemma extract_raise_handled svc max_retries video_id language w e w' :
  extract_transcript svc max_retries video_id language w = (Raise e, w') ->
  exists e0, e = extract_handlers video_id language e0.
Proof.
  unfold extract_transcript, try_except.
  destruct (extract_body _ _ _ _ w) as [[t|e0] w1]; [discriminate|].
  cbn [raise]. intros H. injection H as <- _. eauto.
Qed.

Lemma list_raise_handled svc max_retries video_id w e w' :
  list_available_languages svc max_retries video_id w = (Raise e, w') ->
  exists e0, e = list_handlers video_id e0.
Proof.
  unfold list_available_languages, try_except.
  destruct (list_body _ _ _ w) as [[t|e0] w1]; [discriminate|].
  cbn [raise]. intros H. injection H as <- _. eauto.
Qed.

(** The loop of [list_available_languages] makes one entry per track, in
    the order of the catalog. *)
Lemma languages_loop (ts : list Track) : forall acc,
  fold_left languages_step ts acc = (acc ++ map info_of ts)%list.
Proof.
  induction ts as [|t ts IH]; intros acc; cbn [fold_left map].
  - now rewrite app_nil_r.
  - rewrite IH. unfold languages_step at 1. rewrite <- app_assoc. cbn [app].
    do 3 f_equal. unfold info_of. f_equal.
    destruct (translation_languages t); reflexivity.
Qed.

(** The assembler keeps the entries in their order, one segment each. *)
Lemma build_segments_each data : forall acc segs,
  build_segments acc data = Return segs ->
  exists new, segs = (acc ++ new)%list
              /\ Forall2 (fun item seg => build_segment item = Return seg) data new.
Proof.
  induction data as [|item data IH]; intros acc segs H; cbn [build_segments] in H.
  - injection H as <-. exists []. rewrite app_nil_r. split; [reflexivity|constructor].
  - destruct (build_segment item) as [seg|e] eqn:B; cbn [rbind] in H; [|discriminate].
    destruct (IH _ _ H) as [new [E F]]. exists (seg :: new). split.
    + rewrite E, <- app_assoc. reflexivity.
    + now constructor.
Qed.

Lemma build_segments_all_text data : forall acc,
  forallb has_text data = true ->
  exists new, build_segments acc data = Return (acc ++ new)%list
              /\ List.length new = List.length data.
Proof.
  induction data as [|item data IH]; intros acc H; cbn [build_segments].
  - exists []. now rewrite app_nil_r.
  - cbn [forallb] in H. apply andb_prop in H. destruct H as [T R].
    assert (B : exists seg, build_segment item = Return seg).
    { destruct item as [t s d|[t|] s d]; cbn in *; try discriminate; eauto. }
    destruct B as [seg B]. rewrite B. cbn [rbind].
    destruct (IH (acc ++ [seg])%list R) as [new [E L]].
    exists (seg :: new). rewrite E, <- app_assoc. split; [reflexivity|].
    cbn [List.length]. now rewrite L.
Qed.

Lemma build_segments_missing_text data : forall acc,
  forallb has_text data = false ->
  build_segments acc data = Raise (KeyError "'text'").
Proof.
  induction data as [|item data IH]; intros acc H; cbn [build_segments forallb] in *.
  - discriminate.
  - destruct item as [t s d|[t|] s d]; cbn [has_text andb build_segment rbind] in *;
      try (now apply IH); reflexivity.
Qed.

Lemma quiet_refl n w : quiet n w w.
Proof. unfold quiet. repeat split; lia. Qed.

(** One step of the body of [extract_transcript]: the next call is split
    into its outcomes. *)
Ltac step_body :=
  match goal with
  | |- context [match find_transcript ?tl ?cs with _ => _ end] =>
      destruct (find_transcript tl cs) as [?tr|?e]
  | |- context [match fetch_ ?s ?tr ?n with _ => _ end] =>
      destruct (fetch_ s tr n) as [?data|?e]
  | |- context [match _build_transcript ?v ?c ?d with _ => _ end] =>
      destruct (_build_transcript v c d) as [?t|?e]
  | |- context [match PyStr.index ?l ?i with _ => _ end] =>
      destruct (PyStr.index l i) as [?ft|?e]
  | |- context [if truth ?tl then _ else _] => destruct (truth tl)
  | |- context [match ?e with TranscriptsDisabled _ => _ | _ => _ end] =>
      is_var e; destruct e
  end.

(** After the catalog fetch the body makes at most two remote calls and
    neither sleeps nor draws. *)
Lemma extract_body_quiet svc max_retries video_id language w r w' :
  extract_body svc max_retries video_id language w = (r, w') ->
  exists r1 w1,
    _fetch_with_retry svc max_retries (remote (list_ svc video_id)) w = (r1, w1)
    /\ quiet 2 w1 w'.
Proof.
  unfold extract_body, bind at 1.
  destruct (_fetch_with_retry _ _ _ w) as [[tl|e] w1].
  - destruct (str_truthy language);
      unfold try_except, bind, lift, remote, raise;
      repeat step_body;
      intros H; injection H as _ <-; do 2 eexists; (split; [reflexivity|]);
      unfold quiet; cbn [calls slept draws]; repeat split; lia.
  - intros H. injection H as _ <-. do 2 eexists. split; [reflexivity|].
    apply quiet_refl.
Qed.

End ExtractMore.

Module RunFacts.
Import Api TranscriptExtractor Spec.

(** Whatever the operation does, a call with at least one attempt allowed
    makes between one and [max_retries] attempts. *)
Lemma run_world {A} svc max_retries (op : nat -> result A) w r w' :
  (1 <= max_retries)%Z ->
  _fetch_with_retry svc max_retries (remote op) w = (r, w') ->
  exists c, 1 <= c /\ (Z.of_nat c <= max_retries)%Z /\ w' = after_attempts svc w c.
Proof.
  intros M H. unfold _fetch_with_retry, range in H.
  destruct (RetryBounds.loop_world svc max_retries op (Z.to_nat max_retries)
              0 None w r w' ltac:(lia) ltac:(lia) H) as [c [Hc E]].
  exists c. repeat split; try lia. exact E.
Qed.

(** The world in which [extract_transcript] ends is the one in which its
    body ends. *)
Lemma extract_world svc max_retries video_id language w r w' :
  extract_transcript svc max_retries video_id language w = (r, w') ->
  exists r0, extract_body svc max_retries video_id language w = (r0, w').
Proof.
  unfold extract_transcript, try_except.
  destruct (extract_body _ _ _ _ w) as [[t|e] w1]; cbn [raise];
    intros H; injection H as _ <-; eauto.
Qed.

(** A permanent failure of the first catalog fetch. *)
Lemma catalog_permanent svc max_retries video_id w e :
  (1 <= max_retries)%Z ->
  list_ svc video_id (calls w) = Raise e -> permanent e = true ->
  _fetch_with_retry svc max_retries (remote (list_ svc video_id)) w
  = (Raise e, mkWorld (S (calls w)) (slept w) (draws w)).
Proof.
  intros M E P.
  rewrite (RetryBounds.run_first_settled svc max_retries _ w 0 (Raise e));
    auto; try lia.
  - cbn [jitters backoffs]. rewrite app_nil_r, !Nat.add_0_r, Nat.add_1_r. reflexivity.
  - now rewrite Nat.add_0_r.
Qed.

(** Failures that are retried on every attempt allowed. *)
Lemma catalog_exhausted svc max_retries video_id w :
  (1 <= max_retries)%Z ->
  (forall i, (Z.of_nat i < max_retries)%Z ->
     exists e, list_ svc video_id (calls w + i) = Raise e /\ permanent e = false) ->
  exists e, permanent e = false /\
    _fetch_with_retry svc max_retries (remote (list_ svc video_id)) w
    = (Raise e, after_attempts svc w (Z.to_nat max_retries)).
Proof.
  intros M F.
  destruct (F (Z.to_nat max_retries - 1)) as [e [E P]]; [lia|].
  exists e. split; [exact P|].
  rewrite (RetryBounds.run_first_settled svc max_retries _ w
             (Z.to_nat max_retries - 1) (Raise e)); auto; try lia.
  - unfold after_attempts. do 2 f_equal. lia.
  - intros i Hi. apply F. lia.
Qed.

End RunFacts.

Import Api TranscriptExtractor Formatters Spec Fixtures.

(** X1. Whatever the operation does, a call of [_fetch_with_retry] with
    [max_retries >= 1] makes at least one and at most [max_retries] attempts;
    with [c] attempts made it has slept exactly [c - 1] times, once after
    each attempt but the last, the sleep after attempt [i] lasting [2^i]
    seconds plus a jitter, and it has drawn [c - 1] random numbers. *)
Theorem X1_retry_attempts_and_sleeps :
  forall (A : Type) (svc : Service) (max_retries : Z) (op : nat -> result A)
         (w w' : World) (r : result A),
    (1 <= max_retries)%Z ->
    _fetch_with_retry svc max_retries (remote op) w = (r, w') ->
    exists c,
      1 <= c /\ (Z.of_nat c <= max_retries)%Z
      /\ calls w' = calls w + c
      /\ slept w' = (slept w ++ backoffs 0 (jitters svc (draws w) (c - 1)))%list
      /\ List.length (backoffs 0 (jitters svc (draws w) (c - 1))) = c - 1
      /\ draws w' = draws w + (c - 1).
Proof.
  intros A svc max_retries op w w' r M H.
  destruct (RunFacts.run_world svc max_retries op w r w' M H) as [c [C1 [C2 E]]].
  exists c. rewrite E. cbn [after_attempts calls slept draws].
  repeat split; try assumption.
  now rewrite RetryPolicy.backoffs_length, RetryPolicy.jitters_length.
Qed.

(** A run of X1: two failures and a success, three attempts allowed. *)
Lemma X1_retry_attempts_and_sleeps_witness :
  exists c,
    1 <= c /\ (Z.of_nat c <= 3)%Z
    /\ calls (mkWorld 3 (backoffs 0 (jitters (svc_of catalog_fr) 0 2)) 2)
       = calls world0 + c
    /\ slept (mkWorld 3 (backoffs 0 (jitters (svc_of catalog_fr) 0 2)) 2)
       = (slept world0 ++ backoffs 0 (jitters (svc_of catalog_fr) (draws world0) (c - 1)))%list
    /\ List.length (backoffs 0 (jitters (svc_of catalog_fr) (draws world0) (c - 1)))
       = c - 1
    /\ draws (mkWorld 3 (backoffs 0 (jitters (svc_of catalog_fr) 0 2)) 2)
       = draws world0 + (c - 1).
Proof.
  apply (X1_retry_attempts_and_sleeps nat (svc_of catalog_fr) 3 flaky_twice
           world0 _ (Return 7)).
  - lia.
  - reflexivity.
Defined.

(** X2. With jitters of the interval [0, 1) and [max_retries >= 1], the
    sleeps of one call of [_fetch_with_retry] add up to at most
    [2^(max_retries - 1) + max_retries - 2] seconds (five seconds with the
    default of three attempts). *)
Theorem X2_retry_total_sleep_bound :
  forall (A : Type) (svc : Service) (max_retries : Z) (op : nat -> result A)
         (w w' : World) (r : result A),
    unit_interval svc ->
    (1 <= max_retries)%Z ->
    _fetch_with_retry svc max_retries (remote op) w = (r, w') ->
    exists new,
      slept w' = (slept w ++ new)%list
      /\ (total new <= inject_Z (2 ^ (max_retries - 1) + max_retries - 2))%Q.
Proof.
  intros A svc max_retries op w w' r U M H.
  destruct (RunFacts.run_world svc max_retries op w r w' M H) as [c [C1 [C2 E]]].
  exists (backoffs 0 (jitters svc (draws w) (c - 1))). split.
  - now rewrite E.
  - eapply Qle_trans.
    + apply (RetryBounds.total_backoffs svc (draws w) (c - 1) 0 U). lia.
    + rewrite <- Zle_Qle.
      assert (P : (2 ^ (0 + Z.of_nat (c - 1)) <= 2 ^ (max_retries - 1))%Z)
        by (apply Z.pow_le_mono_r; lia).
      change (2 ^ 0)%Z with 1%Z. lia.
Qed.

(** A run of X2: the two sleeps of the run with two failures last three
    seconds together, the bound is five. *)
Lemma X2_retry_total_sleep_bound_witness :
  exists new,
    slept (mkWorld 3 (backoffs 0 (jitters (svc_of catalog_fr) 0 2)) 2)
    = (slept world0 ++ new)%list
    /\ (total new <= inject_Z (2 ^ (3 - 1) + 3 - 2))%Q.
Proof.
  apply (X2_retry_total_sleep_bound nat (svc_of catalog_fr) 3 flaky_twice
           world0 _ (Return 7)).
  - intros n. split; [discriminate | reflexivity].
  - lia.
  - reflexivity.
Defined.

(** X3. The outcome of a call of [_fetch_with_retry] is the outcome of the
    first attempt that returns, raises one of the three permanent errors, or
    is the last attempt allowed, every earlier attempt having raised some
    other exception (of any class: unclassified exceptions are retried like
    transient ones); that attempt is the last one made and one sleep
    precedes each attempt after the first. *)
Theorem X3_retry_first_settling_attempt :
  forall (A : Type) (svc : Service) (max_retries : Z) (op : nat -> result A)
         (w : World) (k : nat) (r : result A),
    (1 <= max_retries)%Z ->
    (Z.of_nat k < max_retries)%Z ->
    (forall i, i < k ->
       exists e, op (calls w + i) = Raise e /\ permanent e = false) ->
    op (calls w + k) = r ->
    match r with
    | Return _ => True
    | Raise e => permanent e = true \/ Z.of_nat k = (max_retries - 1)%Z
    end ->
    _fetch_with_retry svc max_retries (remote op) w
    = (r, mkWorld (calls w + k + 1)
                  (slept w ++ backoffs 0 (jitters svc (draws w) k))
                  (draws w + k)).
Proof.
  intros A svc max_retries op w k r M K F R S.
  now apply RetryBounds.run_first_settled.
Qed.

(** A run of X3: an exception of no known class, then a permanent error,
    with five attempts allowed: two attempts, one sleep. *)
Lemma X3_retry_first_settling_attempt_witness :
  _fetch_with_retry (svc_of catalog_fr) 5 (remote odd_then_disabled) world0
  = (Raise (TranscriptsDisabled "disabled"),
     mkWorld 2 (backoffs 0 (jitters (svc_of catalog_fr) 0 1)) 1).
Proof.
  apply (X3_retry_first_settling_attempt nat (svc_of catalog_fr) 5
           odd_then_disabled world0 1 (Raise (TranscriptsDisabled "disabled"))).
  - lia.
  - lia.
  - intros i Hi. exists (OtherException "connection reset").
    destruct i as [|i]; [split; reflexivity | lia].
  - reflexivity.
  - left. reflexivity.
Defined.

(** X4. An extractor built with [max_retries <= 0] never reaches the source:
    [_fetch_with_retry] raises the [TypeError] of [raise None] without
    calling the operation, so [extract_transcript] and
    [list_available_languages] both fail with [NetworkError] and the world is
    unchanged. *)
Theorem X4_no_attempt_allowed :
  forall (svc : Service) (max_retries : Z) (video_id : string)
         (language : option string) (w : World),
    (max_retries <= 0)%Z ->
    extract_transcript svc max_retries video_id language w
    = (Raise (NetworkError
         "Network error occurred: exceptions must derive from BaseException"), w)
    /\ list_available_languages svc max_retries video_id w
       = (Raise (NetworkError
            "Failed to list languages: exceptions must derive from BaseException"), w).
Proof.
  intros svc max_retries video_id language w H. split.
  - unfold extract_transcript, extract_body, try_except, bind.
    now rewrite (RetryBounds.no_attempt svc max_retries _ w H).
  - unfold list_available_languages, list_body, try_except, bind.
    now rewrite (RetryBounds.no_attempt svc max_retries _ w H).
Qed.

(** A run of X4: no attempt allowed, a source that would answer. *)
Lemma X4_no_attempt_allowed_witness :
  extract_transcript (svc_of catalog_fr) 0 "dQw4w9WgXcQ" None world0
  = (Raise (NetworkError
       "Network error occurred: exceptions must derive from BaseException"), world0)
  /\ list_available_languages (svc_of catalog_fr) 0 "dQw4w9WgXcQ" world0
     = (Raise (NetworkError
          "Failed to list languages: exceptions must derive from BaseException"),
        world0).
Proof.
  apply (X4_no_attempt_allowed (svc_of catalog_fr) 0 "dQw4w9WgXcQ" None world0).
  lia.
Defined.

(** X5. Whatever [extract_transcript] raises is a
    [TranscriptNotAvailableError], a [LanguageNotFoundError] or a
    [NetworkError]: no exception of the source or of the runtime leaves it;
    and [LanguageNotFoundError] is raised only when a language (not the empty
    string) was asked for. *)
Theorem X5_extract_error_kinds :
  forall (svc : Service) (max_retries : Z) (video_id : string)
         (language : option string) (w w' : World) (e : exn),
    extract_transcript svc max_retries video_id language w = (Raise e, w') ->
    package_error e = true
    /\ (str_truthy language = false -> forall m, e <> LanguageNotFoundError m).
Proof.
  intros svc max_retries video_id language w w' e H.
  destruct (ExtractMore.extract_raise_handled _ _ _ _ _ _ _ H) as [e0 ->].
  apply ExtractMore.extract_handlers_package.
Qed.

(** A run of X5: a catalog fetch that fails with a [KeyError]. *)
Lemma X5_extract_error_kinds_witness :
  package_error (NetworkError "Network error occurred: 'captions'") = true
  /\ (str_truthy None = false ->
      forall m, NetworkError "Network error occurred: 'captions'"
                <> LanguageNotFoundError m).
Proof.
  apply (X5_extract_error_kinds (svc_failing (KeyError "'captions'")) 1
           "dQw4w9WgXcQ" None world0 (mkWorld 1 [] 0)).
  reflexivity.
Defined.

(** X6. When the first catalog fetch raises [TranscriptsDisabled] or
    [VideoUnavailable], [extract_transcript] and [list_available_languages]
    raise [TranscriptNotAvailableError] after that single remote call,
    without sleeping, whatever the number of attempts allowed. *)
Theorem X6_catalog_permanent_failure :
  forall (svc : Service) (max_retries : Z) (video_id : string)
         (language : option string) (w : World) (e : exn),
    (1 <= max_retries)%Z ->
    list_ svc video_id (calls w) = Raise e ->
    (exists m, e = TranscriptsDisabled m) \/ (exists m, e = VideoUnavailable m) ->
    (exists msg,
       extract_transcript svc max_retries video_id language w
       = (Raise (TranscriptNotAvailableError msg),
          mkWorld (S (calls w)) (slept w) (draws w)))
    /\ (exists msg,
          list_available_languages svc max_retries video_id w
          = (Raise (TranscriptNotAvailableError msg),
             mkWorld (S (calls w)) (slept w) (draws w))).
Proof.
  intros svc max_retries video_id language w e M E K.
  assert (P : permanent e = true) by (destruct K as [[m ->]|[m ->]]; reflexivity).
  pose proof (RunFacts.catalog_permanent svc max_retries video_id w e M E P) as R.
  split.
  - unfold extract_transcript, extract_body, try_except, bind. rewrite R.
    destruct K as [[m ->]|[m ->]]; eexists; reflexivity.
  - unfold list_available_languages, list_body, try_except, bind. rewrite R.
    destruct K as [[m ->]|[m ->]]; eexists; reflexivity.
Qed.

(** A run of X6: the video is unavailable, three attempts are allowed. *)
Lemma X6_catalog_permanent_failure_witness :
  (exists msg,
     extract_transcript (svc_failing (VideoUnavailable "gone")) 3 "dQw4w9WgXcQ"
       (Some "en") world0
     = (Raise (TranscriptNotAvailableError msg), mkWorld 1 [] 0))
  /\ (exists msg,
        list_available_languages (svc_failing (VideoUnavailable "gone")) 3
          "dQw4w9WgXcQ" world0
        = (Raise (TranscriptNotAvailableError msg), mkWorld 1 [] 0)).
Proof.
  apply (X6_catalog_permanent_failure (svc_failing (VideoUnavailable "gone")) 3
           "dQw4w9WgXcQ" (Some "en") world0 (VideoUnavailable "gone")).
  - lia.
  - reflexivity.
  - right. exists "gone". reflexivity.
Defined.

(** X7. When every allowed attempt of the catalog fetch raises an exception
    other than the three permanent ones, [extract_transcript] and
    [list_available_languages] raise [NetworkError] after exactly
    [max_retries] remote calls and [max_retries - 1] sleeps. *)
Theorem X7_catalog_fetch_exhausted :
  forall (svc : Service) (max_retries : Z) (video_id : string)
         (language : option string) (w : World),
    (1 <= max_retries)%Z ->
    (forall i, (Z.of_nat i < max_retries)%Z ->
       exists e, list_ svc video_id (calls w + i) = Raise e /\ permanent e = false) ->
    (exists msg,
       extract_transcript svc max_retries video_id language w
       = (Raise (NetworkError msg), after_attempts svc w (Z.to_nat max_retries)))
    /\ (exists msg,
          list_available_languages svc max_retries video_id w
          = (Raise (NetworkError msg), after_attempts svc w (Z.to_nat max_retries))).
Proof.
  intros svc max_retries video_id language w M F.
  destruct (RunFacts.catalog_exhausted svc max_retries video_id w M F) as [e [P R]].
  split.
  - unfold extract_transcript, extract_body, try_except, bind. rewrite R.
    destruct (ExtractMore.handlers_not_permanent video_id language e P) as [msg ->].
    eexists. reflexivity.
  - unfold list_available_languages, list_body, try_except, bind. rewrite R.
    destruct e; try discriminate P; eexists; reflexivity.
Qed.

(** A run of X7: the requests are blocked on each of three attempts. *)
Lemma X7_catalog_fetch_exhausted_witness :
  (exists msg,
     extract_transcript (svc_failing (RequestBlocked "blocked")) 3 "dQw4w9WgXcQ"
       None world0
     = (Raise (NetworkError msg),
        after_attempts (svc_failing (RequestBlocked "blocked")) world0 (Z.to_nat 3)))
  /\ (exists msg,
        list_available_languages (svc_failing (RequestBlocked "blocked")) 3
          "dQw4w9WgXcQ" world0
        = (Raise (NetworkError msg),
           after_attempts (svc_failing (RequestBlocked "blocked")) world0 (Z.to_nat 3))).
Proof.
  apply (X7_catalog_fetch_exhausted (svc_failing (RequestBlocked "blocked")) 3
           "dQw4w9WgXcQ" None world0).
  - lia.
  - intros i Hi. exists (RequestBlocked "blocked"). split; reflexivity.
Defined.

(** X8. One call of [extract_transcript] with [max_retries >= 1] makes [c]
    catalog fetches, [1 <= c <= max_retries], then at most two content
    fetches; it sleeps only between catalog fetches, [c - 1] times. *)
Theorem X8_extract_calls_and_sleeps :
  forall (svc : Service) (max_retries : Z) (video_id : string)
         (language : option string) (w w' : World) (r : result Transcript.t),
    (1 <= max_retries)%Z ->
    extract_transcript svc max_retries video_id language w = (r, w') ->
    exists c,
      1 <= c /\ (Z.of_nat c <= max_retries)%Z
      /\ calls w + c <= calls w' <= calls w + c + 2
      /\ slept w' = (slept w ++ backoffs 0 (jitters svc (draws w) (c - 1)))%list
      /\ draws w' = draws w + (c - 1).
Proof.
  intros svc max_retries video_id language w w' r M H.
  destruct (RunFacts.extract_world _ _ _ _ _ _ _ H) as [r0 B].
  destruct (ExtractMore.extract_body_quiet _ _ _ _ _ _ _ B) as [r1 [w1 [F Q]]].
  destruct (RunFacts.run_world svc max_retries _ w r1 w1 M F) as [c [C1 [C2 E]]].
  exists c. destruct Q as [Qc [Qs Qd]]. rewrite Qs, Qd, E in *.
  cbn [after_attempts calls slept draws] in *. repeat split; try assumption; lia.
Qed.

(** A run of X8: one failed catalog fetch, a second one, one content
    fetch. *)
Lemma X8_extract_calls_and_sleeps_witness :
  exists c,
    1 <= c /\ (Z.of_nat c <= 3)%Z
    /\ calls world0 + c
       <= calls (mkWorld 3 (backoffs 0 (jitters svc_flaky_catalog 0 1)) 1)
       <= calls world0 + c + 2
    /\ slept (mkWorld 3 (backoffs 0 (jitters svc_flaky_catalog 0 1)) 1)
       = (slept world0 ++ backoffs 0 (jitters svc_flaky_catalog (draws world0) (c - 1)))%list
    /\ draws (mkWorld 3 (backoffs 0 (jitters svc_flaky_catalog 0 1)) 1)
       = draws world0 + (c - 1).
Proof.
  apply (X8_extract_calls_and_sleeps svc_flaky_catalog 3 "dQw4w9WgXcQ" None world0 _
           (Return (Transcript.cls "dQw4w9WgXcQ" "en" segments_of_raw_data))).
  - lia.
  - reflexivity.
Defined.

(* ===================================================================== *)
(** * The assembler and the language policy *)
(* ===================================================================== *)

Module PolicyFacts.
Import Api TranscriptExtractor Spec.

Lemma build_segment_assembled item seg :
  build_segment item = Return seg -> assembled item seg.
Proof.
  destruct item as [t s d|[t|] s d]; cbn; intros H; try discriminate;
    injection H as <-; (split; [eexists; split; reflexivity | split; reflexivity]).
Qed.

(** What [_build_transcript] returns: the identifier and the code it was
    given, and one segment per entry, in the order of the entries. *)
Lemma build_transcript_return video_id code data t :
  _build_transcript video_id code data = Return t ->
  Transcript.video_id t = video_id
  /\ Transcript.language_code t = code
  /\ Forall2 assembled data (Transcript.segments t).
Proof.
  unfold _build_transcript.
  destruct (build_segments [] data) as [segs|e] eqn:B; cbn [rbind]; [|discriminate].
  intros H. injection H as <-.
  split; [reflexivity | split; [reflexivity|]].
  destruct (ExtractMore.build_segments_each data [] segs B) as [new [-> F]].
  cbn [app Transcript.cls Transcript.segments].
  clear B. induction F; constructor; auto using build_segment_assembled.
Qed.

Lemma build_transcript_all_text video_id code data :
  forallb has_text data = true ->
  exists t, _build_transcript video_id code data = Return t.
Proof.
  intros H. unfold _build_transcript.
  destruct (ExtractMore.build_segments_all_text data [] H) as [new [-> _]].
  eexists. reflexivity.
Qed.

Lemma build_transcript_missing_text video_id code data :
  forallb has_text data = false ->
  _build_transcript video_id code data = Raise (KeyError "'text'").
Proof.
  intros H. unfold _build_transcript.
  now rewrite (ExtractMore.build_segments_missing_text data [] H).
Qed.

(** The track found carries the code asked for and belongs to the
    catalog. *)
Lemma find_transcript_found c l track :
  find_transcript c [l] = Return track ->
  In track (tracks c) /\ language_code track = l.
Proof.
  cbn [find_transcript].
  destruct (find _ (tracks c)) as [t|] eqn:F; [|discriminate].
  intros H. injection H as <-. apply find_some in F. destruct F as [I E].
  apply String.eqb_eq in E. now split.
Qed.

Section Policy.
Variable svc : Service.
Variable max_retries : Z.
Variable video_id : string.
Variables (w w1 : World) (catalog : TranscriptList).

Hypothesis catalog_fetched :
  _fetch_with_retry svc max_retries (remote (list_ svc video_id)) w
  = (Return catalog, w1).

Local Abbreviation extract := (extract_transcript svc max_retries video_id).
Local Abbreviation one_fetch_later :=
  (mkWorld (S (calls w1)) (slept w1) (draws w1)).

(** The language asked for is in the catalog and its content arrives. *)
Lemma extract_requested l track data :
  l <> "" ->
  find_transcript catalog [l] = Return track ->
  fetch_ svc track (calls w1) = Return data ->
  extract (Some l) w
  = (match _build_transcript video_id l data with
     | Return t => Return t
     | Raise e => Raise (extract_handlers video_id (Some l) e)
     end, one_fetch_later).
Proof.
  intros N F R. unfold extract_transcript, extract_body, try_except at 1, bind at 1.
  rewrite catalog_fetched, (ExtractFacts.str_truthy_some l N).
  unfold bind, lift, remote. cbn [str_value]. rewrite F, R.
  destruct (_build_transcript video_id l data); reflexivity.
Qed.

(** No language asked for, an English track, and content that is
    assembled. *)
Lemma extract_english language track data t :
  str_truthy language = false ->
  find_transcript catalog ["en"] = Return track ->
  fetch_ svc track (calls w1) = Return data ->
  _build_transcript video_id "en" data = Return t ->
  extract language w = (Return t, one_fetch_later).
Proof.
  intros L F R B. unfold extract_transcript, extract_body, try_except at 1, bind at 1.
  rewrite catalog_fetched, L.
  unfold try_except, bind, lift, remote. now rewrite F, R, B.
Qed.

(** No language asked for, no English track: the first track is fetched. *)
Lemma extract_first language first rest data t :
  str_truthy language = false ->
  (forall tr, In tr (tracks catalog) -> language_code tr <> "en") ->
  tracks catalog = first :: rest ->
  truth catalog = true ->
  fetch_ svc first (calls w1) = Return data ->
  _build_transcript video_id (language_code first) data = Return t ->
  extract language w = (Return t, one_fetch_later).
Proof.
  intros L A T Tr R B.
  unfold extract_transcript, extract_body, try_except at 1, bind at 1.
  rewrite catalog_fetched, L.
  unfold try_except, bind, lift, remote.
  rewrite (ExtractFacts.find_transcript_absent catalog "en" A), Tr, T.
  cbn [PyStr.index nth_error]. now rewrite R, B.
Qed.

(** The listing of a catalog that was fetched. *)
Lemma list_of_catalog :
  list_available_languages svc max_retries video_id w
  = (Return (map info_of (tracks catalog)), w1).
Proof.
  unfold list_available_languages, list_body, try_except, bind.
  rewrite catalog_fetched. cbn [ret].
  now rewrite ExtractMore.languages_loop.
Qed.

End Policy.

(** [_detect_language] asks once and answers in every case. *)
Lemma detect_language_answer svc video_id w :
  _detect_language svc video_id w
  = (Return (match list_ svc video_id (calls w) with
             | Return c =>
                 match tracks c with
                 | t :: _ => language_code t
                 | [] => "unknown"
                 end
             | Raise _ => "unknown"
             end),
     mkWorld (S (calls w)) (slept w) (draws w)).
Proof.
  unfold _detect_language, try_except, bind, remote.
  destruct (list_ svc video_id (calls w)) as [c|e]; [|reflexivity].
  destruct (tracks c); reflexivity.
Qed.

End PolicyFacts.

(** X9. When a language (not the empty string) is asked for, the catalog
    holds a track with that code, its content fetch succeeds and every entry
    presents a text, [extract_transcript] returns, after that single content
    fetch, a transcript with the video identifier and the requested code,
    and one segment per entry in the order of the entries, the text
    stripped, start and duration as the entry has them. *)
Theorem X9_extract_requested_language :
  forall (svc : Service) (max_retries : Z) (video_id l : string)
         (catalog : TranscriptList) (w w1 : World) (track : Track)
         (data : list RawItem),
    l <> "" ->
    _fetch_with_retry svc max_retries (remote (list_ svc video_id)) w
    = (Return catalog, w1) ->
    find_transcript catalog [l] = Return track ->
    fetch_ svc track (calls w1) = Return data ->
    forallb has_text data = true ->
    exists t,
      extract_transcript svc max_retries video_id (Some l) w
      = (Return t, mkWorld (S (calls w1)) (slept w1) (draws w1))
      /\ Transcript.video_id t = video_id
      /\ Transcript.language_code t = l
      /\ language_code track = l
      /\ Forall2 assembled data (Transcript.segments t).
Proof.
  intros svc max_retries video_id l catalog w w1 track data N C F R T.
  destruct (PolicyFacts.build_transcript_all_text video_id l data T) as [t B].
  exists t.
  rewrite (PolicyFacts.extract_requested svc max_retries video_id w w1 catalog
             C l track data N F R), B.
  destruct (PolicyFacts.build_transcript_return _ _ _ _ B) as [V [L S]].
  destruct (PolicyFacts.find_transcript_found _ _ _ F) as [_ K].
  repeat split; assumption.
Qed.

(** A run of X9: French is asked for and is in the catalog. *)
Lemma X9_extract_requested_language_witness :
  exists t,
    extract_transcript (svc_of catalog_fr_en) 3 "dQw4w9WgXcQ" (Some "fr") world0
    = (Return t, mkWorld (S (calls (mkWorld 1 [] 0))) [] 0)
    /\ Transcript.video_id t = "dQw4w9WgXcQ"
    /\ Transcript.language_code t = "fr"
    /\ language_code track_fr = "fr"
    /\ Forall2 assembled raw_data (Transcript.segments t).
Proof.
  apply (X9_extract_requested_language (svc_of catalog_fr_en) 3 "dQw4w9WgXcQ" "fr"
           catalog_fr_en world0 (mkWorld 1 [] 0) track_fr raw_data).
  - discriminate.
  - reflexivity.
  - reflexivity.
  - reflexivity.
  - reflexivity.
Defined.

(** X10. When no language is asked for, the catalog holds an English track
    and its content is fetched and assembled, [extract_transcript] returns
    the English transcript, wherever the English track stands in the
    catalog. *)
Theorem X10_extract_prefers_english :
  forall (svc : Service) (max_retries : Z) (video_id : string)
         (language : option string) (catalog : TranscriptList) (w w1 : World)
         (track : Track) (data : list RawItem),
    str_truthy language = false ->
    _fetch_with_retry svc max_retries (remote (list_ svc video_id)) w
    = (Return catalog, w1) ->
    find_transcript catalog ["en"] = Return track ->
    fetch_ svc track (calls w1) = Return data ->
    forallb has_text data = true ->
    exists t,
      extract_transcript svc max_retries video_id language w
      = (Return t, mkWorld (S (calls w1)) (slept w1) (draws w1))
      /\ Transcript.language_code t = "en"
      /\ In track (tracks catalog) /\ language_code track = "en"
      /\ Forall2 assembled data (Transcript.segments t).
Proof.
  intros svc max_retries video_id language catalog w w1 track data L C F R T.
  destruct (PolicyFacts.build_transcript_all_text video_id "en" data T) as [t B].
  exists t.
  rewrite (PolicyFacts.extract_english svc max_retries video_id w w1 catalog
             C language track data t L F R B).
  destruct (PolicyFacts.build_transcript_return _ _ _ _ B) as [V [K S]].
  destruct (PolicyFacts.find_transcript_found _ _ _ F) as [I E].
  repeat split; assumption.
Qed.

(** A run of X10: the English track is the second of the catalog. *)
Lemma X10_extract_prefers_english_witness :
  exists t,
    extract_transcript (svc_of catalog_fr_en) 3 "dQw4w9WgXcQ" None world0
    = (Return t, mkWorld (S (calls (mkWorld 1 [] 0))) [] 0)
    /\ Transcript.language_code t = "en"
    /\ In track_en (tracks catalog_fr_en) /\ language_code track_en = "en"
    /\ Forall2 assembled raw_data (Transcript.segments t).
Proof.
  apply (X10_extract_prefers_english (svc_of catalog_fr_en) 3 "dQw4w9WgXcQ" None
           catalog_fr_en world0 (mkWorld 1 [] 0) track_en raw_data);
    reflexivity.
Defined.

(** X11. When no language is asked for, no track of the catalog is English,
    the catalog is not empty (and true as a Python object) and the content
    of its first track is fetched and assembled, [extract_transcript]
    returns the transcript of the first track, under that track's own
    language code. *)
Theorem X11_extract_falls_back_to_first_track :
  forall (svc : Service) (max_retries : Z) (video_id : string)
         (language : option string) (catalog : TranscriptList) (w w1 : World)
         (first : Track) (rest : list Track) (data : list RawItem),
    str_truthy language = false ->
    _fetch_with_retry svc max_retries (remote (list_ svc video_id)) w
    = (Return catalog, w1) ->
    (forall tr, In tr (tracks catalog) -> language_code tr <> "en") ->
    tracks catalog = first :: rest ->
    truth catalog = true ->
    fetch_ svc first (calls w1) = Return data ->
    forallb has_text data = true ->
    exists t,
      extract_transcript svc max_retries video_id language w
      = (Return t, mkWorld (S (calls w1)) (slept w1) (draws w1))
      /\ Transcript.language_code t = language_code first
      /\ Forall2 assembled data (Transcript.segments t).
Proof.
  intros svc max_retries video_id language catalog w w1 first rest data
         L C A T Tr R H.
  destruct (PolicyFacts.build_transcript_all_text video_id (language_code first)
              data H) as [t B].
  exists t.
  rewrite (PolicyFacts.extract_first svc max_retries video_id w w1 catalog
             C language first rest data t L A T Tr R B).
  destruct (PolicyFacts.build_transcript_return _ _ _ _ B) as [V [K S]].
  repeat split; assumption.
Qed.

(** A run of X11: the catalog holds the French track only. *)
Lemma X11_extract_falls_back_to_first_track_witness :
  exists t,
    extract_transcript (svc_of catalog_fr) 3 "dQw4w9WgXcQ" None world0
    = (Return t, mkWorld (S (calls (mkWorld 1 [] 0))) [] 0)
    /\ Transcript.language_code t = language_code track_fr
    /\ Forall2 assembled raw_data (Transcript.segments t).
Proof.
  apply (X11_extract_falls_back_to_first_track (svc_of catalog_fr) 3 "dQw4w9WgXcQ"
           None catalog_fr world0 (mkWorld 1 [] 0) track_fr [] raw_data);
    try reflexivity.
  intros tr [<-|[]]. discriminate.
Defined.

(** X12. A transcript returned by [_build_transcript] carries the video
    identifier and the language code it was given and has exactly one
    segment per raw entry, in the order of the entries: nothing is sorted,
    merged or dropped; each segment has the stripped text of its entry and
    the entry's start and duration, absent where the entry has none. *)
Theorem X12_build_transcript_keeps_entries :
  forall (video_id code : string) (data : list RawItem) (t : Transcript.t),
    _build_transcript video_id code data = Return t ->
    Transcript.video_id t = video_id
    /\ Transcript.language_code t = code
    /\ Transcript.len t = List.length data
    /\ Forall2 assembled data (Transcript.segments t).
Proof.
  intros video_id code data t B.
  destruct (PolicyFacts.build_transcript_return _ _ _ _ B) as [V [K S]].
  repeat split; try assumption.
  unfold Transcript.len. symmetry. eapply Forall2_length. eassumption.
Qed.

(** A run of X12: a mapping and an object, the second with spaces around
    its text. *)
Lemma X12_build_transcript_keeps_entries_witness :
  Transcript.video_id (Transcript.cls "dQw4w9WgXcQ" "en" segments_of_raw_data)
  = "dQw4w9WgXcQ"
  /\ Transcript.language_code (Transcript.cls "dQw4w9WgXcQ" "en" segments_of_raw_data)
     = "en"
  /\ Transcript.len (Transcript.cls "dQw4w9WgXcQ" "en" segments_of_raw_data)
     = List.length raw_data
  /\ Forall2 assembled raw_data
       (Transcript.segments (Transcript.cls "dQw4w9WgXcQ" "en" segments_of_raw_data)).
Proof.
  apply (X12_build_transcript_keeps_entries "dQw4w9WgXcQ" "en" raw_data).
  reflexivity.
Defined.

(** X13. When a raw entry is a mapping without the key [text],
    [_build_transcript] raises [KeyError], whatever the other entries are;
    inside [extract_transcript] with a requested language that is in the
    catalog, the failure comes out as a [NetworkError] although the content
    fetch succeeded. *)
Theorem X13_entry_without_text :
  forall (svc : Service) (max_retries : Z) (video_id l : string)
         (catalog : TranscriptList) (w w1 : World) (track : Track)
         (data : list RawItem),
    l <> "" ->
    _fetch_with_retry svc max_retries (remote (list_ svc video_id)) w
    = (Return catalog, w1) ->
    find_transcript catalog [l] = Return track ->
    fetch_ svc track (calls w1) = Return data ->
    forallb has_text data = false ->
    _build_transcript video_id l data = Raise (KeyError "'text'")
    /\ extract_transcript svc max_retries video_id (Some l) w
       = (Raise (NetworkError "Network error occurred: 'text'"),
          mkWorld (S (calls w1)) (slept w1) (draws w1)).
Proof.
  intros svc max_retries video_id l catalog w w1 track data N C F R T.
  pose proof (PolicyFacts.build_transcript_missing_text video_id l data T) as B.
  split; [exact B|].
  now rewrite (PolicyFacts.extract_requested svc max_retries video_id w w1 catalog
                 C l track data N F R), B.
Qed.

(** A run of X13: the second entry has no text. *)
Lemma X13_entry_without_text_witness :
  _build_transcript "dQw4w9WgXcQ" "fr" raw_data_missing_text
  = Raise (KeyError "'text'")
  /\ extract_transcript (svc_with catalog_fr raw_data_missing_text) 3
       "dQw4w9WgXcQ" (Some "fr") world0
     = (Raise (NetworkError "Network error occurred: 'text'"),
        mkWorld (S (calls (mkWorld 1 [] 0))) [] 0).
Proof.
  apply (X13_entry_without_text (svc_with catalog_fr raw_data_missing_text) 3
           "dQw4w9WgXcQ" "fr" catalog_fr world0 (mkWorld 1 [] 0) track_fr
           raw_data_missing_text).
  - discriminate.
  - reflexivity.
  - reflexivity.
  - reflexivity.
  - reflexivity.
Defined.

(** X14. When the catalog fetch succeeds, [list_available_languages]
    returns one entry per track of the catalog, in the order of the catalog,
    with the track's code, name and generated flag, and [is_translatable]
    true exactly when the track has translation languages; an empty catalog
    gives the empty list, not an error. No remote call is made beyond the
    catalog fetch. *)
Theorem X14_list_available_languages :
  forall (svc : Service) (max_retries : Z) (video_id : string)
         (catalog : TranscriptList) (w w1 : World),
    _fetch_with_retry svc max_retries (remote (list_ svc video_id)) w
    = (Return catalog, w1) ->
    exists languages,
      list_available_languages svc max_retries video_id w = (Return languages, w1)
      /\ List.length languages = List.length (tracks catalog)
      /\ (forall i t, nth_error (tracks catalog) i = Some t ->
            exists info,
              nth_error languages i = Some info
              /\ info_language_code info = language_code t
              /\ info_language info = language t
              /\ info_is_generated info = is_generated t
              /\ (info_is_translatable info = true
                  <-> translation_languages t <> []))
      /\ (tracks catalog = [] -> languages = []).
Proof.
  intros svc max_retries video_id catalog w w1 C.
  exists (map info_of (tracks catalog)).
  split; [now apply PolicyFacts.list_of_catalog|].
  split; [apply length_map|]. split.
  - intros i t H. exists (info_of t). split.
    + now rewrite nth_error_map, H.
    + repeat split; cbn; destruct (translation_languages t);
        cbn; congruence.
  - intros ->. reflexivity.
Qed.

(** A run of X14: a catalog with the French and the English track. *)
Lemma X14_list_available_languages_witness :
  exists languages,
    list_available_languages (svc_of catalog_fr_en) 3 "dQw4w9WgXcQ" world0
    = (Return languages, mkWorld 1 [] 0)
    /\ List.length languages = List.length (tracks catalog_fr_en)
    /\ (forall i t, nth_error (tracks catalog_fr_en) i = Some t ->
          exists info,
            nth_error languages i = Some info
            /\ info_language_code info = language_code t
            /\ info_language info = language t
            /\ info_is_generated info = is_generated t
            /\ (info_is_translatable info = true
                <-> translation_languages t <> []))
    /\ (tracks catalog_fr_en = [] -> languages = []).
Proof.
  apply (X14_list_available_languages (svc_of catalog_fr_en) 3 "dQw4w9WgXcQ"
           catalog_fr_en world0 (mkWorld 1 [] 0)).
  reflexivity.
Defined.

(** X15. Whatever [list_available_languages] raises is a
    [TranscriptNotAvailableError] or a [NetworkError]; in particular a
    [NoTranscriptFound] of the source comes out as a [NetworkError] there,
    not as a [LanguageNotFoundError]. *)
Theorem X15_list_error_kinds :
  forall (svc : Service) (max_retries : Z) (video_id : string)
         (w w' : World) (e : exn),
    list_available_languages svc max_retries video_id w = (Raise e, w') ->
    (exists m, e = TranscriptNotAvailableError m) \/ (exists m, e = NetworkError m).
Proof.
  intros svc max_retries video_id w w' e H.
  destruct (ExtractMore.list_raise_handled _ _ _ _ _ _ H) as [e0 ->].
  apply ExtractMore.list_handlers_kinds.
Qed.

(** A run of X15: the source raises [NoTranscriptFound] on the catalog
    fetch. *)
Lemma X15_list_error_kinds_witness :
  (exists m, NetworkError "Failed to list languages: none" = TranscriptNotAvailableError m)
  \/ (exists m, NetworkError "Failed to list languages: none" = NetworkError m).
Proof.
  apply (X15_list_error_kinds (svc_failing (NoTranscriptFound "none")) 3
           "dQw4w9WgXcQ" world0 (mkWorld 1 [] 0)).
  reflexivity.
Defined.

(** X16. [_detect_language] makes exactly one remote call, never sleeps and
    never raises: it answers the language code of the first track of the
    catalog, and ['unknown'] when the catalog is empty or its fetch fails,
    a transient failure included (the fetch is not retried). *)
Theorem X16_detect_language :
  forall (svc : Service) (video_id : string) (w : World),
    exists answer,
      _detect_language svc video_id w
      = (Return answer, mkWorld (S (calls w)) (slept w) (draws w))
      /\ (forall c t rest,
            list_ svc video_id (calls w) = Return c -> tracks c = t :: rest ->
            answer = language_code t)
      /\ (forall c,
            list_ svc video_id (calls w) = Return c -> tracks c = [] ->
            answer = "unknown")
      /\ (forall e,
            list_ svc video_id (calls w) = Raise e -> answer = "unknown").
Proof.
  intros svc video_id w. eexists. split.
  - apply PolicyFacts.detect_language_answer.
  - repeat split.
    + intros c t rest -> ->. reflexivity.
    + intros c -> ->. reflexivity.
    + intros e ->. reflexivity.
Qed.

(* ===================================================================== *)
(** * The resolver on addresses *)
(* ===================================================================== *)

Module UrlFacts.
Import PyStr UrlLib Spec.

Lemma length_append (p s : string) :
  String.length (p ++ s) = String.length p + String.length s.
Proof. induction p as [|c p IH]; cbn; [reflexivity | now rewrite IH]. Qed.

Lemma absent_app b p s : absent b (p ++ s) = absent b p && absent b s.
Proof.
  unfold absent. induction p as [|c p IH]; cbn [append str_forall]; [reflexivity|].
  now rewrite IH, andb_assoc.
Qed.

(** A character that is not allowed in an identifier does not occur in a
    string of allowed characters. *)
Lemma id_absent (b : ascii) (s : string) :
  id_char b = false -> str_forall id_char s = true -> absent b s = true.
Proof.
  intros B. induction s as [|c s IH]; [reflexivity|].
  cbn [str_forall absent]. intros H. apply andb_prop in H. destruct H as [C R].
  unfold absent in IH. rewrite (IH R), andb_true_r.
  destruct (Ascii.eqb_spec b c) as [->|N]; [congruence | reflexivity].
Qed.

Lemma without_absent b s : absent b s = true -> without b s = s.
Proof.
  induction s as [|c s IH]; [reflexivity|].
  cbn [absent str_forall without]. intros H. apply andb_prop in H. destruct H as [C R].
  apply negb_true_iff in C. rewrite C. f_equal. now apply IH.
Qed.

Lemma replace_absent b s : absent b s = true -> replace (String b "") "" s = s.
Proof. intros H. rewrite VideoFacts.replace_single_without. now apply without_absent. Qed.

Lemma split_once_absent b s : absent b s = true -> split_once b s = None.
Proof.
  induction s as [|c s IH]; [reflexivity|].
  cbn [absent str_forall split_once]. intros H. apply andb_prop in H. destruct H as [C R].
  apply negb_true_iff in C. rewrite C. now rewrite (IH R).
Qed.

Lemma split_once_app b p s x y :
  split_once b p = Some (x, y) -> split_once b (p ++ s) = Some (x, y ++ s).
Proof.
  revert x y. induction p as [|c p IH]; intros x y; cbn [split_once append];
    [discriminate|].
  destruct (Ascii.eqb b c).
  - intros H. injection H as <- <-. reflexivity.
  - destruct (split_once b p) as [[a r]|]; [|discriminate].
    intros H. injection H as <- <-. now rewrite (IH a r eq_refl).
Qed.

Lemma split_scheme_app p s sch rest :
  split_scheme p = (sch, rest) -> sch <> "" ->
  split_scheme (p ++ s) = (sch, rest ++ s).
Proof.
  unfold split_scheme.
  destruct (split_once ":" p) as [[[|c0 pre] r]|] eqn:E.
  - intros H. injection H as <- _. congruence.
  - rewrite (split_once_app _ _ s _ _ E).
    destruct (chr_isascii_alpha c0 && str_forall scheme_char (String c0 pre)).
    + intros H. injection H as <- <-. reflexivity.
    + intros H. injection H as <- _. congruence.
  - intros H. injection H as <- _. congruence.
Qed.

Lemma span_netloc_app p s h r :
  span_netloc p = (h, r) -> r <> "" -> span_netloc (p ++ s) = (h, r ++ s).
Proof.
  revert h r. induction p as [|c p IH]; intros h r; cbn [span_netloc append].
  - intros H. injection H as <- <-. congruence.
  - destruct (is_char "/" c || is_char "?" c || is_char "#" c).
    + intros H. injection H as <- <-. reflexivity.
    + destruct (span_netloc p) as [h0 r0]. intros H. injection H as <- <-.
      intros N. now rewrite (IH h0 r0 eq_refl N).
Qed.

Lemma split_netloc_app p s h r :
  span_netloc p = (h, r) -> r <> "" ->
  split_netloc (String "/" (String "/" (p ++ s))) = (h, r ++ s).
Proof.
  intros H N. change (split_netloc (String "/" (String "/" (p ++ s))))
    with (span_netloc (p ++ s)).
  now apply span_netloc_app.
Qed.

Lemma prefix_absent b sub s : absent b s = true -> prefix (String b sub) s = false.
Proof.
  destruct s as [|c s]; [reflexivity|].
  cbn [absent str_forall prefix]. intros H. apply andb_prop in H. destruct H as [C _].
  apply negb_true_iff, Ascii.eqb_neq in C.
  destruct (ascii_dec b c); [contradiction | reflexivity].
Qed.

Lemma absent_tail b c s : absent b (String c s) = true -> absent b s = true.
Proof. cbn [absent str_forall]. intros H. apply andb_prop in H. tauto. Qed.

Lemma contains_absent b sub s : absent b s = true -> contains (String b sub) s = false.
Proof.
  induction s as [|c s IH]; intros H.
  - reflexivity.
  - cbn [contains]. rewrite (prefix_absent b sub _ H).
    apply IH. eapply absent_tail; eassumption.
Qed.

Lemma split_from_absent b sub s : forall cur,
  absent b s = true -> split_from (String b sub) 0 cur s = [cur ++ s].
Proof.
  induction s as [|c s IH]; intros cur H.
  - cbn [split_from]. now rewrite RenderFacts.append_empty_r.
  - cbn [split_from]. rewrite (prefix_absent b sub _ H).
    rewrite IH by (eapply absent_tail; eassumption).
    now rewrite RenderFacts.append_assoc.
Qed.

Lemma split_from_skip sep p s : forall cur,
  split_from sep (String.length p) cur (p ++ s) = split_from sep 0 cur s.
Proof.
  induction p as [|c p IH]; intros cur; [reflexivity|].
  cbn [String.length append split_from]. apply IH.
Qed.

Lemma prefix_refl_app p s : prefix p (p ++ s) = true.
Proof.
  induction p as [|c p IH]; cbn [append prefix].
  - destruct s; reflexivity.
  - destruct (ascii_dec c c); [exact IH | contradiction].
Qed.

(** Splitting at a separator a string that starts with it. *)
Lemma split_leading_sep b sub s :
  absent b s = true ->
  split (String b sub) (String b sub ++ s) = [""; s].
Proof.
  intros H. unfold split. cbn [append split_from].
  pose proof (prefix_refl_app (String b sub) s) as P. cbn [append] in P. rewrite P.
  cbn [String.length Nat.sub]. rewrite Nat.sub_0_r.
  rewrite split_from_skip. now rewrite (split_from_absent b sub s "" H).
Qed.

Lemma lstrip_absent b s : absent b s = true -> lstrip_by (is_char b) s = s.
Proof.
  destruct s as [|c s]; [reflexivity|].
  cbn [absent str_forall lstrip_by]. intros H. apply andb_prop in H. destruct H as [C _].
  apply negb_true_iff in C. unfold is_char. now rewrite C.
Qed.

Lemma unquote_absent s : absent "%" s = true -> unquote s = s.
Proof.
  induction s as [|c s IH]; [reflexivity|].
  intros H. pose proof (absent_tail _ _ _ H) as T.
  cbn [absent str_forall] in H. apply andb_prop in H. destruct H as [C _].
  apply negb_true_iff in C. cbn [unquote]. unfold is_char. rewrite C.
  now rewrite (IH T).
Qed.

Lemma plus_to_space_absent s : absent "+" s = true -> plus_to_space s = s.
Proof.
  unfold plus_to_space, is_char. induction s as [|c s IH]; [reflexivity|].
  intros H. pose proof (absent_tail _ _ _ H) as T.
  cbn [absent str_forall] in H. apply andb_prop in H. destruct H as [C _].
  apply negb_true_iff in C. cbn [str_map]. rewrite C.
  now rewrite (IH T).
Qed.


Section Shapes.
Variable id : string.
Hypothesis id_length : String.length id = 11.
Hypothesis id_chars : str_forall id_char id = true.

Lemma id_free b : id_char b = false -> absent b id = true.
Proof. intros B. now apply id_absent. Qed.

Lemma absent_with_id b p :
  absent b p = true -> id_char b = false -> absent b (p ++ id) = true.
Proof. intros P B. now rewrite absent_app, P, (id_free b B). Qed.

(** The first steps of [urlparse] on a prefix followed by the identifier:
    nothing is stripped or removed, the scheme and the host are those of the
    prefix. *)
Lemma urlparse_head (c : ascii) (p sch r1 loc r2 : string) :
  between 0 32 c = false ->
  absent "009" (String c p) = true ->
  absent "013" (String c p) = true ->
  absent "010" (String c p) = true ->
  split_scheme (String c p) = (sch, String "/" (String "/" r1)) -> sch <> "" ->
  span_netloc r1 = (loc, r2) -> r2 <> "" ->
  xorb (contains "[" loc) (contains "]" loc) = false ->
  urlparse (String c p ++ id)
  = (let url := r2 ++ id in
     let (url, frag) :=
       match split_once "#" url with Some p => p | None => (url, "") end in
     let (url, qry) :=
       match split_once "?" url with Some p => p | None => (url, "") end in
     let (url, prm) :=
       if existsb (String.eqb sch) uses_params && contains ";" url
       then splitparams url else (url, "") in
     Return (mkParseResult sch loc url prm qry frag)).
Proof.
  intros B T C N S Hs L Hr X. unfold urlparse.
  replace (lstrip_by (between 0 32) (String c p ++ id)) with (String c p ++ id)
    by (cbn [append lstrip_by]; now rewrite B).
  rewrite (replace_absent "009") by (now apply absent_with_id).
  rewrite (replace_absent "013") by (now apply absent_with_id).
  rewrite (replace_absent "010") by (now apply absent_with_id).
  rewrite (split_scheme_app _ id _ _ S Hs). cbn [append].
  rewrite (split_netloc_app r1 id loc r2 L Hr). now rewrite X.
Qed.

Lemma watch_url :
  urlparse ("https://youtube.com/watch?v=" ++ id)
  = Return (mkParseResult "https" "youtube.com" "/watch" "" ("v=" ++ id) "").
Proof.
  rewrite (urlparse_head "h" "ttps://youtube.com/watch?v=" "https"
             "youtube.com/watch?v=" "youtube.com" "/watch?v=");
    try reflexivity; try discriminate.
  cbv zeta.
  rewrite (split_once_absent "#") by (now apply absent_with_id).
  rewrite (split_once_app "?" "/watch?v=" id "/watch" "v=" eq_refl).
  reflexivity.
Qed.

Lemma short_url :
  urlparse ("https://youtu.be/" ++ id)
  = Return (mkParseResult "https" "youtu.be" ("/" ++ id) "" "" "").
Proof.
  rewrite (urlparse_head "h" "ttps://youtu.be/" "https"
             "youtu.be/" "youtu.be" "/");
    try reflexivity; try discriminate.
  cbv zeta.
  rewrite (split_once_absent "#") by (now apply absent_with_id).
  rewrite (split_once_absent "?") by (now apply absent_with_id).
  rewrite (contains_absent ";" "") by (now apply absent_with_id).
  rewrite andb_false_r. reflexivity.
Qed.

Lemma embed_url :
  urlparse ("https://youtube.com/embed/" ++ id)
  = Return (mkParseResult "https" "youtube.com" ("/embed/" ++ id) "" "" "").
Proof.
  rewrite (urlparse_head "h" "ttps://youtube.com/embed/" "https"
             "youtube.com/embed/" "youtube.com" "/embed/");
    try reflexivity; try discriminate.
  cbv zeta.
  rewrite (split_once_absent "#") by (now apply absent_with_id).
  rewrite (split_once_absent "?") by (now apply absent_with_id).
  rewrite (contains_absent ";" "") by (now apply absent_with_id).
  rewrite andb_false_r. reflexivity.
Qed.

Lemma id_not_empty : exists c rest, id = String c rest.
Proof. destruct id as [|c rest]; [discriminate id_length | eauto]. Qed.

Lemma parse_qs_v : parse_qs ("v=" ++ id) = [("v", [id])].
Proof.
  unfold parse_qs, parse_qsl. cbn [append]. unfold split.
  rewrite (split_from_absent "&" "" _ "") by (now apply (absent_with_id "&" "v=")).
  cbn [append flat_map].
  change (String "v" (String "=" id)) with ("v=" ++ id).
  rewrite (split_once_app "=" "v=" id "v" "" eq_refl). cbn [append].
  destruct id_not_empty as [c [rest E]]. rewrite E at 1. rewrite <- E.
  rewrite (plus_to_space_absent id), (unquote_absent id)
    by (now apply id_free).
  reflexivity.
Qed.

Lemma not_bare (p : string) :
  p <> "" -> (String.length (p ++ id) =? 11)%nat = false.
Proof.
  intros N. rewrite length_append, id_length. apply Nat.eqb_neq.
  destruct p; [congruence | cbn; lia].
Qed.

Lemma accepted (url : string) :
  (if String.eqb id "" || negb (String.length id =? 11)%nat
   then Raise (InvalidUrlError ("Could not extract valid video ID from: " ++ url))
   else Return (Video.cls id url)) = Return (Video.cls id url).
Proof.
  rewrite id_length. destruct id_not_empty as [c [rest ->]]. reflexivity.
Qed.

Lemma from_watch_url :
  Video.from_url ("https://youtube.com/watch?v=" ++ id)
  = Return (Video.cls id ("https://youtube.com/watch?v=" ++ id)).
Proof.
  unfold Video.from_url. rewrite not_bare by discriminate. cbn [andb].
  rewrite watch_url. cbn [rbind]. unfold Video.extract_id.
  cbn [netloc path query].
  change (contains "youtube.com" "youtube.com") with true.
  change ("/watch" =? "/watch") with true. cbv iota.
  rewrite parse_qs_v. cbn [dict_get index nth_error rbind].
  change ("v" =? "v") with true. cbn [map index nth_error rbind].
  apply accepted.
Qed.

Lemma from_short_url :
  Video.from_url ("https://youtu.be/" ++ id)
  = Return (Video.cls id ("https://youtu.be/" ++ id)).
Proof.
  unfold Video.from_url. rewrite not_bare by discriminate. cbn [andb].
  rewrite short_url. cbn [rbind]. unfold Video.extract_id.
  cbn [netloc path query].
  change (contains "youtube.com" "youtu.be") with false.
  change (contains "youtu.be" "youtu.be") with true. cbv iota.
  change (lstrip_by (is_char "/") ("/" ++ id)) with (lstrip_by (is_char "/") id).
  rewrite (lstrip_absent "/") by (now apply id_free).
  rewrite (contains_absent "?" "") by (now apply id_free).
  cbn [rbind]. apply accepted.
Qed.

Lemma from_embed_url :
  Video.from_url ("https://youtube.com/embed/" ++ id)
  = Return (Video.cls id ("https://youtube.com/embed/" ++ id)).
Proof.
  unfold Video.from_url. rewrite not_bare by discriminate. cbn [andb].
  rewrite embed_url. cbn [rbind]. unfold Video.extract_id.
  cbn [netloc path query].
  change (contains "youtube.com" "youtube.com") with true. cbv iota.
  change ("/embed/" ++ id =? "/watch") with false. cbv iota.
  rewrite (prefix_refl_app "/embed/" id).
  rewrite (split_leading_sep "/" "embed/" id) by (now apply id_free).
  cbn [index nth_error rbind]. unfold split.
  rewrite (split_from_absent "?" "" id "") by (now apply id_free).
  cbn [append index nth_error rbind]. apply accepted.
Qed.

End Shapes.










(** What [from_url] returns: an identifier of eleven characters, with the
    reference as given, or, for a bare identifier, the identifier itself
    with the canonical address. *)
Lemma from_url_return url v :
  Video.from_url url = Return v ->
  String.length (Video.video_id v) = 11
  /\ (v = bare_video url \/ Video.url v = url)
  /\ Video.title v = None /\ Video.duration v = None
  /\ Video.available_languages v = None.
Proof.
  unfold Video.from_url.
  destruct (String.length url =? 11)%nat eqn:L; cbn [andb].
  - destruct (isalnum _).
    + intros H. injection H as <-. apply Nat.eqb_eq in L. cbn. auto 6.
    + destruct (urlparse url) as [parsed|e0]; cbn [rbind]; [|discriminate].
      destruct (Video.extract_id url parsed) as [[x|]|e1]; cbn [rbind];
        try discriminate.
      destruct (String.eqb x ""); cbn [orb]; [discriminate|].
      destruct (String.length x =? 11)%nat eqn:X; cbn [negb]; [|discriminate].
      intros H. injection H as <-. apply Nat.eqb_eq in X. cbn. auto 6.
  - destruct (urlparse url) as [parsed|e0]; cbn [rbind]; [|discriminate].
    destruct (Video.extract_id url parsed) as [[x|]|e1]; cbn [rbind];
      try discriminate.
    destruct (String.eqb x ""); cbn [orb]; [discriminate|].
    destruct (String.length x =? 11)%nat eqn:X; cbn [negb]; [|discriminate].
    intros H. injection H as <-. apply Nat.eqb_eq in X. cbn. auto 6.
Qed.

End UrlFacts.

(** X17. Whatever [Video.from_url] returns has an identifier of exactly
    eleven characters and no title, duration or language list; it is either
    the input itself with the canonical watch address (the input was taken
    for a bare identifier) or an identifier with the input kept as the
    address. *)
Theorem X17_from_url_result :
  forall (url : string) (v : Video.t),
    Video.from_url url = Return v ->
    String.length (Video.video_id v) = 11
    /\ (v = bare_video url \/ Video.url v = url)
    /\ Video.title v = None /\ Video.duration v = None
    /\ Video.available_languages v = None.
Proof. intros url v H. now apply UrlFacts.from_url_return. Qed.

(** A run of X17: an embed address with a query string. *)
Lemma X17_from_url_result_witness :
  String.length
    (Video.video_id
       (Video.cls "dQw4w9WgXcQ" "https://youtube.com/embed/dQw4w9WgXcQ?start=30")) = 11
  /\ (Video.cls "dQw4w9WgXcQ" "https://youtube.com/embed/dQw4w9WgXcQ?start=30"
      = bare_video "https://youtube.com/embed/dQw4w9WgXcQ?start=30"
      \/ Video.url
           (Video.cls "dQw4w9WgXcQ" "https://youtube.com/embed/dQw4w9WgXcQ?start=30")
         = "https://youtube.com/embed/dQw4w9WgXcQ?start=30")
  /\ Video.title
       (Video.cls "dQw4w9WgXcQ" "https://youtube.com/embed/dQw4w9WgXcQ?start=30") = None
  /\ Video.duration
       (Video.cls "dQw4w9WgXcQ" "https://youtube.com/embed/dQw4w9WgXcQ?start=30") = None
  /\ Video.available_languages
       (Video.cls "dQw4w9WgXcQ" "https://youtube.com/embed/dQw4w9WgXcQ?start=30") = None.
Proof.
  apply (X17_from_url_result "https://youtube.com/embed/dQw4w9WgXcQ?start=30").
  reflexivity.
Defined.



(** X19. For every identifier of eleven characters, each alphanumeric, a
    hyphen or an underscore, the watch address, the short address and the
    embed address built on it resolve to that identifier, and the address is
    kept as given. *)
Theorem X19_from_url_address_shapes :
  forall id : string,
    String.length id = 11 ->
    PyStr.str_forall id_char id = true ->
    Video.from_url ("https://youtube.com/watch?v=" ++ id)
    = Return (Video.cls id ("https://youtube.com/watch?v=" ++ id))
    /\ Video.from_url ("https://youtu.be/" ++ id)
       = Return (Video.cls id ("https://youtu.be/" ++ id))
    /\ Video.from_url ("https://youtube.com/embed/" ++ id)
       = Return (Video.cls id ("https://youtube.com/embed/" ++ id)).
Proof.
  intros id L F. repeat split.
  - now apply UrlFacts.from_watch_url.
  - now apply UrlFacts.from_short_url.
  - now apply UrlFacts.from_embed_url.
Qed.

(** A run of X19: an identifier with a hyphen and an underscore. *)
Lemma X19_from_url_address_shapes_witness :
  Video.from_url ("https://youtube.com/watch?v=" ++ "a-c_e0GHI2K")
  = Return (Video.cls "a-c_e0GHI2K" ("https://youtube.com/watch?v=" ++ "a-c_e0GHI2K"))
  /\ Video.from_url ("https://youtu.be/" ++ "a-c_e0GHI2K")
     = Return (Video.cls "a-c_e0GHI2K" ("https://youtu.be/" ++ "a-c_e0GHI2K"))
  /\ Video.from_url ("https://youtube.com/embed/" ++ "a-c_e0GHI2K")
     = Return (Video.cls "a-c_e0GHI2K" ("https://youtube.com/embed/" ++ "a-c_e0GHI2K")).
Proof.
  apply (X19_from_url_address_shapes "a-c_e0GHI2K"); reflexivity.
Defined.

(** X20. Resolving is idempotent on bare identifiers: an input of eleven
    allowed characters with at least one alphanumeric character resolves to
    itself with the canonical watch address, and resolving that address
    gives the same [Video] again. *)
Theorem X20_from_url_canonical_round_trip :
  forall id : string,
    String.length id = 11 ->
    PyStr.str_forall id_char id = true ->
    str_exists PyStr.chr_isalnum id = true ->
    exists v,
      Video.from_url id = Return v
      /\ Video.video_id v = id
      /\ Video.url v = "https://youtube.com/watch?v=" ++ id
      /\ Video.from_url (Video.url v) = Return v.
Proof.
  intros id L F E. exists (bare_video id). split.
  - now apply VideoFacts.from_url_bare_id.
  - repeat split. cbn [bare_video Video.cls Video.url].
    now apply UrlFacts.from_watch_url.
Qed.

(** A run of X20. *)
Lemma X20_from_url_canonical_round_trip_witness :
  exists v,
    Video.from_url "dQw4w9WgX-Q" = Return v
    /\ Video.video_id v = "dQw4w9WgX-Q"
    /\ Video.url v = "https://youtube.com/watch?v=" ++ "dQw4w9WgX-Q"
    /\ Video.from_url (Video.url v) = Return v.
Proof.
  apply (X20_from_url_canonical_round_trip "dQw4w9WgX-Q"); reflexivity.
Defined.

(* ===================================================================== *)
(** * More on the renderers and on the transcript *)
(* ===================================================================== *)

Module LineFacts.
Import PyStr PyNum TranscriptSegment Formatters Spec.

Lemma occurrences_app c (a b : string) :
  occurrences c (a ++ b) = occurrences c a + occurrences c b.
Proof.
  induction a as [|x a IH]; cbn [append occurrences]; [reflexivity|].
  rewrite IH. lia.
Qed.

(** A decimal numeral holds digits only. *)
Lemma digits_only_uint (d : Decimal.uint) :
  occurrences "010" (NilEmpty.string_of_uint d) = 0.
Proof. induction d; cbn [NilEmpty.string_of_uint occurrences]; auto. Qed.

Lemma digits_only (n : N) : occurrences "010" (digits n) = 0.
Proof.
  unfold digits, NilZero.string_of_uint.
  destruct (N.to_uint n) eqn:E; try reflexivity;
    rewrite <- E; apply digits_only_uint.
Qed.

Lemma zeros_only k : occurrences "010" (zeros k) = 0.
Proof. induction k; cbn [zeros occurrences]; auto. Qed.

Lemma fmt_02d_one_line n : occurrences "010" (fmt_02d n) = 0.
Proof.
  unfold fmt_02d. rewrite !occurrences_app, zeros_only, digits_only.
  destruct (n <? 0)%Z; reflexivity.
Qed.

Lemma timestamp_one_line seg : occurrences "010" (format_timestamp seg) = 0.
Proof.
  unfold format_timestamp. destruct (start seg); [|reflexivity].
  rewrite !occurrences_app, !fmt_02d_one_line. reflexivity.
Qed.

Lemma plain_line_newlines ts seg :
  occurrences "010" (plain_line ts seg) = occurrences "010" (text seg).
Proof.
  unfold plain_line. destruct ts, (start seg); try reflexivity.
  now rewrite !occurrences_app, timestamp_one_line.
Qed.

Lemma markdown_line_newlines ts seg :
  occurrences "010" (markdown_line ts seg) = occurrences "010" (text seg).
Proof.
  unfold markdown_line. destruct ts, (start seg); try reflexivity.
  now rewrite !occurrences_app, timestamp_one_line.
Qed.

(** The newlines of the joined lines: one between two lines, and those of
    the lines. *)
Lemma join_newlines (line : TranscriptSegment.t -> string) segs :
  (forall seg, occurrences "010" (line seg) = occurrences "010" (text seg)) ->
  occurrences "010" (join newline (map line segs))
  = (List.length segs - 1) + newlines_in segs.
Proof.
  intros H. induction segs as [|seg segs IH]; [reflexivity|].
  destruct segs as [|seg' segs].
  - cbn [map join List.length Nat.sub newlines_in]. rewrite H. lia.
  - change (join newline (map line (seg :: seg' :: segs)))
      with (line seg ++ newline ++ join newline (map line (seg' :: segs))).
    rewrite !occurrences_app, IH, H.
    cbn [List.length Nat.sub newlines_in]. cbn. lia.
Qed.

Lemma fmt_02d_width n : 2 <= String.length (fmt_02d n).
Proof.
  unfold fmt_02d. rewrite !UrlFacts.length_append.
  assert (Z : forall k, String.length (zeros k) = k)
    by (induction k; cbn; auto).
  rewrite Z.
  assert (D : 1 <= String.length (digits (Z.abs_N n))).
  { unfold digits, NilZero.string_of_uint.
    destruct (N.to_uint (Z.abs_N n)); cbn; lia. }
  destruct (n <? 0)%Z; cbn [String.length]; lia.
Qed.

Lemma two_digits_width n : String.length (two_digits n) = 2.
Proof. reflexivity. Qed.

(** The texts joined by single spaces. *)
Lemma full_text_length segs :
  String.length (join " " (map text segs))
  = text_lengths segs + (List.length segs - 1).
Proof.
  induction segs as [|seg segs IH]; [reflexivity|].
  destruct segs as [|seg' segs].
  - cbn [map join text_lengths List.length Nat.sub]. lia.
  - change (join " " (map text (seg :: seg' :: segs)))
      with (text seg ++ " " ++ join " " (map text (seg' :: segs))).
    rewrite !UrlFacts.length_append, IH.
    cbn [text_lengths List.length Nat.sub String.length]. lia.
Qed.

Lemma last_segment_snoc v l segs seg g tr :
  Transcript.last_segment (Transcript.mk v l (segs ++ [seg]) g tr) = Some seg.
Proof.
  unfold Transcript.last_segment. cbn [Transcript.segments].
  destruct segs as [|s segs]; [reflexivity|].
  cbn [app]. f_equal. apply last_last.
Qed.

End LineFacts.

(** X21. The output of either renderer has one newline between two
    consecutive lines and, besides, only the newlines that the texts of the
    segments contain: with [n] segments whose texts are free of newlines it
    has exactly [n - 1] newlines (none for [n = 0]), so it has one line per
    segment, timestamps or not. *)
Theorem X21_renderers_line_count :
  forall (t : Transcript.t) (include_timestamps : bool),
    occurrences "010" (format PlainFormatter_new t include_timestamps)
    = (Transcript.len t - 1) + newlines_in (Transcript.segments t)
    /\ occurrences "010" (format MarkdownFormatter_new t include_timestamps)
       = (Transcript.len t - 1) + newlines_in (Transcript.segments t).
Proof.
  intros t ts. cbn [format PlainFormatter_Formatter MarkdownFormatter_Formatter].
  rewrite RenderFacts.plain_format_lines, RenderFacts.markdown_format_lines.
  unfold Transcript.len. split.
  - apply LineFacts.join_newlines. apply LineFacts.plain_line_newlines.
  - apply LineFacts.join_newlines. apply LineFacts.markdown_line_newlines.
Qed.

(** X22. For a start from zero up to (not including) one hundred hours the
    timestamp has exactly ten characters, [[HH:MM:SS]] with two digits per
    field; for any start it has at least ten characters, the hours field
    growing beyond two characters instead of wrapping. *)
Theorem X22_timestamp_width :
  forall (text : string) (s : Q) (d : option Q),
    (0 <= Qfloor s < 360000)%Z ->
    TranscriptSegment.format_timestamp (TranscriptSegment.mk text (Some s) d)
    = "[" ++ two_digits (Qfloor s / 3600)%Z ++ ":"
          ++ two_digits (Qfloor s mod 3600 / 60)%Z ++ ":"
          ++ two_digits (Qfloor s mod 60)%Z ++ "]"
    /\ String.length
         (TranscriptSegment.format_timestamp (TranscriptSegment.mk text (Some s) d))
       = 10
    /\ (forall s' : Q,
          10 <= String.length
                  (TranscriptSegment.format_timestamp
                     (TranscriptSegment.mk text (Some s') d))).
Proof.
  intros text s d R.
  assert (F : TranscriptSegment.format_timestamp (TranscriptSegment.mk text (Some s) d)
              = "[" ++ two_digits (Qfloor s / 3600)%Z ++ ":"
                    ++ two_digits (Qfloor s mod 3600 / 60)%Z ++ ":"
                    ++ two_digits (Qfloor s mod 60)%Z ++ "]").
  { rewrite (RenderFacts.timestamp_fields (TranscriptSegment.mk text (Some s) d)
               s eq_refl).
    pose proof (Z.mod_pos_bound (Qfloor s) 3600 ltac:(lia)) as B1.
    pose proof (Z.mod_pos_bound (Qfloor s) 60 ltac:(lia)) as B2.
    rewrite !NumFacts.fmt_02d_two_digits; [reflexivity | | |];
      (split; [first [lia | apply Z.div_pos; lia]
              | first [lia | apply Z.div_lt_upper_bound; lia]]). }
  split; [exact F | split].
  - rewrite F. reflexivity.
  - intros s'.
    rewrite (RenderFacts.timestamp_fields (TranscriptSegment.mk text (Some s') d)
               s' eq_refl).
    rewrite !UrlFacts.length_append.
    pose proof (LineFacts.fmt_02d_width (Qfloor s' / 3600)).
    pose proof (LineFacts.fmt_02d_width (Qfloor s' mod 3600 / 60)).
    pose proof (LineFacts.fmt_02d_width (Qfloor s' mod 60)).
    cbn [String.length]. lia.
Qed.

(** A run of X22: a start of 3665.7 seconds. *)
Lemma X22_timestamp_width_witness :
  TranscriptSegment.format_timestamp
    (TranscriptSegment.mk "Later" (Some (36657 # 10)%Q) (Some (3 # 2)%Q))
  = "[" ++ two_digits (Qfloor (36657 # 10) / 3600)%Z ++ ":"
        ++ two_digits (Qfloor (36657 # 10) mod 3600 / 60)%Z ++ ":"
        ++ two_digits (Qfloor (36657 # 10) mod 60)%Z ++ "]"
  /\ String.length
       (TranscriptSegment.format_timestamp
          (TranscriptSegment.mk "Later" (Some (36657 # 10)%Q) (Some (3 # 2)%Q)))
     = 10
  /\ (forall s' : Q,
        10 <= String.length
                (TranscriptSegment.format_timestamp
                   (TranscriptSegment.mk "Later" (Some s') (Some (3 # 2)%Q)))).
Proof.
  apply (X22_timestamp_width "Later" (36657 # 10)%Q (Some (3 # 2)%Q)).
  split; [discriminate | reflexivity].
Defined.

(** X23. [full_text] is the texts of the segments in their order with a
    single space between two of them and none at either end: it is empty
    for a transcript without segments, a further segment appends a space
    and its text, and its length is the total length of the texts plus one
    per gap. *)
Theorem X23_full_text :
  forall (video_id language_code : string) (generated translatable : bool),
    let transcript segs :=
      Transcript.mk video_id language_code segs generated translatable in
    Transcript.full_text (transcript []) = ""
    /\ (forall segs seg,
          Transcript.full_text (transcript (segs ++ [seg])%list)
          = match segs with
            | [] => TranscriptSegment.text seg
            | _ => Transcript.full_text (transcript segs)
                   ++ " " ++ TranscriptSegment.text seg
            end)
    /\ (forall segs,
          String.length (Transcript.full_text (transcript segs))
          = text_lengths segs + (Transcript.len (transcript segs) - 1)).
Proof.
  intros video_id language_code generated translatable transcript.
  split; [reflexivity | split].
  - intros segs seg. unfold Transcript.full_text, transcript.
    cbn [Transcript.segments]. rewrite map_app. cbn [map].
    rewrite RenderFacts.join_snoc. destruct segs; reflexivity.
  - intros segs. apply LineFacts.full_text_length.
Qed.

(** X24. [total_duration] looks at the last segment only: when that segment
    has a start and a duration whose sum is not zero, the total duration is
    that sum, whatever the earlier segments are; when it lacks its start or
    its duration, the total duration is absent. *)
Theorem X24_total_duration_of_last_segment :
  forall (video_id language_code : string) (generated translatable : bool)
         (segs : list TranscriptSegment.t) (text : string) (s d : Q),
    ~ (s + d == 0)%Q ->
    let transcript last_seg :=
      Transcript.mk video_id language_code (segs ++ [last_seg])%list
                    generated translatable in
    Transcript.total_duration
      (transcript (TranscriptSegment.mk text (Some s) (Some d)))
    = Some (s + d)%Q
    /\ (forall d',
          Transcript.total_duration (transcript (TranscriptSegment.mk text None d'))
          = None)
    /\ (forall s',
          Transcript.total_duration (transcript (TranscriptSegment.mk text s' None))
          = None).
Proof.
  intros video_id language_code generated translatable segs text s d N transcript.
  repeat split.
  - apply (TranscriptFacts.total_duration_nonzero _
             (TranscriptSegment.mk text (Some s) (Some d))).
    + apply LineFacts.last_segment_snoc.
    + reflexivity.
    + exact N.
  - intros d'. rewrite TranscriptFacts.total_duration_cases.
    unfold transcript. now rewrite LineFacts.last_segment_snoc.
  - intros s'. rewrite TranscriptFacts.total_duration_cases.
    unfold transcript. rewrite LineFacts.last_segment_snoc.
    destruct s'; reflexivity.
Qed.

(** A run of X24: two segments, the last one from 2.5 to 5.5 seconds. *)
Lemma X24_total_duration_of_last_segment_witness :
  Transcript.total_duration
    (Transcript.mk "dQw4w9WgXcQ" "en"
       ([TranscriptSegment.mk "Hello world" (Some 0%Q) (Some (5 # 2)%Q)]
        ++ [TranscriptSegment.mk "This is a test" (Some (5 # 2)%Q) (Some 3%Q)])%list
       false false)
  = Some ((5 # 2) + 3)%Q.
Proof.
  apply (X24_total_duration_of_last_segment "dQw4w9WgXcQ" "en" false false
           [TranscriptSegment.mk "Hello world" (Some 0%Q) (Some (5 # 2)%Q)]
           "This is a test" (5 # 2)%Q 3%Q).
  discriminate.
Defined.

(* ===================================================================== *)
(** * The command [main] *)
(* ===================================================================== *)

Module CliFacts.
Import Api TranscriptExtractor Formatters Spec Cli.

Lemma package_error_cases e :
  package_error e = true ->
  (exists m, e = LanguageNotFoundError m)
  \/ (exists m, e = TranscriptNotAvailableError m)
  \/ (exists m, e = NetworkError m).
Proof. destruct e; cbn; try discriminate; eauto. Qed.

Section Run.
Variable host : Host.
Variable svc : Service.
Variables (url output_format : string) (output_file language_code : option string).
Variables (timestamps list_languages force : bool).
Variable s : State.

Local Abbreviation run :=
  (main host svc url output_format output_file language_code
        timestamps list_languages force s).

Lemma resolve_ok v : Video.from_url url = Return v -> resolve url s = (Val v, s).
Proof. intros H. unfold resolve, ctry, of_result. now rewrite H. Qed.

(** A reference that cannot be resolved. *)
Lemma run_invalid_reference m :
  Video.from_url url = Raise (InvalidUrlError m) ->
  run = (SysExit 1,
         mkState (world s)
           (trace s ++
            [Stderr ("Error: " ++ m);
             Stderr "Expected format: https://youtube.com/watch?v=VIDEO_ID, https://youtu.be/VIDEO_ID, or VIDEO_ID"])).
Proof.
  intros H. unfold main, ctry at 1, main_body, cbind at 1, resolve, ctry, of_result.
  rewrite H. cbn. now rewrite <- app_assoc.
Qed.

(** [--list-languages] together with an output option. *)
Lemma run_listing_conflict v :
  Video.from_url url = Return v ->
  list_languages = true ->
  given output_file || timestamps || negb (String.eqb output_format "plain") = true ->
  run = (SysExit 1,
         mkState (world s)
           (trace s ++
            [Stderr "Error: --list-languages cannot be used with other output options"])).
Proof.
  intros H L A. unfold main, ctry at 1, main_body, cbind at 1.
  rewrite (resolve_ok v H), L. unfold listing, cbind at 1. rewrite A. reflexivity.
Qed.

(** The extraction fails. *)
Lemma run_extraction_fails v e w' :
  Video.from_url url = Return v ->
  list_languages = false ->
  extract_transcript svc default_retries (Video.video_id v) language_code (world s)
  = (Raise e, w') ->
  run = (SysExit (match e with LanguageNotFoundError _ => 3 | _ => 2 end),
         mkState w' (trace s ++ [Stdout "Fetching transcript..."; Stderr ("Error: " ++ str_exn e)])).
Proof.
  intros H L X. unfold main, ctry at 1, main_body, cbind at 1.
  rewrite (resolve_ok v H), L. unfold cbind at 1, fetching, cbind at 1.
  cbn [echo emit]. unfold ctry, of_M. cbn [world trace]. rewrite X.
  destruct (ExtractMore.extract_raise_handled _ _ _ _ _ _ _ X) as [e0 E].
  pose proof (proj1 (ExtractMore.extract_handlers_package
                       (Video.video_id v) language_code e0)) as P.
  rewrite <- E in P.
  destruct (package_error_cases e P) as [[m ->]|[[m ->]|[m ->]]];
    cbn; now rewrite <- app_assoc.
Qed.

(** The transcript as the format asked for prints it. *)
Lemma formatting_ok t st text :
  (lower output_format = "plain" /\ text = plain_format t timestamps)
  \/ (lower output_format = "markdown" /\ text = markdown_format t timestamps) ->
  formatting output_format timestamps t st = (Val text, st).
Proof.
  intros [[F ->]|[F ->]]; unfold formatting, ctry, cbind, of_result;
    rewrite F; reflexivity.
Qed.

Section Extracted.
Variables (v : Video.t) (t : Transcript.t) (w' : World) (text : string).
Hypothesis resolved : Video.from_url url = Return v.
Hypothesis not_listing : list_languages = false.
Hypothesis extracted :
  extract_transcript svc default_retries (Video.video_id v) language_code (world s)
  = (Return t, w').
Hypothesis formatted :
  (lower output_format = "plain" /\ text = plain_format t timestamps)
  \/ (lower output_format = "markdown" /\ text = markdown_format t timestamps).

(** The run up to the output of the formatted transcript. *)
Lemma run_then_output :
  run = ctry (output host output_file force text)
             (fun e => Some (main_handlers e))
             (mkState w' (trace s ++ [Stdout "Fetching transcript..."])).
Proof.
  unfold main, ctry at 1, main_body, cbind at 1.
  rewrite (resolve_ok v resolved), not_listing.
  unfold cbind at 1, fetching, cbind at 1. cbn [echo emit].
  unfold ctry, of_M. cbn [world trace]. rewrite extracted.
  unfold cbind at 1. rewrite (formatting_ok t _ text formatted).
  reflexivity.
Qed.

Lemma run_to_stdout :
  given output_file = false ->
  run = (Val tt,
         mkState w' (trace s ++ [Stdout "Fetching transcript..."; Stdout text])).
Proof.
  intros G. rewrite run_then_output. unfold ctry, output.
  destruct output_file as [[|c rest]|]; try discriminate G;
    cbn; now rewrite <- app_assoc.
Qed.

Lemma run_declined c rest :
  output_file = Some (String c rest) ->
  exists_ host (String c rest) = true -> force = false ->
  confirm_ host ("File '" ++ String c rest ++ "' already exists. Overwrite?") = false ->
  run = (SysExit 0,
         mkState w' (trace s ++ [Stdout "Fetching transcript...";
                                 Stdout "Operation cancelled."])).
Proof.
  intros O E F K. rewrite run_then_output. unfold ctry, output. rewrite O.
  unfold writing, cbind at 1. rewrite E, F. cbn [andb negb]. rewrite K.
  cbn. now rewrite <- app_assoc.
Qed.

Lemma run_writes c rest :
  output_file = Some (String c rest) ->
  exists_ host (String c rest) && negb force = false
  \/ confirm_ host ("File '" ++ String c rest ++ "' already exists. Overwrite?") = true ->
  mkdir_error host (String c rest) = None ->
  run = match write_error host (String c rest) with
        | None =>
            (Val tt,
             mkState w' (trace s ++
                         [Stdout "Fetching transcript...";
                          MadeParentOf (String c rest);
                          Wrote (String c rest) text;
                          Stdout ("Transcript saved to '" ++ String c rest ++ "'")]))
        | Some msg =>
            (SysExit 5,
             mkState w' (trace s ++
                         [Stdout "Fetching transcript...";
                          MadeParentOf (String c rest);
                          Stderr ("Error: Failed to write to '" ++ String c rest
                                  ++ "': " ++ msg)]))
        end.
Proof.
  intros O A D. rewrite run_then_output. unfold ctry, output. rewrite O.
  unfold writing, cbind at 1.
  assert (G : (if exists_ host (String c rest) && negb force
               then if negb (confirm_ host ("File '" ++ String c rest
                                            ++ "' already exists. Overwrite?"))
                    then cbind (echo "Operation cancelled.") (fun _ => sys_exit 0)
                    else cret tt
               else cret tt)
              (mkState w' (trace s ++ [Stdout "Fetching transcript..."]))
              = (Val tt, mkState w' (trace s ++ [Stdout "Fetching transcript..."]))).
  { destruct A as [A|A]; [now rewrite A|].
    rewrite A. destruct (_ && _); reflexivity. }
  rewrite G, D.
  destruct (write_error host (String c rest)) as [msg|];
    cbn; rewrite <- !app_assoc; reflexivity.
Qed.

End Extracted.
End Run.
End CliFacts.

Import Cli.

(** X25. When the reference cannot be resolved ([InvalidUrlError]), [main]
    prints the error and the expected formats on the error stream and exits
    with status 1, before any remote call and without printing anything on
    the standard output. *)
Theorem X25_main_invalid_reference :
  forall (host : Host) (svc : Service) (url output_format : string)
         (output_file language_code : option string)
         (timestamps list_languages force : bool) (s : State) (m : string),
    Video.from_url url = Raise (InvalidUrlError m) ->
    main host svc url output_format output_file language_code
         timestamps list_languages force s
    = (SysExit 1,
       mkState (world s)
         (trace s ++
          [Stderr ("Error: " ++ m);
           Stderr "Expected format: https://youtube.com/watch?v=VIDEO_ID, https://youtu.be/VIDEO_ID, or VIDEO_ID"])).
Proof.
  intros. now apply CliFacts.run_invalid_reference.
Qed.

(** A run of X25: an address of another site. *)
Lemma X25_main_invalid_reference_witness :
  main host_fresh (svc_of catalog_fr) "https://vimeo.com/123456" "plain" None None
       false false false state0
  = (SysExit 1,
     mkState (world state0)
       (trace state0 ++
        [Stderr ("Error: " ++ "Invalid YouTube URL format: https://vimeo.com/123456");
         Stderr "Expected format: https://youtube.com/watch?v=VIDEO_ID, https://youtu.be/VIDEO_ID, or VIDEO_ID"])).
Proof.
  apply (X25_main_invalid_reference host_fresh (svc_of catalog_fr)
           "https://vimeo.com/123456" "plain" None None false false false state0).
  reflexivity.
Defined.

(** X26. With [--list-languages] and any output option (an output file,
    timestamps, or a format other than [plain]), [main] refuses the
    combination: one error line, exit status 1, no remote call. *)
Theorem X26_main_list_languages_conflict :
  forall (host : Host) (svc : Service) (url output_format : string)
         (output_file language_code : option string)
         (timestamps force : bool) (s : State) (v : Video.t),
    Video.from_url url = Return v ->
    given output_file || timestamps || negb (String.eqb output_format "plain") = true ->
    main host svc url output_format output_file language_code
         timestamps true force s
    = (SysExit 1,
       mkState (world s)
         (trace s ++
          [Stderr "Error: --list-languages cannot be used with other output options"])).
Proof.
  intros host svc url output_format output_file language_code timestamps force s v H A.
  now apply (CliFacts.run_listing_conflict host svc url output_format output_file
               language_code timestamps true force s v).
Qed.

(** A run of X26: the listing is asked for together with timestamps. *)
Lemma X26_main_list_languages_conflict_witness :
  main host_fresh (svc_of catalog_fr) "dQw4w9WgXcQ" "plain" None None
       true true false state0
  = (SysExit 1,
     mkState (world state0)
       (trace state0 ++
        [Stderr "Error: --list-languages cannot be used with other output options"])).
Proof.
  apply (X26_main_list_languages_conflict host_fresh (svc_of catalog_fr)
           "dQw4w9WgXcQ" "plain" None None true false state0
           (bare_video "dQw4w9WgXcQ")).
  - reflexivity.
  - reflexivity.
Defined.

(** X27. When the extraction fails, [main] prints the error on the error
    stream and exits with status 3 for a [LanguageNotFoundError] and with
    status 2 in every other case; nothing is formatted or written. *)
Theorem X27_main_extraction_failure :
  forall (host : Host) (svc : Service) (url output_format : string)
         (output_file language_code : option string)
         (timestamps force : bool) (s : State) (v : Video.t)
         (e : exn) (w' : World),
    Video.from_url url = Return v ->
    extract_transcript svc default_retries (Video.video_id v) language_code (world s)
    = (Raise e, w') ->
    main host svc url output_format output_file language_code
         timestamps false force s
    = (SysExit (match e with LanguageNotFoundError _ => 3 | _ => 2 end),
       mkState w' (trace s ++ [Stdout "Fetching transcript...";
                               Stderr ("Error: " ++ str_exn e)])).
Proof.
  intros host svc url output_format output_file language_code timestamps force
         s v e w' H X.
  now apply (CliFacts.run_extraction_fails host svc url output_format output_file
               language_code timestamps false force s v e w').
Qed.

(** A run of X27: German is asked for, the catalog holds French only. *)
Lemma X27_main_extraction_failure_witness :
  main host_fresh (svc_of catalog_fr) "dQw4w9WgXcQ" "plain" (Some "out.txt")
       (Some "de") false false false state0
  = (SysExit 3,
     mkState (mkWorld 1 [] 0)
       (trace state0 ++
        [Stdout "Fetching transcript...";
         Stderr ("Error: " ++ str_exn (LanguageNotFoundError
           "No transcript found for language 'de' in video dQw4w9WgXcQ. Use --list-languages to see available options."))])).
Proof.
  apply (X27_main_extraction_failure host_fresh (svc_of catalog_fr) "dQw4w9WgXcQ"
           "plain" (Some "out.txt") (Some "de") false false state0
           (bare_video "dQw4w9WgXcQ")
           (LanguageNotFoundError
              "No transcript found for language 'de' in video dQw4w9WgXcQ. Use --list-languages to see available options.")
           (mkWorld 1 [] 0)).
  - reflexivity.
  - reflexivity.
Defined.

(** X28. When the reference resolves, the extraction succeeds, the format
    is [plain] or [markdown] (in any letter case) and no output file is
    given, [main] prints the progress line and then the transcript as the
    renderer of that format gives it, and returns. *)
Theorem X28_main_prints_transcript :
  forall (host : Host) (svc : Service) (url output_format : string)
         (output_file language_code : option string)
         (timestamps force : bool) (s : State) (v : Video.t)
         (t : Transcript.t) (w' : World) (text : string),
    Video.from_url url = Return v ->
    extract_transcript svc default_retries (Video.video_id v) language_code (world s)
    = (Return t, w') ->
    (lower output_format = "plain" /\ text = plain_format t timestamps)
    \/ (lower output_format = "markdown" /\ text = markdown_format t timestamps) ->
    given output_file = false ->
    main host svc url output_format output_file language_code
         timestamps false force s
    = (Val tt, mkState w' (trace s ++ [Stdout "Fetching transcript..."; Stdout text])).
Proof.
  intros host svc url output_format output_file language_code timestamps force
         s v t w' text H X F G.
  now apply (CliFacts.run_to_stdout host svc url output_format output_file
               language_code timestamps false force s v t w' text).
Qed.

(** A run of X28: the markdown format in capital letters, with
    timestamps. *)
Lemma X28_main_prints_transcript_witness :
  main host_fresh (svc_of catalog_fr) "https://youtu.be/dQw4w9WgXcQ" "MARKDOWN"
       None None true false false state0
  = (Val tt,
     mkState (mkWorld 2 [] 0)
       (trace state0 ++ [Stdout "Fetching transcript...";
                         Stdout (markdown_format transcript_fr true)])).
Proof.
  apply (X28_main_prints_transcript host_fresh (svc_of catalog_fr)
           "https://youtu.be/dQw4w9WgXcQ" "MARKDOWN" None None true false state0
           (Video.cls "dQw4w9WgXcQ" "https://youtu.be/dQw4w9WgXcQ")
           transcript_fr (mkWorld 2 [] 0)).
  - reflexivity.
  - reflexivity.
  - right. split; reflexivity.
  - reflexivity.
Defined.

(** X29. When the output file exists, [--force] is not given and the user
    declines the confirmation, [main] prints that the operation is
    cancelled and exits with status 0: no directory is made and nothing is
    written. *)
Theorem X29_main_declined_overwrite :
  forall (host : Host) (svc : Service) (url output_format : string)
         (language_code : option string) (timestamps : bool) (s : State)
         (v : Video.t) (t : Transcript.t) (w' : World) (text : string)
         (c : ascii) (rest : string),
    Video.from_url url = Return v ->
    extract_transcript svc default_retries (Video.video_id v) language_code (world s)
    = (Return t, w') ->
    (lower output_format = "plain" /\ text = plain_format t timestamps)
    \/ (lower output_format = "markdown" /\ text = markdown_format t timestamps) ->
    exists_ host (String c rest) = true ->
    confirm_ host ("File '" ++ String c rest ++ "' already exists. Overwrite?") = false ->
    main host svc url output_format (Some (String c rest)) language_code
         timestamps false false s
    = (SysExit 0,
       mkState w' (trace s ++ [Stdout "Fetching transcript...";
                               Stdout "Operation cancelled."])).
Proof.
  intros host svc url output_format language_code timestamps s v t w' text c rest
         H X F E K.
  now apply (CliFacts.run_declined host svc url output_format
               (Some (String c rest)) language_code timestamps false false s
               v t w' text H eq_refl X F c rest).
Qed.

(** A run of X29. *)
Lemma X29_main_declined_overwrite_witness :
  main host_declining (svc_of catalog_fr) "dQw4w9WgXcQ" "plain"
       (Some (String "o" "ut.txt")) None false false false state0
  = (SysExit 0,
     mkState (mkWorld 2 [] 0)
       (trace state0 ++ [Stdout "Fetching transcript...";
                         Stdout "Operation cancelled."])).
Proof.
  apply (X29_main_declined_overwrite host_declining (svc_of catalog_fr)
           "dQw4w9WgXcQ" "plain" None false state0 (bare_video "dQw4w9WgXcQ")
           transcript_fr (mkWorld 2 [] 0) (plain_format transcript_fr false)
           "o" "ut.txt").
  - reflexivity.
  - reflexivity.
  - left. split; reflexivity.
  - reflexivity.
  - reflexivity.
Defined.

(** X30. When the transcript is to be written to a file that does not
    exist, or [--force] is given, or the user confirms, and the parent
    directory can be made: if the write succeeds the file receives exactly
    the formatted transcript and [main] reports it and returns; if the
    write raises an [OSError], [main] prints the failure on the error stream
    and exits with status 5. *)
Theorem X30_main_writes_file :
  forall (host : Host) (svc : Service) (url output_format : string)
         (language_code : option string) (timestamps force : bool) (s : State)
         (v : Video.t) (t : Transcript.t) (w' : World) (text : string)
         (c : ascii) (rest : string),
    Video.from_url url = Return v ->
    extract_transcript svc default_retries (Video.video_id v) language_code (world s)
    = (Return t, w') ->
    (lower output_format = "plain" /\ text = plain_format t timestamps)
    \/ (lower output_format = "markdown" /\ text = markdown_format t timestamps) ->
    exists_ host (String c rest) && negb force = false
    \/ confirm_ host ("File '" ++ String c rest ++ "' already exists. Overwrite?") = true ->
    mkdir_error host (String c rest) = None ->
    main host svc url output_format (Some (String c rest)) language_code
         timestamps false force s
    = match write_error host (String c rest) with
      | None =>
          (Val tt,
           mkState w' (trace s ++
                       [Stdout "Fetching transcript...";
                        MadeParentOf (String c rest);
                        Wrote (String c rest) text;
                        Stdout ("Transcript saved to '" ++ String c rest ++ "'")]))
      | Some msg =>
          (SysExit 5,
           mkState w' (trace s ++
                       [Stdout "Fetching transcript...";
                        MadeParentOf (String c rest);
                        Stderr ("Error: Failed to write to '" ++ String c rest
                                ++ "': " ++ msg)]))
      end.
Proof.
  intros host svc url output_format language_code timestamps force s v t w' text
         c rest H X F A D.
  now apply (CliFacts.run_writes host svc url output_format
               (Some (String c rest)) language_code timestamps false force s
               v t w' text H eq_refl X F c rest).
Qed.

(** A run of X30: the host refuses the write. *)
Lemma X30_main_writes_file_witness :
  main host_read_only (svc_of catalog_fr) "dQw4w9WgXcQ" "plain"
       (Some (String "o" "ut.txt")) None false false false state0
  = match write_error host_read_only (String "o" "ut.txt") with
    | None =>
        (Val tt,
         mkState (mkWorld 2 [] 0)
           (trace state0 ++
            [Stdout "Fetching transcript...";
             MadeParentOf (String "o" "ut.txt");
             Wrote (String "o" "ut.txt") (plain_format transcript_fr false);
             Stdout ("Transcript saved to '" ++ String "o" "ut.txt" ++ "'")]))
    | Some msg =>
        (SysExit 5,
         mkState (mkWorld 2 [] 0)
           (trace state0 ++
            [Stdout "Fetching transcript...";
             MadeParentOf (String "o" "ut.txt");
             Stderr ("Error: Failed to write to '" ++ String "o" "ut.txt"
                     ++ "': " ++ msg)]))
    end.
Proof.
  apply (X30_main_writes_file host_read_only (svc_of catalog_fr)
           "dQw4w9WgXcQ" "plain" None false false state0 (bare_video "dQw4w9WgXcQ")
           transcript_fr (mkWorld 2 [] 0) (plain_format transcript_fr false)
           "o" "ut.txt").
  - reflexivity.
  - reflexivity.
  - left. split; reflexivity.
  - left. reflexivity.
  - reflexivity.
Defined.
